(** * District 5 survey service and SMS notifier

    A shallow embedding of [app.py] (survey submission, storage, listing,
    statistics and CSV export) and of [sms_bot.py] (phone formatting,
    single and bulk sends, the log and the command line), with the
    properties of the design document and of the code stated over it.

    Python values that reach the code are the values [json.load] builds:
    [None], booleans, integers, strings, lists and dicts.  Numbers with a
    fraction or an exponent are not part of the model.  A Python [str] is a
    [string]; its characters are the code points below 256.

    Requests are served one after the other, each to its end: what
    overlapping requests do to the backup file is outside the model.  So
    is the lock a failed INSERT can leave on the database; no statement
    promises an insert that succeeds. *)

From Stdlib Require Import String Ascii List ZArith Bool Lia Arith.
From Stdlib Require Import Decimal DecimalString DecimalPos DecimalZ DecimalFacts.
From Stdlib Require Import Sorted Permutation OrderedTypeEx.
Import ListNotations.

Set Warnings "-register-all".

Local Open Scope string_scope.
Local Open Scope Z_scope.

(** ** Python values *)

Inductive json : Type :=
| JNull
| JBool (b : bool)
| JInt (n : Z)
| JStr (s : string)
| JArr (l : list json)
| JObj (kv : list (string * json)).

(** A dict is kept as the list of its items in insertion order. *)
Definition dict : Type := list (string * json).

(** [k in d] and [d[k]] (the latter raises [KeyError] on [None]). *)
Fixpoint dict_lookup (k : string) (d : dict) : option json :=
  match d with
  | [] => None
  | (k', v) :: d' => if String.eqb k k' then Some v else dict_lookup k d'
  end.

Definition dict_mem (k : string) (d : dict) : bool :=
  match dict_lookup k d with Some _ => true | None => false end.

(** [d.get(k, default)] and [d.get(k)], whose default is [None]. *)
Definition dict_get_default (k : string) (dflt : json) (d : dict) : json :=
  match dict_lookup k d with Some v => v | None => dflt end.

Definition dict_get (k : string) (d : dict) : json :=
  dict_get_default k JNull d.

(** [d[k] = v]: an existing key keeps its place, a new key goes last. *)
Fixpoint dict_set (k : string) (v : json) (d : dict) : dict :=
  match d with
  | [] => [(k, v)]
  | (k', v') :: d' =>
      if String.eqb k k' then (k, v) :: d' else (k', v') :: dict_set k v d'
  end.

(** Truth value of a Python object, as [not x] and [if x] test it. *)
Definition truthy (v : json) : bool :=
  match v with
  | JNull => false
  | JBool b => b
  | JInt n => negb (n =? 0)
  | JStr s => negb (String.eqb s "")
  | JArr l => match l with [] => false | _ => true end
  | JObj kv => match kv with [] => false | _ => true end
  end.

(** Exceptions are kept by the text [str(e)] gives. *)
Inductive result (A : Type) : Type :=
| Ok (a : A)
| Raise (msg : string).
Arguments Ok {A} a.
Arguments Raise {A} msg.

Definition bind {A B : Type} (r : result A) (k : A -> result B) : result B :=
  match r with
  | Ok a => k a
  | Raise m => Raise m
  end.

Notation "x <- r ;; k" := (bind r (fun x => k))
  (at level 61, r at next level, right associativity).
Notation "' p <- r ;; k" := (bind r (fun x => let 'p := x in k))
  (at level 61, p pattern, r at next level, right associativity).

(** [len(x)]. *)
Definition py_len (v : json) : result Z :=
  match v with
  | JStr s => Ok (Z.of_nat (String.length s))
  | JArr l => Ok (Z.of_nat (List.length l))
  | JObj kv => Ok (Z.of_nat (List.length kv))
  | JNull => Raise "object of type 'NoneType' has no len()"
  | JBool _ => Raise "object of type 'bool' has no len()"
  | JInt _ => Raise "object of type 'int' has no len()"
  end.

(** ** [json.dumps] and [json.loads] *)

Definition dquote : ascii := "034"%char.
Definition backslash : ascii := "092"%char.

Definition hex_digit (n : nat) : ascii :=
  match n with
  | 0 => "0" | 1 => "1" | 2 => "2" | 3 => "3" | 4 => "4" | 5 => "5"
  | 6 => "6" | 7 => "7" | 8 => "8" | 9 => "9" | 10 => "a" | 11 => "b"
  | 12 => "c" | 13 => "d" | 14 => "e" | _ => "f"
  end%char%nat.

(** The replacement [ESCAPE_ASCII] makes for one character
    ([ensure_ascii] is on by default). *)
Definition escape_char (c : ascii) : string :=
  let n := nat_of_ascii c in
  if Ascii.eqb c backslash then String backslash (String backslash "")
  else if Ascii.eqb c dquote then String backslash (String dquote "")
  else if Nat.eqb n 8 then "\b"
  else if Nat.eqb n 12 then "\f"
  else if Nat.eqb n 10 then "\n"
  else if Nat.eqb n 13 then "\r"
  else if Nat.eqb n 9 then "\t"
  else if Nat.leb 32 n && Nat.leb n 126 then String c ""
  else String backslash
         (String "u" (String "0" (String "0"
            (String (hex_digit (Nat.div n 16))
               (String (hex_digit (Nat.modulo n 16)) ""))))).

Fixpoint escape (s : string) : string :=
  match s with
  | EmptyString => EmptyString
  | String c s' => escape_char c ++ escape s'
  end.

Definition encode_string (s : string) : string :=
  String dquote (escape s ++ String dquote "").

Definition encode_int (n : Z) : string :=
  NilZero.string_of_int (Z.to_int n).

(** [json.dumps(v)] with the default separators [", "] and [": "]. *)
Fixpoint json_dumps (v : json) : string :=
  match v with
  | JNull => "null"
  | JBool true => "true"
  | JBool false => "false"
  | JInt n => encode_int n
  | JStr s => encode_string s
  | JArr l =>
      "[" ++
      match l with
      | [] => ""
      | x :: l' =>
          json_dumps x ++
          (fix more (l : list json) : string :=
             match l with
             | [] => ""
             | y :: l'' => ", " ++ json_dumps y ++ more l''
             end) l'
      end ++ "]"
  | JObj kv =>
      "{" ++
      match kv with
      | [] => ""
      | (k, x) :: kv' =>
          encode_string k ++ ": " ++ json_dumps x ++
          (fix more (kv : list (string * json)) : string :=
             match kv with
             | [] => ""
             | (k', y) :: kv'' =>
                 ", " ++ encode_string k' ++ ": " ++ json_dumps y ++ more kv''
             end) kv'
      end ++ "}"
  end.

Definition is_ws (c : ascii) : bool :=
  let n := nat_of_ascii c in
  Nat.eqb n 32 || Nat.eqb n 9 || Nat.eqb n 10 || Nat.eqb n 13.

Fixpoint skip_ws (s : string) : string :=
  match s with
  | EmptyString => EmptyString
  | String c s' => if is_ws c then skip_ws s' else s
  end.

Definition hex_value (c : ascii) : option nat :=
  let n := nat_of_ascii c in
  if Nat.leb 48 n && Nat.leb n 57 then Some (n - 48)%nat
  else if Nat.leb 97 n && Nat.leb n 102 then Some (n - 87)%nat
  else if Nat.leb 65 n && Nat.leb n 70 then Some (n - 55)%nat
  else None.

(** The character a [\uXXXX] escape stands for; [None] when a digit is
    not hexadecimal or the code point is not below 256. *)
Definition decode_uXXXX (h1 h2 h3 h4 : ascii) : option ascii :=
  match hex_value h1, hex_value h2, hex_value h3, hex_value h4 with
  | Some a, Some b, Some c, Some d =>
      if Nat.eqb a 0 && Nat.eqb b 0 then Some (ascii_of_nat (16 * c + d))
      else None
  | _, _, _, _ => None
  end.

(** The [BACKSLASH] table of the decoder. *)
Definition unescape (e : ascii) : option ascii :=
  if Ascii.eqb e dquote then Some dquote
  else if Ascii.eqb e backslash then Some backslash
  else if Ascii.eqb e "/" then Some "/"%char
  else if Ascii.eqb e "b" then Some "008"%char
  else if Ascii.eqb e "f" then Some "012"%char
  else if Ascii.eqb e "n" then Some "010"%char
  else if Ascii.eqb e "r" then Some "013"%char
  else if Ascii.eqb e "t" then Some "009"%char
  else None.

(** [scanstring] (strict): reads a string literal whose opening quote has
    been consumed; returns the string and the text after the closing quote. *)
Fixpoint scanstring (s : string) : option (string * string) :=
  match s with
  | EmptyString => None
  | String c r =>
      if Ascii.eqb c dquote then Some (EmptyString, r)
      else if Ascii.eqb c backslash then
        match r with
        | EmptyString => None
        | String e r1 =>
            if Ascii.eqb e "u" then
              match r1 with
              | String h1 (String h2 (String h3 (String h4 r2))) =>
                  match decode_uXXXX h1 h2 h3 h4 with
                  | Some ch =>
                      match scanstring r2 with
                      | Some (t, r') => Some (String ch t, r')
                      | None => None
                      end
                  | None => None
                  end
              | _ => None
              end
            else
              match unescape e with
              | Some ch =>
                  match scanstring r1 with
                  | Some (t, r') => Some (String ch t, r')
                  | None => None
                  end
              | None => None
              end
        end
      else if Nat.ltb (nat_of_ascii c) 32 then None
      else
        match scanstring r with
        | Some (t, r') => Some (String c t, r')
        | None => None
        end
  end.

Definition digit_of_char (c : ascii) : option (uint -> uint) :=
  match nat_of_ascii c with
  | 48 => Some D0 | 49 => Some D1 | 50 => Some D2 | 51 => Some D3
  | 52 => Some D4 | 53 => Some D5 | 54 => Some D6 | 55 => Some D7
  | 56 => Some D8 | 57 => Some D9 | _ => None
  end%nat.

(** The longest run of decimal digits at the head of the text. *)
Fixpoint read_uint (s : string) : uint * string :=
  match s with
  | EmptyString => (Nil, EmptyString)
  | String c r =>
      match digit_of_char c with
      | Some dk => let (d, r') := read_uint r in (dk d, r')
      | None => (Nil, s)
      end
  end.

Definition starts_fraction (s : string) : bool :=
  match s with
  | String c _ => Ascii.eqb c "." || Ascii.eqb c "e" || Ascii.eqb c "E"
  | EmptyString => false
  end.

Definition uint_eqb (a b : uint) : bool :=
  String.eqb (NilEmpty.string_of_uint a) (NilEmpty.string_of_uint b).

(** [NUMBER_RE] restricted to integers: an optional sign, then [0] or a
    digit run that does not start with [0].  A text that goes on with a
    fraction or an exponent is a float and is rejected here. *)
Definition scan_digits (neg : bool) (s : string) : option (json * string) :=
  let (d, r) := read_uint s in
  match d with
  | Nil => None
  | _ =>
      if negb (uint_eqb (unorm d) d) then None
      else if starts_fraction r then None
      else Some (JInt (Z.of_int (if neg then Neg d else Pos d)), r)
  end.

Definition scan_number (s : string) : option (json * string) :=
  match s with
  | EmptyString => None
  | String c r => if Ascii.eqb c "-" then scan_digits true r
                  else scan_digits false s
  end.

Fixpoint strip_prefix (p s : string) : option string :=
  match p with
  | EmptyString => Some s
  | String a p' =>
      match s with
      | String b s' => if Ascii.eqb a b then strip_prefix p' s' else None
      | EmptyString => None
      end
  end.

(** The loop of [JSONArray]: [s] stands at the first character of an
    element. *)
Fixpoint parse_items (scan : string -> option (json * string)) (n : nat)
         (s : string) : option (list json * string) :=
  match n with
  | O => None
  | S n' =>
      match scan s with
      | None => None
      | Some (v, r) =>
          match skip_ws r with
          | EmptyString => None
          | String c r' =>
              if Ascii.eqb c "]" then Some ([v], r')
              else if Ascii.eqb c "," then
                match parse_items scan n' (skip_ws r') with
                | Some (vs, r'') => Some (v :: vs, r'')
                | None => None
                end
              else None
          end
      end
  end.

(** The loop of [JSONObject]: [s] stands at the opening quote of a key.
    The pairs are returned in the order read.  For a text that has a key
    twice in one object this is not the dict [json.load] builds, which
    keeps the last value only; a dict written by [json_dumps] has no
    repeated key, and a statement about a text from elsewhere asks that
    the value read has none ([distinct_keys]). *)
Fixpoint parse_members (scan : string -> option (json * string)) (n : nat)
         (s : string) : option (list (string * json) * string) :=
  match n with
  | O => None
  | S n' =>
      match s with
      | EmptyString => None
      | String q r0 =>
          if negb (Ascii.eqb q dquote) then None
          else
            match scanstring r0 with
            | None => None
            | Some (k, r1) =>
                match skip_ws r1 with
                | EmptyString => None
                | String c r2 =>
                    if negb (Ascii.eqb c ":") then None
                    else
                      match scan (skip_ws r2) with
                      | None => None
                      | Some (v, r3) =>
                          match skip_ws r3 with
                          | EmptyString => None
                          | String c' r' =>
                              if Ascii.eqb c' "}" then Some ([(k, v)], r')
                              else if Ascii.eqb c' "," then
                                match parse_members scan n' (skip_ws r') with
                                | Some (kvs, r'') => Some ((k, v) :: kvs, r'')
                                | None => None
                                end
                              else None
                          end
                      end
                end
            end
      end
  end.

(** [scan_once]: one value at the head of the text.  [fuel] bounds the
    nesting depth and the number of elements; the length of the text is
    always enough. *)
Fixpoint scan_once (fuel : nat) (s : string) : option (json * string) :=
  match fuel with
  | O => None
  | S fuel' =>
      match s with
      | EmptyString => None
      | String c r =>
          if Ascii.eqb c dquote then
            match scanstring r with
            | Some (t, r') => Some (JStr t, r')
            | None => None
            end
          else if Ascii.eqb c "{" then
            match skip_ws r with
            | EmptyString => None
            | String c' r' as r0 =>
                if Ascii.eqb c' "}" then Some (JObj [], r')
                else
                  match parse_members (scan_once fuel') fuel' r0 with
                  | Some (kv, r'') => Some (JObj kv, r'')
                  | None => None
                  end
            end
          else if Ascii.eqb c "[" then
            match skip_ws r with
            | EmptyString => None
            | String c' r' as r0 =>
                if Ascii.eqb c' "]" then Some (JArr [], r')
                else
                  match parse_items (scan_once fuel') fuel' r0 with
                  | Some (l, r'') => Some (JArr l, r'')
                  | None => None
                  end
            end
          else if Ascii.eqb c "n" then
            match strip_prefix "ull" r with
            | Some r' => Some (JNull, r')
            | None => None
            end
          else if Ascii.eqb c "t" then
            match strip_prefix "rue" r with
            | Some r' => Some (JBool true, r')
            | None => None
            end
          else if Ascii.eqb c "f" then
            match strip_prefix "alse" r with
            | Some r' => Some (JBool false, r')
            | None => None
            end
          else scan_number s
      end
  end.

(** [json.loads(s)]: leading white space, one value, trailing white space,
    nothing else.  The reader is partial where the values of the model
    are: a text with a number that has a fraction or an exponent, with
    [NaN] or [Infinity], or with a [\uXXXX] escape at or above [0100] is
    read by [json.loads] and gives [None] here.  A statement about a text
    this development did not write is therefore made only for a text the
    reader accepts. *)
Definition json_loads (s : string) : option json :=
  let s0 := skip_ws s in
  match scan_once (S (String.length s0)) s0 with
  | Some (v, r) =>
      match skip_ws r with
      | EmptyString => Some v
      | _ => None
      end
  | None => None
  end.

(** ** The survey store ([app.py]) *)

Definition DB_FILE : string := "survey_responses.db".
Definition DATA_DIR : string := "data".

(** [os.path.join(a, b)] for relative names. *)
Definition path_join (a b : string) : string := a ++ "/" ++ b.

(** A row of table [responses]; every column but [id] has TEXT affinity,
    [email] and [additional_comments] may hold NULL. *)
Record Row : Type := mkRow {
  id : Z;
  phone_number : string;
  name : string;
  email : option string;
  neighborhood : string;
  age_group : string;
  voting_frequency : string;
  issues : string;
  engagement : string;
  additional_comments : option string;
  timestamp : string
}.

(** The table in rowid order and the counter AUTOINCREMENT keeps in
    [sqlite_sequence]: the largest rowid ever given out. *)
Record Database : Type := mkDatabase {
  rows : list Row;
  seq : Z
}.

(** A CSV file is kept as the records written to it. *)
Definition csv_doc : Type := list (list string).

(** What lives under [DATA_DIR]: the database ([None] until
    [init_database] has created the table), the backup document
    [responses.json] as the value it holds ([None] while the file does not
    exist) and the export files by name. *)
Record Store : Type := mkStore {
  db : option Database;
  backup : option json;
  exports : list (string * csv_doc)
}.

Definition set_db (st : Store) (d : Database) : Store :=
  mkStore (Some d) (backup st) (exports st).

Definition set_backup (st : Store) (doc : json) : Store :=
  mkStore (db st) (Some doc) (exports st).

(** [open(name, 'w')] followed by the writes: the file is replaced. *)
Fixpoint write_file (name : string) (doc : csv_doc)
         (fs : list (string * csv_doc)) : list (string * csv_doc) :=
  match fs with
  | [] => [(name, doc)]
  | (n, d) :: fs' =>
      if String.eqb name n then (name, doc) :: fs'
      else (n, d) :: write_file name doc fs'
  end.

Definition set_export (st : Store) (name : string) (doc : csv_doc) : Store :=
  mkStore (db st) (backup st) (write_file name doc (exports st)).

Definition fresh_store : Store := mkStore None None [].

(** [CREATE TABLE IF NOT EXISTS responses (...)]. *)
Definition init_database (st : Store) : Store :=
  match db st with
  | Some _ => st
  | None => set_db st (mkDatabase [] 0)
  end.

(** Values [sqlite3] binds to a [?]. *)
Inductive sqlval : Type :=
| SqlNull
| SqlInt (n : Z)
| SqlText (s : string).

Definition int64_min : Z := - 2 ^ 63.
Definition int64_max : Z := 2 ^ 63 - 1.

Definition adapt (v : json) : result sqlval :=
  match v with
  | JNull => Ok SqlNull
  | JBool b => Ok (SqlInt (if b then 1 else 0))
  | JInt n =>
      if (int64_min <=? n) && (n <=? int64_max) then Ok (SqlInt n)
      else Raise "Python int too large to convert to SQLite INTEGER"
  | JStr s => Ok (SqlText s)
  | JArr _ => Raise "Error binding parameter: type 'list' is not supported"
  | JObj _ => Raise "Error binding parameter: type 'dict' is not supported"
  end.

(** What a TEXT column stores for a bound value. *)
Definition text_affinity (v : sqlval) : option string :=
  match v with
  | SqlNull => None
  | SqlInt n => Some (encode_int n)
  | SqlText s => Some s
  end.

Definition not_null (column : string) (v : option string) : result string :=
  match v with
  | Some s => Ok s
  | None => Raise ("NOT NULL constraint failed: responses." ++ column)
  end.

(** [data[k]]. *)
Definition subscript (k : string) (data : dict) : result json :=
  match dict_lookup k data with
  | Some v => Ok v
  | None => Raise ("'" ++ k ++ "'")
  end.

Fixpoint max_rowid (l : list Row) : Z :=
  match l with
  | [] => 0
  | r :: l' => Z.max (id r) (max_rowid l')
  end.

(** The rowid AUTOINCREMENT gives the next row. *)
Definition next_rowid (d : Database) : result Z :=
  let last := Z.max (seq d) (max_rowid (rows d)) in
  if last <? int64_max then Ok (last + 1)
  else Raise "database or disk is full".

Definition no_table {A : Type} : result A :=
  Raise "no such table: responses".

(** [save_to_database(data)]: the parameter tuple is built first, then the
    INSERT binds it, checks NOT NULL and commits; returns [lastrowid].

    The function closes its connection on the way out of a successful
    insert only.  A connection left open by an INSERT that failed while it
    ran (a NULL for a NOT NULL column) can keep the database locked, and a
    later insert then raises where this definition inserts.  [Store] has
    no place for such connections, so nothing below promises that an
    insert succeeds: the statements speak of inserts that did succeed, of
    answers that were given, and of what a failure leaves untouched. *)
Definition save_to_database (data : dict) (st : Store) : result (Z * Store) :=
  a_phone <- subscript "phoneNumber" data ;;
  a_name <- subscript "name" data ;;
  let a_email := dict_get_default "email" (JStr "") data in
  a_neighborhood <- subscript "neighborhood" data ;;
  a_age <- subscript "ageGroup" data ;;
  a_voting <- subscript "votingFrequency" data ;;
  a_issues <- subscript "issues" data ;;
  let a_issues_text := JStr (json_dumps a_issues) in
  a_engagement <- subscript "engagement" data ;;
  let a_comments := dict_get_default "additionalComments" (JStr "") data in
  a_timestamp <- subscript "timestamp" data ;;
  match db st with
  | None => no_table
  | Some d =>
      b_phone <- adapt a_phone ;;
      b_name <- adapt a_name ;;
      b_email <- adapt a_email ;;
      b_neighborhood <- adapt a_neighborhood ;;
      b_age <- adapt a_age ;;
      b_voting <- adapt a_voting ;;
      b_issues <- adapt a_issues_text ;;
      b_engagement <- adapt a_engagement ;;
      b_comments <- adapt a_comments ;;
      b_timestamp <- adapt a_timestamp ;;
      c_phone <- not_null "phone_number" (text_affinity b_phone) ;;
      c_name <- not_null "name" (text_affinity b_name) ;;
      c_neighborhood <- not_null "neighborhood" (text_affinity b_neighborhood) ;;
      c_age <- not_null "age_group" (text_affinity b_age) ;;
      c_voting <- not_null "voting_frequency" (text_affinity b_voting) ;;
      c_issues <- not_null "issues" (text_affinity b_issues) ;;
      c_engagement <- not_null "engagement" (text_affinity b_engagement) ;;
      c_timestamp <- not_null "timestamp" (text_affinity b_timestamp) ;;
      response_id <- next_rowid d ;;
      let row :=
        mkRow response_id c_phone c_name (text_affinity b_email)
              c_neighborhood c_age c_voting c_issues c_engagement
              (text_affinity b_comments) c_timestamp in
      Ok (response_id, set_db st (mkDatabase (rows d ++ [row]) response_id))
  end.

(** [save_to_json(data)]: load the backup list or start an empty one,
    append, write back. *)
Definition save_to_json (data : dict) (st : Store) : result Store :=
  match backup st with
  | Some (JArr responses) => Ok (set_backup st (JArr (responses ++ [JObj data])))
  | Some _ => Raise "object has no attribute 'append'"
  | None => Ok (set_backup st (JArr [JObj data]))
  end.

Record response : Type := mkResponse {
  status : Z;
  body : json
}.

Definition required_fields : list string :=
  ["phoneNumber"; "name"; "neighborhood";
   "ageGroup"; "votingFrequency"; "engagement"].

(** The loop over [required_fields]: the first field whose value is
    absent or false in a truth test. *)
Fixpoint first_missing (fields : list string) (data : dict) : option string :=
  match fields with
  | [] => None
  | field :: fields' =>
      if negb (truthy (dict_get field data)) then Some field
      else first_missing fields' data
  end.

Definition missing_field_body (field : string) : json :=
  JObj [("error", JStr ("Missing required field: " ++ field))].

Definition empty_selection_body : json :=
  JObj [("error", JStr "At least one issue must be selected")].

Definition saved_body (response_id : Z) : json :=
  JObj [("success", JBool true);
        ("message", JStr "Survey response saved successfully");
        ("id", JInt response_id)].

Definition failure_body (what details : string) : json :=
  JObj [("error", JStr what); ("details", JStr details)].

(** [not data.get('issues') or len(data['issues']) == 0]. *)
Definition issues_empty (data : dict) : result bool :=
  if negb (truthy (dict_get "issues" data)) then Ok true
  else
    v <- subscript "issues" data ;;
    n <- py_len v ;;
    Ok (n =? 0).

(** [if 'timestamp' not in data: data['timestamp'] = now]. *)
Definition fill_timestamp (now : string) (data : dict) : dict :=
  if negb (dict_mem "timestamp" data) then dict_set "timestamp" (JStr now) data
  else data.

(** The handler of [POST /api/submit-survey].  [payload] is what
    [request.get_json()] returned and [now] what
    [datetime.now().isoformat()] would give.  The [except] clause turns an
    exception into a 500; what was committed before it stays. *)
Definition submit_survey (now : string) (payload : json) (st : Store)
  : response * Store :=
  match payload with
  | JObj data =>
      match first_missing required_fields data with
      | Some field => (mkResponse 400 (missing_field_body field), st)
      | None =>
          match issues_empty data with
          | Raise e =>
              (mkResponse 500 (failure_body "Failed to save survey response" e), st)
          | Ok true => (mkResponse 400 empty_selection_body, st)
          | Ok false =>
              let data := fill_timestamp now data in
              match save_to_database data st with
              | Raise e =>
                  (mkResponse 500
                     (failure_body "Failed to save survey response" e), st)
              | Ok (response_id, st1) =>
                  match save_to_json data st1 with
                  | Raise e =>
                      (mkResponse 500
                         (failure_body "Failed to save survey response" e), st1)
                  | Ok st2 => (mkResponse 200 (saved_body response_id), st2)
                  end
              end
          end
      end
  | _ =>
      (mkResponse 500
         (failure_body "Failed to save survey response"
                       "object has no attribute 'get'"), st)
  end.

(** [ORDER BY timestamp DESC] on a TEXT column: byte order of the text.
    SQL leaves the order of rows with equal timestamps open; here they
    keep their table order. *)
Fixpoint insert_desc (r : Row) (l : list Row) : list Row :=
  match l with
  | [] => [r]
  | x :: l' =>
      if String.leb (timestamp x) (timestamp r) then r :: x :: l'
      else x :: insert_desc r l'
  end.

Fixpoint order_by_timestamp_desc (l : list Row) : list Row :=
  match l with
  | [] => []
  | r :: l' => insert_desc r (order_by_timestamp_desc l')
  end.

Definition opt_text (v : option string) : json :=
  match v with
  | Some s => JStr s
  | None => JNull
  end.

(** [dict(row)]: the columns in table order. *)
Definition row_dict (r : Row) : dict :=
  [("id", JInt (id r));
   ("phone_number", JStr (phone_number r));
   ("name", JStr (name r));
   ("email", opt_text (email r));
   ("neighborhood", JStr (neighborhood r));
   ("age_group", JStr (age_group r));
   ("voting_frequency", JStr (voting_frequency r));
   ("issues", JStr (issues r));
   ("engagement", JStr (engagement r));
   ("additional_comments", opt_text (additional_comments r));
   ("timestamp", JStr (timestamp r))].

Definition loads (v : json) : result json :=
  match v with
  | JStr s =>
      match json_loads s with
      | Some x => Ok x
      | None => Raise "Expecting value"
      end
  | _ => Raise "the JSON object must be str, bytes or bytearray"
  end.

(** One turn of the loop of [get_responses]. *)
Definition row_response (r : Row) : result json :=
  let response := row_dict r in
  text <- subscript "issues" response ;;
  parsed <- loads text ;;
  Ok (JObj (dict_set "issues" parsed response)).

Fixpoint row_responses (l : list Row) : result (list json) :=
  match l with
  | [] => Ok []
  | r :: l' =>
      x <- row_response r ;;
      xs <- row_responses l' ;;
      Ok (x :: xs)
  end.

Definition responses_body (responses : list json) : json :=
  JObj [("success", JBool true);
        ("count", JInt (Z.of_nat (List.length responses)));
        ("responses", JArr responses)].

(** The handler of [GET /api/responses]. *)
Definition get_responses (st : Store) : response :=
  match db st with
  | None => mkResponse 500 (failure_body "Failed to fetch responses"
                                         "no such table: responses")
  | Some d =>
      match row_responses (order_by_timestamp_desc (rows d)) with
      | Ok responses => mkResponse 200 (responses_body responses)
      | Raise e => mkResponse 500 (failure_body "Failed to fetch responses" e)
      end
  end.

Definition columns : list string :=
  ["id"; "phone_number"; "name"; "email"; "neighborhood"; "age_group";
   "voting_frequency"; "issues"; "engagement"; "additional_comments";
   "timestamp"].

Definition opt_field (v : option string) : string :=
  match v with
  | Some s => s
  | None => ""
  end.

(** The fields [DictWriter.writerow(dict(row))] writes. *)
Definition csv_record (r : Row) : list string :=
  [encode_int (id r); phone_number r; name r; opt_field (email r);
   neighborhood r; age_group r; voting_frequency r; issues r; engagement r;
   opt_field (additional_comments r); timestamp r].

Definition export_body (filename : string) : json :=
  JObj [("success", JBool true);
        ("message", JStr "CSV exported successfully");
        ("filename", JStr filename)].

(** The handler of [GET /api/export-csv]; [stamp] is
    [datetime.now().strftime("%Y%m%d_%H%M%S")]. *)
Definition export_csv (stamp : string) (st : Store) : response * Store :=
  match db st with
  | None =>
      (mkResponse 500 (failure_body "Failed to export CSV"
                                    "no such table: responses"), st)
  | Some d =>
      let rows := order_by_timestamp_desc (rows d) in
      let csv_file :=
        path_join DATA_DIR ("responses_export_" ++ stamp ++ ".csv") in
      let written :=
        match rows with
        | [] => []
        | _ :: _ => columns :: map csv_record rows
        end in
      (mkResponse 200 (export_body csv_file), set_export st csv_file written)
  end.

(** One request served, or a start of the process.  The requests that
    only read (the list and the statistics) leave the store as it is. *)
Inductive step : Store -> Store -> Prop :=
| step_start st : step st (init_database st)
| step_submit now payload st : step st (snd (submit_survey now payload st))
| step_read st : step st st
| step_export stamp st : step st (snd (export_csv stamp st)).

(** The stores the service can be in, from an empty data directory. *)
Inductive reachable : Store -> Prop :=
| reach_fresh : reachable fresh_store
| reach_step st st' : reachable st -> step st st' -> reachable st'.

Inductive steps : Store -> Store -> Prop :=
| steps_refl st : steps st st
| steps_next st st' st'' : step st st' -> steps st' st'' -> steps st st''.

(** ** The SMS notifier ([sms_bot.py]) *)

(** [str.isdigit] on one character: the decimal digits and, below 256,
    the superscripts two, three and one. *)
Definition isdigit (c : ascii) : bool :=
  let n := nat_of_ascii c in
  (Nat.leb 48 n && Nat.leb n 57) || Nat.eqb n 178 || Nat.eqb n 179
  || Nat.eqb n 185.

Fixpoint filter_chars (f : ascii -> bool) (s : string) : string :=
  match s with
  | EmptyString => EmptyString
  | String c s' => if f c then String c (filter_chars f s') else filter_chars f s'
  end.

Fixpoint all_chars (f : ascii -> bool) (s : string) : bool :=
  match s with
  | EmptyString => true
  | String c s' => f c && all_chars f s'
  end.

(** [str.isdigit] on a string: not empty and digits only. *)
Definition str_isdigit (s : string) : bool :=
  negb (String.eqb s "") && all_chars isdigit s.

(** The country code step and the [+] of [format_phone_number]. *)
Definition add_country_code (digits : string) : string :=
  let digits :=
    if Nat.eqb (String.length digits) 10 then "1" ++ digits else digits in
  "+" ++ digits.

(** [format_phone_number(phone)] for a [str], as the signature asks. *)
Definition format_phone_number (phone : string) : string :=
  let digits := filter_chars isdigit phone in
  add_country_code digits.

(** [''.join(filter(str.isdigit, x))] on the items of a list. *)
Fixpoint join_digit_items (l : list json) : result string :=
  match l with
  | [] => Ok ""
  | JStr t :: l' =>
      rest <- join_digit_items l' ;;
      Ok (if str_isdigit t then t ++ rest else rest)
  | _ :: _ =>
      Raise "descriptor 'isdigit' for 'str' objects doesn't apply to the object"
  end.

(** The same expression on whatever a recipients file can hold: a string
    is filtered by character, a list by item, a dict by key, and the other
    values cannot be iterated. *)
Definition digits_of (phone : json) : result string :=
  match phone with
  | JStr s => Ok (filter_chars isdigit s)
  | JArr l => join_digit_items l
  | JObj kv => join_digit_items (map (fun p => JStr (fst p)) kv)
  | JNull => Raise "'NoneType' object is not iterable"
  | JBool _ => Raise "'bool' object is not iterable"
  | JInt _ => Raise "'int' object is not iterable"
  end.

Definition format_phone_number_any (phone : json) : result string :=
  digits <- digits_of phone ;;
  Ok (add_country_code digits).

(** One call of [client.messages.create]. *)
Record call : Type := mkCall {
  call_body : string;
  call_from : string;
  call_to : string
}.

(** The bot object, with the calls the provider has received so far and
    the number of clock readings taken. *)
Record Bot : Type := mkBot {
  from_number : string;
  survey_url : string;
  sent_messages : list json;
  provider_calls : list call;
  clock_reads : nat
}.

(** The summary [send_bulk_sms] builds. *)
Record Summary : Type := mkSummary {
  total : Z;
  successful : Z;
  failed : Z;
  details : list json
}.

Definition nl : string := String "010"%char "".

Section Notifier.

(** The messaging provider: what [create] answers to a call, given the
    calls before it; [Ok (sid, status)] or the raised error. *)
Variable provider : list call -> call -> result (string * string).

(** [datetime.now().isoformat()] at the n-th reading. *)
Variable clock : nat -> string.

(** The text an f-string puts for a value that is not a [str]. *)
Variable repr : json -> string.

Definition py_str (v : json) : string :=
  match v with
  | JStr s => s
  | _ => repr v
  end.

Definition create_message (bot : Bot) (name : json) : string :=
  let greeting :=
    if truthy name then "Hello " ++ py_str name ++ "!" else "Hello!" in
  greeting ++ nl ++ nl ++
  "You're invited to participate in the District 5 Voter Survey for " ++
  "Hyde Park, Mattapan, and Readville." ++ nl ++ nl ++
  "Your voice matters! Share your thoughts on important community issues." ++
  nl ++ nl ++
  "Complete the survey here: " ++ survey_url bot ++ nl ++ nl ++
  "Thank you for your participation!".

Definition tick (bot : Bot) : string * Bot :=
  (clock (clock_reads bot),
   mkBot (from_number bot) (survey_url bot) (sent_messages bot)
         (provider_calls bot) (S (clock_reads bot))).

Definition log_call (bot : Bot) (c : call) : Bot :=
  mkBot (from_number bot) (survey_url bot) (sent_messages bot)
        (provider_calls bot ++ [c]) (clock_reads bot).

Definition log_message (bot : Bot) (r : json) : Bot :=
  mkBot (from_number bot) (survey_url bot) (sent_messages bot ++ [r])
        (provider_calls bot) (clock_reads bot).

(** The [try] block of [send_sms] up to the provider's answer. *)
Definition try_send (to_number name : json) (bot : Bot)
  : result (string * string * string) * Bot :=
  match format_phone_number_any to_number with
  | Raise e => (Raise e, bot)
  | Ok formatted_number =>
      let message_body := create_message bot name in
      let c := mkCall message_body (from_number bot) formatted_number in
      match provider (provider_calls bot) c with
      | Raise e => (Raise e, log_call bot c)
      | Ok (sid, message_status) =>
          (Ok (formatted_number, sid, message_status), log_call bot c)
      end
  end.

(** [send_sms(to_number, name)]: always a record, never an exception. *)
Definition send_sms (to_number name : json) (bot : Bot) : json * Bot :=
  match try_send to_number name bot with
  | (Ok (formatted_number, sid, message_status), bot1) =>
      let (now, bot2) := tick bot1 in
      let result :=
        JObj [("success", JBool true);
              ("to", JStr formatted_number);
              ("sid", JStr sid);
              ("status", JStr message_status);
              ("timestamp", JStr now);
              ("name", name)] in
      (result, log_message bot2 result)
  | (Raise e, bot1) =>
      let (now, bot2) := tick bot1 in
      let result :=
        JObj [("success", JBool false);
              ("to", to_number);
              ("error", JStr e);
              ("timestamp", JStr now);
              ("name", name)] in
      (result, log_message bot2 result)
  end.

(** [result['success']] in a truth test. *)
Definition succeeded (result : json) : bool :=
  match result with
  | JObj d => truthy (dict_get "success" d)
  | _ => false
  end.

(** The body of the loop of [send_bulk_sms]. *)
Definition bulk_step (recipient : dict) (acc : Summary * Bot)
  : Summary * Bot :=
  let (results, bot) := acc in
  let phone := dict_get "phone" recipient in
  let name := dict_get "name" recipient in
  if negb (truthy phone) then
    (mkSummary (total results) (successful results) (failed results + 1)
               (details results), bot)
  else
    let (result, bot1) := send_sms phone name bot in
    let results1 :=
      mkSummary (total results) (successful results) (failed results)
                (details results ++ [result]) in
    if succeeded result then
      (mkSummary (total results1) (successful results1 + 1)
                 (failed results1) (details results1), bot1)
    else
      (mkSummary (total results1) (successful results1)
                 (failed results1 + 1) (details results1), bot1).

Fixpoint bulk_loop (recipients : list dict) (acc : Summary * Bot)
  : Summary * Bot :=
  match recipients with
  | [] => acc
  | recipient :: rest => bulk_loop rest (bulk_step recipient acc)
  end.

(** [send_bulk_sms(recipients)]. *)
Definition send_bulk_sms (recipients : list dict) (bot : Bot)
  : Summary * Bot :=
  let results :=
    mkSummary (Z.of_nat (List.length recipients)) 0 0 [] in
  bulk_loop recipients (results, bot).

(** A recipient with a phone value: the test the loop makes. *)
Definition has_phone (recipient : dict) : bool :=
  truthy (dict_get "phone" recipient).

(** [send_sms] over a list of recipients, one after the other, keeping
    the records in order: the reading of "every other recipient goes
    through sendOne" the statements below compare the loop with. *)
Fixpoint send_each (recipients : list dict) (bot : Bot) : list json * Bot :=
  match recipients with
  | [] => ([], bot)
  | recipient :: rest =>
      let (r, bot1) :=
        send_sms (dict_get "phone" recipient) (dict_get "name" recipient)
                 bot in
      let (rs, bot2) := send_each rest bot1 in
      (r :: rs, bot2)
  end.

End Notifier.

(** The digits of a string, in the words of the design: every character
    that is not a digit is dropped and every digit is kept, in order. *)
Inductive stripped : string -> string -> Prop :=
| stripped_nil : stripped "" ""
| stripped_keep c s d :
    isdigit c = true -> stripped s d -> stripped (String c s) (String c d)
| stripped_drop c s d :
    isdigit c = false -> stripped s d -> stripped (String c s) d.

(** ** Statistics ([get_stats]) *)

(** One more row counted for value [k] of the grouped column. *)
Fixpoint count_into (k : string) (groups : list (string * Z))
  : list (string * Z) :=
  match groups with
  | [] => [(k, 1)]
  | (k', n) :: groups' =>
      if String.eqb k k' then (k', n + 1) :: groups'
      else (k', n) :: count_into k groups'
  end.

(** [SELECT column, COUNT ... GROUP BY column]: one pair per distinct
    value.  SQL leaves the order of the groups open; here they come in the
    order of first appearance. *)
Definition group_count (column : Row -> string) (l : list Row)
  : list (string * Z) :=
  fold_left (fun groups r => count_into (column r) groups) l [].

(** The dict comprehension over the grouped rows. *)
Definition counts_dict (groups : list (string * Z)) : dict :=
  map (fun p => (fst p, JInt (snd p))) groups.

Definition stats_body (d : Database) : json :=
  JObj [("success", JBool true);
        ("stats",
         JObj [("total", JInt (Z.of_nat (List.length (rows d))));
               ("by_neighborhood",
                JObj (counts_dict (group_count neighborhood (rows d))));
               ("by_age_group",
                JObj (counts_dict (group_count age_group (rows d))));
               ("by_voting_frequency",
                JObj (counts_dict (group_count voting_frequency (rows d))))])].

(** The handler of [GET /api/stats]. *)
Definition get_stats (st : Store) : response :=
  match db st with
  | None => mkResponse 500 (failure_body "Failed to fetch statistics"
                                         "no such table: responses")
  | Some d => mkResponse 200 (stats_body d)
  end.

(** ** [json.dump] with [indent=2] *)

Fixpoint spaces (n : nat) : string :=
  match n with
  | O => ""
  | S n' => String " " (spaces n')
  end.

(** A line break and the indentation of nesting depth [level]. *)
Definition newline_indent (level : nat) : string :=
  String "010"%char (spaces (2 * level)).

(** [json.dumps(v, indent=2)] at nesting depth [level]: an empty list or
    dict stays on one line, the items of the others go on lines of their
    own, separated by a comma at the end of the line. *)
Fixpoint json_dumps_indent (level : nat) (v : json) : string :=
  match v with
  | JNull => "null"
  | JBool true => "true"
  | JBool false => "false"
  | JInt n => encode_int n
  | JStr s => encode_string s
  | JArr l =>
      match l with
      | [] => "[]"
      | x :: l' =>
          "[" ++ newline_indent (S level) ++ json_dumps_indent (S level) x ++
          (fix more (l : list json) : string :=
             match l with
             | [] => ""
             | y :: l'' =>
                 "," ++ newline_indent (S level) ++
                 json_dumps_indent (S level) y ++ more l''
             end) l'
          ++ newline_indent level ++ "]"
      end
  | JObj kv =>
      match kv with
      | [] => "{}"
      | (k, x) :: kv' =>
          "{" ++ newline_indent (S level) ++ encode_string k ++ ": " ++
          json_dumps_indent (S level) x ++
          (fix more (kv : list (string * json)) : string :=
             match kv with
             | [] => ""
             | (k', y) :: kv'' =>
                 "," ++ newline_indent (S level) ++ encode_string k' ++ ": " ++
                 json_dumps_indent (S level) y ++ more kv''
             end) kv'
          ++ newline_indent level ++ "}"
      end
  end.

(** ** Files as text *)

(** A directory of text files by name. *)
Definition files : Type := list (string * string).

(** [open(name).read()]; [None] when there is no such file. *)
Fixpoint read_text (name : string) (fs : files) : option string :=
  match fs with
  | [] => None
  | (n, t) :: fs' => if String.eqb name n then Some t else read_text name fs'
  end.

(** [open(name, 'w').write(text)]: the file is created or replaced. *)
Fixpoint write_text (name text : string) (fs : files) : files :=
  match fs with
  | [] => [(name, text)]
  | (n, t) :: fs' =>
      if String.eqb name n then (name, text) :: fs'
      else (n, t) :: write_text name text fs'
  end.

(** [save_to_json(data)] on the text of [responses.json] ([None] while
    the file does not exist): [json.load], [append], [json.dump] with
    [indent=2].  Returns the text written. *)
Definition save_to_json_text (data : dict) (file : option string)
  : result string :=
  responses <- match file with
               | Some text => loads (JStr text)
               | None => Ok (JArr [])
               end ;;
  match responses with
  | JArr l => Ok (json_dumps_indent 0 (JArr (l ++ [JObj data])))
  | _ => Raise "object has no attribute 'append'"
  end.

(** ** The command line of the notifier ([SurveyBot.__init__],
    [save_log], [main]) *)

(** [os.getenv(k)]. *)
Fixpoint getenv (env : list (string * string)) (k : string) : option string :=
  match env with
  | [] => None
  | (k', v) :: env' => if String.eqb k k' then Some v else getenv env' k
  end.

(** The truth value of what [os.getenv] returned. *)
Definition env_set (v : option string) : bool :=
  match v with
  | Some (String _ _) => true
  | _ => false
  end.

(** [SurveyBot()]: the three credentials have to be set and not empty;
    the survey URL has a default.  The new bot has sent nothing. *)
Definition SurveyBot (env : list (string * string)) : result Bot :=
  let account_sid := getenv env "TWILIO_ACCOUNT_SID" in
  let auth_token := getenv env "TWILIO_AUTH_TOKEN" in
  let from_number := getenv env "TWILIO_PHONE_NUMBER" in
  let survey_url :=
    match getenv env "SURVEY_URL" with
    | Some url => url
    | None => "http://localhost:5000/survey.html"
    end in
  if negb (env_set account_sid && env_set auth_token && env_set from_number)
  then
    Raise ("Missing required environment variables: " ++
           "TWILIO_ACCOUNT_SID, TWILIO_AUTH_TOKEN, TWILIO_PHONE_NUMBER")
  else
    Ok (mkBot (match from_number with Some n => n | None => "" end)
              survey_url [] [] 0).

(** The items a [for] loop takes from a loaded JSON value: the elements
    of a list, the keys of a dict, the characters of a string. *)
Fixpoint chars_of (s : string) : list json :=
  match s with
  | EmptyString => []
  | String c s' => JStr (String c "") :: chars_of s'
  end.

Definition py_iter (v : json) : result (list json) :=
  match v with
  | JArr l => Ok l
  | JObj kv => Ok (map (fun p => JStr (fst p)) kv)
  | JStr s => Ok (chars_of s)
  | JNull => Raise "'NoneType' object is not iterable"
  | JBool _ => Raise "'bool' object is not iterable"
  | JInt _ => Raise "'int' object is not iterable"
  end.

Section CommandLine.

Variable provider : list call -> call -> result (string * string).
Variable clock : nat -> string.
Variable repr : json -> string.

(** [save_log(filename)]: the time and the log of the bot, as indented
    JSON text, in place of whatever the file held. *)
Definition save_log (filename : string) (bot : Bot) (fs : files)
  : files * Bot :=
  let (now, bot1) := tick clock bot in
  (write_text filename
     (json_dumps_indent 0
        (JObj [("timestamp", JStr now);
               ("messages", JArr (sent_messages bot))]))
     fs,
   bot1).

(** The loop of [send_bulk_sms] over whatever the recipients file held:
    an item that is not a dict has no [get], and the exception ends the
    loop with the sends made so far. *)
Fixpoint bulk_loop_any (items : list json) (acc : Summary * Bot)
  : result Summary * Bot :=
  match items with
  | [] => (Ok (fst acc), snd acc)
  | JObj recipient :: rest =>
      bulk_loop_any rest (bulk_step provider clock repr recipient acc)
  | _ :: _ => (Raise "object has no attribute 'get'", snd acc)
  end.

(** [send_bulk_sms(recipients)] for a loaded JSON value: [len], then the
    loop. *)
Definition send_bulk_sms_any (recipients : json) (bot : Bot)
  : result Summary * Bot :=
  match py_len recipients with
  | Raise e => (Raise e, bot)
  | Ok n =>
      match py_iter recipients with
      | Raise e => (Raise e, bot)
      | Ok items => bulk_loop_any items (mkSummary n 0 0 [], bot)
      end
  end.

(** What a run of the tool leaves behind: the exit code, the files and
    the calls the provider received. *)
Record Outcome : Type := mkOutcome {
  exit_code : Z;
  files_after : files;
  calls_made : list call
}.

(** [main()] with [sys.argv] (the script name first), the environment and
    the files of the working directory.  [sys.exit(1)] and an exception
    caught by the [except] clause both end the run with code 1; a run
    that reaches the end of [main] ends with code 0. *)
Definition main (env : list (string * string)) (argv : list string)
           (fs : files) : Outcome :=
  match argv with
  | [] => mkOutcome 1 fs []
  | [_] => mkOutcome 1 fs []
  | _ :: arg1 :: rest =>
      match SurveyBot env with
      | Raise e => mkOutcome 1 fs []
      | Ok bot =>
          if String.eqb arg1 "--bulk" then
            match rest with
            | [] => mkOutcome 1 fs []
            | file :: _ =>
                match read_text file fs with
                | None => mkOutcome 1 fs []
                | Some text =>
                    match loads (JStr text) with
                    | Raise e => mkOutcome 1 fs []
                    | Ok recipients =>
                        match send_bulk_sms_any recipients bot with
                        | (Raise e, bot1) =>
                            mkOutcome 1 fs (provider_calls bot1)
                        | (Ok results, bot1) =>
                            let (fs', bot2) :=
                              save_log "sms_log.json" bot1 fs in
                            mkOutcome 0 fs' (provider_calls bot2)
                        end
                    end
                end
            end
          else
            let phone := arg1 in
            let name :=
              match rest with
              | [] => JNull
              | n :: _ => JStr n
              end in
            let (result, bot1) :=
              send_sms provider clock repr (JStr phone) name bot in
            if succeeded result then mkOutcome 0 fs (provider_calls bot1)
            else mkOutcome 1 fs (provider_calls bot1)
      end
  end.

End CommandLine.

(** * Notions used in the statements *)

(** Texts that may follow a value inside a document: the end, a comma or
    a closing bracket. *)
Definition closes (s : string) : bool :=
  match s with
  | EmptyString => true
  | String c _ => Ascii.eqb c "," || Ascii.eqb c "]" || Ascii.eqb c "}"
  end.

(** The characters a number and a JSON value can start with. *)
Definition number_start (c : ascii) : bool :=
  Ascii.eqb c "-"
  || match digit_of_char c with Some _ => true | None => false end.

Definition value_start (c : ascii) : bool :=
  Ascii.eqb c dquote || Ascii.eqb c "{" || Ascii.eqb c "[" || Ascii.eqb c "n"
  || Ascii.eqb c "t" || Ascii.eqb c "f" || number_start c.

(** The text [json_dumps] puts after the first element of a list and after
    the first item of a dict. *)
Fixpoint more_items (l : list json) : string :=
  match l with
  | [] => ""
  | y :: l' => ", " ++ json_dumps y ++ more_items l'
  end.

Fixpoint more_members (kv : list (string * json)) : string :=
  match kv with
  | [] => ""
  | (k, y) :: kv' =>
      ", " ++ encode_string k ++ ": " ++ json_dumps y ++ more_members kv'
  end.

(** What a scanner has to do on the text of a value for the loops below. *)
Definition reads_back (scan : string -> option (json * string)) (v : json)
  : Prop :=
  forall r, closes r = true -> scan (json_dumps v ++ r) = Some (v, r).

(** The number of nodes of a value. *)
Fixpoint size (v : json) : nat :=
  match v with
  | JArr l => S (fold_right (fun x n => size x + n) 0 l)
  | JObj kv => S (fold_right (fun p n => size (snd p) + n) 0 kv)
  | _ => 1
  end%nat.

(** A field is present and not empty when [data.get(field)] passes
    Python's truth test.  An absent key, [None], the empty string, list
    and dict fail it, and so do [0] and [False]. *)
Definition supplied (data : dict) (field : string) : Prop :=
  truthy (dict_get field data) = true.

Definition payload_without_name : dict :=
  [("phoneNumber", JStr "6175550100"); ("neighborhood", JStr "Mattapan");
   ("ageGroup", JStr "25-34"); ("votingFrequency", JStr "always");
   ("engagement", JStr "high"); ("issues", JArr [JStr "housing"])].

(** The largest identifier the table has given out or holds. *)
Definition high (d : Database) : Z := Z.max (seq d) (max_rowid (rows d)).

Definition issued (st : Store) : Z :=
  match db st with
  | Some d => high d
  | None => 0
  end.

Definition valid_payload : dict :=
  [("phoneNumber", JStr "6175550100"); ("name", JStr "Jane");
   ("neighborhood", JStr "Mattapan"); ("ageGroup", JStr "25-34");
   ("votingFrequency", JStr "always"); ("engagement", JStr "high");
   ("issues", JArr [JStr "housing"; JStr "transit"; JStr "schools"]);
   ("timestamp", JStr "2024-05-01T10:00:00")].

(** The order of [ORDER BY timestamp DESC] on the TEXT column: [a] may
    stand before [b] when the timestamp text of [b] is not above that of
    [a], the texts compared byte by byte.  Nothing is said of the instants
    the texts name. *)
Definition text_descending (a b : Row) : Prop :=
  String.leb (timestamp b) (timestamp a) = true.

(** A response shows a row: the columns of the row, with the issues text
    replaced by the value it encodes. *)
Definition shows (r : Row) (x : json) : Prop :=
  exists v, json_loads (issues r) = Some v /\
            x = JObj (dict_set "issues" v (row_dict r)).

(** The rows whose issues column holds a text [json_dumps] wrote. *)
Definition written (r : Row) : Prop := exists v, issues r = json_dumps v.

Definition table_written (st : Store) : Prop :=
  match db st with
  | Some d => Forall written (rows d)
  | None => True
  end.

(** [x[k]] on a response object. *)
Definition field (k : string) (x : json) : json :=
  match x with
  | JObj d => dict_get k d
  | _ => JNull
  end.

Definition second_payload : dict :=
  [("phoneNumber", JStr "6175550111"); ("name", JStr "Ravi");
   ("neighborhood", JStr "Hyde Park"); ("ageGroup", JStr "35-44");
   ("votingFrequency", JStr "sometimes"); ("engagement", JStr "low");
   ("issues", JObj [("other", JInt 3)])].

Definition two_rows_store : Store :=
  snd (submit_survey "2024-06-01T09:30:00" (JObj second_payload)
         (snd (submit_survey "" (JObj valid_payload)
                 (init_database fresh_store)))).

(** A response presents a row: it is the object with the eleven columns of
    the row under their names, in table order, a NULL shown as [null] and
    the issues column replaced by the value whose JSON text it holds. *)
Definition presents (r : Row) (x : json) : Prop :=
  exists v,
    issues r = json_dumps v /\
    x = JObj [("id", JInt (id r));
              ("phone_number", JStr (phone_number r));
              ("name", JStr (name r));
              ("email",
               match email r with
               | Some s => JStr s
               | None => JNull
               end);
              ("neighborhood", JStr (neighborhood r));
              ("age_group", JStr (age_group r));
              ("voting_frequency", JStr (voting_frequency r));
              ("issues", v);
              ("engagement", JStr (engagement r));
              ("additional_comments",
               match additional_comments r with
               | Some s => JStr s
               | None => JNull
               end);
              ("timestamp", JStr (timestamp r))].

(** The instant an ISO-8601 timestamp names, in whole seconds since
    1970-01-01T00:00:00Z, for the form [YYYY-MM-DDTHH:MM:SS], an optional
    fraction of a second, and [Z] or an offset [+HH:MM] or [-HH:MM].  A
    timestamp without an offset names no instant by itself. *)
Definition digit_of (c : ascii) : option Z :=
  let n := Z.of_nat (nat_of_ascii c) in
  if (48 <=? n) && (n <=? 57) then Some (n - 48) else None.

Fixpoint read_digits (n : nat) (acc : Z) (s : string) : option (Z * string) :=
  match n with
  | O => Some (acc, s)
  | S n' =>
      match s with
      | String c s' =>
          match digit_of c with
          | Some d => read_digits n' (10 * acc + d) s'
          | None => None
          end
      | EmptyString => None
      end
  end.

Definition skip_char (c : ascii) (s : string) : option string :=
  match s with
  | String c' s' => if Ascii.eqb c c' then Some s' else None
  | EmptyString => None
  end.

Fixpoint skip_digits (s : string) : string :=
  match s with
  | String c s' =>
      match digit_of c with
      | Some _ => skip_digits s'
      | None => s
      end
  | EmptyString => s
  end.

Definition skip_fraction (s : string) : string :=
  match s with
  | String c s' => if Ascii.eqb c "." then skip_digits s' else s
  | EmptyString => s
  end.

Definition and_then {A B : Type} (o : option A) (f : A -> option B)
  : option B :=
  match o with
  | Some a => f a
  | None => None
  end.

(** The days from 1970-01-01 to a date of the Gregorian calendar. *)
Definition days_from_civil (y m d : Z) : Z :=
  let y' := if m <=? 2 then y - 1 else y in
  let era := y' / 400 in
  let yoe := y' - era * 400 in
  let doy := (153 * ((m + 9) mod 12) + 2) / 5 + d - 1 in
  let doe := yoe * 365 + yoe / 4 - yoe / 100 + doy in
  era * 146097 + doe - 719468.

(** The seconds a local time is ahead of UTC. *)
Definition utc_offset (s : string) : option Z :=
  match s with
  | String c s' =>
      if Ascii.eqb c "Z" then
        match s' with
        | EmptyString => Some 0
        | _ => None
        end
      else
        and_then
          (if Ascii.eqb c "+" then Some 1
           else if Ascii.eqb c "-" then Some (-1) else None)
          (fun sign =>
             and_then (read_digits 2 0 s') (fun '(h, s1) =>
             and_then (skip_char ":" s1) (fun s2 =>
             and_then (read_digits 2 0 s2) (fun '(m, s3) =>
             match s3 with
             | EmptyString => Some (sign * (h * 3600 + m * 60))
             | _ => None
             end))))
  | EmptyString => None
  end.

Definition instant (s : string) : option Z :=
  and_then (read_digits 4 0 s) (fun '(y, s) =>
  and_then (skip_char "-" s) (fun s =>
  and_then (read_digits 2 0 s) (fun '(mo, s) =>
  and_then (skip_char "-" s) (fun s =>
  and_then (read_digits 2 0 s) (fun '(d, s) =>
  and_then (skip_char "T" s) (fun s =>
  and_then (read_digits 2 0 s) (fun '(h, s) =>
  and_then (skip_char ":" s) (fun s =>
  and_then (read_digits 2 0 s) (fun '(mi, s) =>
  and_then (skip_char ":" s) (fun s =>
  and_then (read_digits 2 0 s) (fun '(sec, s) =>
  and_then (utc_offset (skip_fraction s)) (fun off =>
  Some (days_from_civil y mo d * 86400 + h * 3600 + mi * 60 + sec - off)
  )))))))))))).

(** Newest first, as the design document has it: of two rows whose
    timestamps name instants, the one listed first is not the older. *)
Definition newest_first (a b : Row) : Prop :=
  match instant (timestamp a), instant (timestamp b) with
  | Some ta, Some tb => tb <= ta
  | _, _ => True
  end.

(** Two submissions whose clients sent their own timestamps: the first at
    08:00 UTC, the second an hour earlier by the clock of a zone five
    hours ahead. *)
Definition payload_stamped (stamp : string) : dict :=
  [("phoneNumber", JStr "6175550100"); ("name", JStr "Jane");
   ("neighborhood", JStr "Mattapan"); ("ageGroup", JStr "25-34");
   ("votingFrequency", JStr "always"); ("engagement", JStr "high");
   ("issues", JArr [JStr "housing"]); ("timestamp", JStr stamp)].

Definition offsets_store : Store :=
  snd (submit_survey ""
         (JObj (payload_stamped "2024-05-01T12:00:00+05:00"))
         (snd (submit_survey ""
                 (JObj (payload_stamped "2024-05-01T08:00:00+00:00"))
                 (init_database fresh_store)))).

(** The recipients the loop skips, and the records of each outcome. *)
Definition lacking (recipients : list dict) : Z :=
  Z.of_nat (List.length (filter (fun r => negb (has_phone r)) recipients)).

Definition successes (records : list json) : Z :=
  Z.of_nat (List.length (filter succeeded records)).

Definition failures (records : list json) : Z :=
  Z.of_nat (List.length (filter (fun r => negb (succeeded r)) records)).

(** A provider that accepts every message, a clock that stands still, and
    the two recipients of the design's example: the second has no phone. *)
Definition demo_provider (_ : list call) (_ : call) : result (string * string) :=
  Ok ("SM0001", "queued").

Definition demo_clock (_ : nat) : string := "2024-05-01T10:00:00".

Definition demo_repr (_ : json) : string := "".

Definition demo_bot : Bot :=
  mkBot "+16175550000" "http://localhost:5000/survey.html" [] [] 0.

Definition demo_recipients : list dict :=
  [[("phone", JStr "6175550100")]; [("name", JStr "Jane")]].

(** The number of rows whose column holds [v], and the sum of the counts
    of a breakdown. *)
Definition occurrences (column : Row -> string) (v : string) (l : list Row)
  : Z :=
  Z.of_nat (List.length (filter (fun r => String.eqb v (column r)) l)).

Definition counted (d : dict) : Z :=
  fold_right (fun p acc => match snd p with JInt n => n + acc | _ => acc end)
             0 d.

(** What a breakdown has to say about a table: a count for each value
    that occurs, nothing for the others, and counts that add up to the
    number of rows. *)
Definition breakdown_of (column : Row -> string) (l : list Row) (b : dict)
  : Prop :=
  (forall v, dict_lookup v b =
             if occurrences column v l =? 0 then None
             else Some (JInt (occurrences column v l))) /\
  counted b = Z.of_nat (List.length l).

(** The groups hold integers only, at least [1] each. *)
Definition counts_ok (groups : list (string * Z)) : Prop :=
  forall v, match dict_lookup v (counts_dict groups) with
            | Some (JInt n) => 0 < n
            | Some _ => False
            | None => True
            end.

(** A submission as the form sends it: text fields, the two optional ones
    and the timestamp possibly left out, and the issues value. *)
Record Submission : Type := mkSubmission {
  sub_phone : string;
  sub_name : string;
  sub_email : option string;
  sub_neighborhood : string;
  sub_age : string;
  sub_voting : string;
  sub_issues : json;
  sub_engagement : string;
  sub_comments : option string;
  sub_timestamp : option string
}.

(** The payload carries the submission: each key holds the text of its
    field, and a field left out has no key.  Other keys may be there. *)
Definition carries (data : dict) (s : Submission) : Prop :=
  dict_lookup "phoneNumber" data = Some (JStr (sub_phone s)) /\
  dict_lookup "name" data = Some (JStr (sub_name s)) /\
  dict_lookup "email" data = option_map JStr (sub_email s) /\
  dict_lookup "neighborhood" data = Some (JStr (sub_neighborhood s)) /\
  dict_lookup "ageGroup" data = Some (JStr (sub_age s)) /\
  dict_lookup "votingFrequency" data = Some (JStr (sub_voting s)) /\
  dict_lookup "issues" data = Some (sub_issues s) /\
  dict_lookup "engagement" data = Some (JStr (sub_engagement s)) /\
  dict_lookup "additionalComments" data = option_map JStr (sub_comments s) /\
  dict_lookup "timestamp" data = option_map JStr (sub_timestamp s).

(** A string, list or dict that is not empty. *)
Definition nonempty_collection (v : json) : Prop :=
  match v with
  | JStr (String _ _) => True
  | JArr (_ :: _) => True
  | JObj (_ :: _) => True
  | _ => False
  end.

(** The six required texts are not empty and the issues value is a
    collection that is not empty. *)
Definition complete (s : Submission) : Prop :=
  sub_phone s <> "" /\ sub_name s <> "" /\ sub_neighborhood s <> "" /\
  sub_age s <> "" /\ sub_voting s <> "" /\ sub_engagement s <> "" /\
  nonempty_collection (sub_issues s).

Definition or_default (v : option string) (dflt : string) : string :=
  match v with
  | Some s => s
  | None => dflt
  end.

(** The row a submission is expected to leave under identifier [rid]
    when the server clock reads [now]. *)
Definition row_of (rid : Z) (now : string) (s : Submission) : Row :=
  mkRow rid (sub_phone s) (sub_name s) (Some (or_default (sub_email s) ""))
        (sub_neighborhood s) (sub_age s) (sub_voting s)
        (json_dumps (sub_issues s)) (sub_engagement s)
        (Some (or_default (sub_comments s) ""))
        (or_default (sub_timestamp s) now).

(** The entries of the backup document; none while the file is absent. *)
Definition backup_entries (st : Store) : option (list json) :=
  match backup st with
  | None => Some []
  | Some (JArr l) => Some l
  | Some _ => None
  end.

Definition sample_submission : Submission :=
  mkSubmission "6175550100" "Jane" None "Mattapan" "25-34" "always"
               (JArr [JStr "housing"; JStr "transit"]) "high"
               (Some "more buses") None.

Definition sample_payload : dict :=
  [("phoneNumber", JStr "6175550100"); ("name", JStr "Jane");
   ("neighborhood", JStr "Mattapan"); ("ageGroup", JStr "25-34");
   ("votingFrequency", JStr "always"); ("engagement", JStr "high");
   ("issues", JArr [JStr "housing"; JStr "transit"]);
   ("additionalComments", JStr "more buses")].

(** A store whose backup file holds an object instead of a list. *)
Definition store_with_bad_backup : Store :=
  mkStore (Some (mkDatabase [] 0)) (Some (JObj [])) [].

(** The keys whose values are bound to a TEXT column as they are. *)
Definition stored_keys : list string :=
  ["phoneNumber"; "name"; "email"; "neighborhood"; "ageGroup";
   "votingFrequency"; "engagement"; "additionalComments"; "timestamp"].

(** A list or a dict. *)
Definition structured (v : json) : Prop :=
  match v with
  | JArr _ => True
  | JObj _ => True
  | _ => False
  end.

(** A value with a truth value but without a length. *)
Definition unsized (v : json) : Prop :=
  match v with
  | JInt n => n <> 0
  | JBool b => b = true
  | _ => False
  end.

Definition payload_with_count : dict :=
  [("phoneNumber", JStr "6175550100"); ("name", JStr "Jane");
   ("neighborhood", JStr "Mattapan"); ("ageGroup", JStr "25-34");
   ("votingFrequency", JStr "always"); ("engagement", JStr "high");
   ("issues", JInt 3)].

Definition payload_with_list_name : dict :=
  [("phoneNumber", JStr "6175550100"); ("name", JArr [JStr "Jane"]);
   ("neighborhood", JStr "Mattapan"); ("ageGroup", JStr "25-34");
   ("votingFrequency", JStr "always"); ("engagement", JStr "high");
   ("issues", JArr [JStr "housing"])].

(** [open(name).read()] on the export files: the records of the file. *)
Fixpoint read_file (name : string) (fs : list (string * csv_doc))
  : option csv_doc :=
  match fs with
  | [] => None
  | (n, d) :: fs' => if String.eqb name n then Some d else read_file name fs'
  end.

(** The name [export_csv] gives the file written at [stamp]. *)
Definition export_name (stamp : string) : string :=
  "data/responses_export_" ++ stamp ++ ".csv".

(** What the INSERT leaves in a TEXT column for a value of the payload: a
    string as it is, an integer as its decimal text, a boolean as [1] or
    [0], [None] as NULL; a list or a dict cannot be bound. *)
Definition column_of (v : json) : option (option string) :=
  match v with
  | JNull => Some None
  | JBool true => Some (Some "1")
  | JBool false => Some (Some "0")
  | JInt n => Some (Some (encode_int n))
  | JStr s => Some (Some s)
  | JArr _ => None
  | JObj _ => None
  end.

(** The row holds the payload: each of its ten columns after the
    identifier is what the INSERT leaves for the value under the key of
    the column, the empty string standing in for an email or a comment
    left out, and the issues column is the JSON text of the issues
    value. *)
Definition holds (data : dict) (r : Row) : Prop :=
  column_of (dict_get "phoneNumber" data) = Some (Some (phone_number r)) /\
  column_of (dict_get "name" data) = Some (Some (name r)) /\
  column_of (dict_get_default "email" (JStr "") data) = Some (email r) /\
  column_of (dict_get "neighborhood" data) = Some (Some (neighborhood r)) /\
  column_of (dict_get "ageGroup" data) = Some (Some (age_group r)) /\
  column_of (dict_get "votingFrequency" data) =
    Some (Some (voting_frequency r)) /\
  option_map json_dumps (dict_lookup "issues" data) = Some (issues r) /\
  column_of (dict_get "engagement" data) = Some (Some (engagement r)) /\
  column_of (dict_get_default "additionalComments" (JStr "") data) =
    Some (additional_comments r) /\
  column_of (dict_get "timestamp" data) = Some (Some (timestamp r)).

(** A backup entry mirrors a row: it is a payload object that the row
    holds. *)
Definition mirrors (r : Row) (e : json) : Prop :=
  exists data, e = JObj data /\ holds data r.

(** The identifiers 1, 2, ..., n. *)
Definition first_ids (n : nat) : list Z := map Z.of_nat (List.seq 1 n).

(** The table and the backup document go together: no backup while there
    is no table, and otherwise one backup entry per row, in table order. *)
Definition backup_in_step (st : Store) : Prop :=
  match db st with
  | None => backup st = None
  | Some d => exists l, backup_entries st = Some l /\ Forall2 mirrors (rows d) l
  end.

(** The identifiers of the table are 1 to n in table order and the
    counter stands at n. *)
Definition ids_in_sequence (st : Store) : Prop :=
  match db st with
  | None => True
  | Some d =>
      map id (rows d) = first_ids (List.length (rows d)) /\
      seq d = Z.of_nat (List.length (rows d))
  end.

(** The text [json_dumps_indent] puts after the first element of a list
    and after the first item of a dict, at depth [level]. *)
Definition more_items_indent (level : nat) : list json -> string :=
  fix more (l : list json) : string :=
    match l with
    | [] => ""
    | y :: l' =>
        "," ++ newline_indent level ++ json_dumps_indent level y ++ more l'
    end.

Definition more_members_indent (level : nat)
  : list (string * json) -> string :=
  fix more (kv : list (string * json)) : string :=
    match kv with
    | [] => ""
    | (k, y) :: kv' =>
        "," ++ newline_indent level ++ encode_string k ++ ": " ++
        json_dumps_indent level y ++ more kv'
    end.

(** Texts at which a number ends: they start neither with a digit nor
    with a fraction or an exponent. *)
Definition ends_number (r : string) : Prop :=
  read_uint r = (Nil, r) /\ starts_fraction r = false.

Definition reads_back_indent (scan : string -> option (json * string))
           (level : nat) (v : json) : Prop :=
  forall r, ends_number r ->
            scan (json_dumps_indent level v ++ r) = Some (v, r).

(** A value as [json.load] builds it: no dict in it has the same key
    twice.  ([json.load] keeps the last value of a key that a text
    repeats; the reader above keeps every pair it reads.) *)
Fixpoint no_repeat (l : list string) : bool :=
  match l with
  | [] => true
  | k :: l' => negb (existsb (String.eqb k) l') && no_repeat l'
  end.

Fixpoint distinct_keys (v : json) : bool :=
  match v with
  | JArr l => forallb distinct_keys l
  | JObj kv =>
      no_repeat (map fst kv) && forallb (fun p => distinct_keys (snd p)) kv
  | _ => true
  end.

(** [save_to_json] called for each payload in turn, each call reading the
    file the one before has written. *)
Fixpoint save_all (payloads : list dict) (file : option string)
  : result (option string) :=
  match payloads with
  | [] => Ok file
  | data :: rest =>
      text <- save_to_json_text data file ;;
      save_all rest (Some text)
  end.

(** The three credentials are set and not empty. *)
Definition credentials_set (env : list (string * string)) : Prop :=
  env_set (getenv env "TWILIO_ACCOUNT_SID") = true /\
  env_set (getenv env "TWILIO_AUTH_TOKEN") = true /\
  env_set (getenv env "TWILIO_PHONE_NUMBER") = true.


Definition demo_env : list (string * string) :=
  [("TWILIO_ACCOUNT_SID", "AC0001"); ("TWILIO_AUTH_TOKEN", "secret");
   ("TWILIO_PHONE_NUMBER", "+16175550000")].

(** A recipients file of two dicts and one whose second item is a
    string. *)
Definition demo_files : files :=
  [("recipients.json",
    json_dumps (JArr [JObj [("phone", JStr "6175550100")];
                      JObj [("name", JStr "Jane")]]));
   ("broken.json",
    json_dumps (JArr [JObj [("phone", JStr "6175550100")];
                      JStr "6175550111";
                      JObj [("phone", JStr "6175550122")]]))].

(** Three accepted submissions from the neighbourhoods A, A and B. *)
Definition payload_from (place : string) : dict :=
  [("phoneNumber", JStr "6175550100"); ("name", JStr "Jane");
   ("neighborhood", JStr place); ("ageGroup", JStr "25-34");
   ("votingFrequency", JStr "always"); ("engagement", JStr "high");
   ("issues", JArr [JStr "housing"])].

Definition three_rows_store : Store :=
  snd (submit_survey "2024-05-03T10:00:00" (JObj (payload_from "B"))
         (snd (submit_survey "2024-05-02T10:00:00" (JObj (payload_from "A"))
                 (snd (submit_survey "2024-05-01T10:00:00"
                         (JObj (payload_from "A"))
                         (init_database fresh_store)))))).

(** * Properties *)

(** ** The JSON text of a value reads back as the value *)

Lemma append_assoc (a b c : string) : (a ++ b) ++ c = a ++ (b ++ c).
Proof.
  induction a as [|x a IH]; simpl; [reflexivity|].
  now rewrite IH.
Qed.

Lemma scanstring_escape_char (c : ascii) (t : string) :
  scanstring (escape_char c ++ t) =
  match scanstring t with
  | Some (s', r) => Some (String c s', r)
  | None => None
  end.
Proof.
  destruct c as [b0 b1 b2 b3 b4 b5 b6 b7].
  destruct b0, b1, b2, b3, b4, b5, b6, b7; reflexivity.
Qed.

Lemma scanstring_escape (s rest : string) :
  scanstring (escape s ++ String dquote rest) = Some (s, rest).
Proof.
  induction s as [|c s IH]; simpl.
  - reflexivity.
  - rewrite append_assoc, scanstring_escape_char, IH. reflexivity.
Qed.

Lemma closes_cases (s : string) :
  closes s = true ->
  s = "" \/ exists r, s = String "," r \/ s = String "]" r \/ s = String "}" r.
Proof.
  destruct s as [|c r]; simpl; intros H; [now left|right; exists r].
  rewrite !orb_true_iff, !Ascii.eqb_eq in H.
  destruct H as [[->| ->]| ->]; auto.
Qed.

Ltac closes_split H :=
  apply closes_cases in H;
  destruct H as [->|[? [->|[->| ->]]]].

Lemma read_uint_closes (rest : string) :
  closes rest = true -> read_uint rest = (Nil, rest).
Proof. intros H. closes_split H; reflexivity. Qed.

Lemma read_uint_string_of_uint (d : uint) (rest : string) :
  closes rest = true ->
  read_uint (NilEmpty.string_of_uint d ++ rest) = (d, rest).
Proof.
  intros H.
  induction d; simpl; try (rewrite IHd; reflexivity).
  now apply read_uint_closes.
Qed.

Lemma starts_fraction_closes (rest : string) :
  closes rest = true -> starts_fraction rest = false.
Proof. intros H. closes_split H; reflexivity. Qed.

Lemma uint_eqb_refl (d : uint) : uint_eqb d d = true.
Proof. unfold uint_eqb. apply String.eqb_refl. Qed.

Lemma scan_digits_uint (neg : bool) (d : uint) (rest : string) :
  d <> Nil -> unorm d = d -> closes rest = true ->
  scan_digits neg (NilEmpty.string_of_uint d ++ rest) =
  Some (JInt (Z.of_int (if neg then Neg d else Pos d)), rest).
Proof.
  intros Hd Hn Hr. unfold scan_digits.
  rewrite (read_uint_string_of_uint d rest Hr), Hn, uint_eqb_refl.
  rewrite (starts_fraction_closes rest Hr).
  destruct d; [congruence|reflexivity..].
Qed.

Lemma scan_number_uint (d : uint) (rest : string) :
  d <> Nil ->
  scan_number (NilEmpty.string_of_uint d ++ rest) =
  scan_digits false (NilEmpty.string_of_uint d ++ rest).
Proof. intros Hd. destruct d; [congruence|reflexivity..]. Qed.

Lemma unorm_to_uint (p : positive) : unorm (Pos.to_uint p) = Pos.to_uint p.
Proof.
  rewrite <- (DecimalPos.Unsigned.to_of (Pos.to_uint p)).
  now rewrite DecimalPos.Unsigned.of_to.
Qed.

Lemma nilzero_to_uint (p : positive) :
  NilZero.string_of_uint (Pos.to_uint p) =
  NilEmpty.string_of_uint (Pos.to_uint p).
Proof.
  pose proof (DecimalPos.Unsigned.to_uint_nonnil p) as H.
  destruct (Pos.to_uint p); [congruence|reflexivity..].
Qed.

Lemma scan_number_encode_int (n : Z) (rest : string) :
  closes rest = true ->
  scan_number (encode_int n ++ rest) = Some (JInt n, rest).
Proof.
  intros Hr. unfold encode_int.
  destruct n as [|p|p]; simpl Z.to_int; unfold NilZero.string_of_int.
  - change (NilZero.string_of_uint zero) with (NilEmpty.string_of_uint zero).
    rewrite scan_number_uint by discriminate.
    now rewrite scan_digits_uint.
  - rewrite nilzero_to_uint.
    rewrite scan_number_uint by apply DecimalPos.Unsigned.to_uint_nonnil.
    rewrite scan_digits_uint;
      auto using DecimalPos.Unsigned.to_uint_nonnil, unorm_to_uint.
    change (Pos (Pos.to_uint p)) with (Z.to_int (Z.pos p)).
    now rewrite DecimalZ.of_to.
  - rewrite nilzero_to_uint. simpl.
    rewrite scan_digits_uint;
      auto using DecimalPos.Unsigned.to_uint_nonnil, unorm_to_uint.
    change (Neg (Pos.to_uint p)) with (Z.to_int (Z.neg p)).
    now rewrite DecimalZ.of_to.
Qed.

Lemma append_nil_r (a : string) : a ++ "" = a.
Proof. induction a as [|x a IH]; simpl; [reflexivity|now rewrite IH]. Qed.

Lemma length_append (a b : string) :
  String.length (a ++ b) = (String.length a + String.length b)%nat.
Proof. induction a as [|x a IH]; simpl; [reflexivity|now rewrite IH]. Qed.

Lemma number_value_start (c : ascii) :
  number_start c = true -> value_start c = true.
Proof. unfold value_start. intros ->. now rewrite !orb_true_r. Qed.

Lemma value_start_facts (c : ascii) :
  value_start c = true ->
  is_ws c = false /\ Ascii.eqb c "]" = false /\ Ascii.eqb c "}" = false.
Proof.
  destruct c as [b0 b1 b2 b3 b4 b5 b6 b7].
  destruct b0, b1, b2, b3, b4, b5, b6, b7; cbv; intros H;
    try discriminate H; repeat split.
Qed.

Lemma uint_head (d : uint) :
  d <> Nil ->
  exists c s, NilEmpty.string_of_uint d = String c s /\ number_start c = true.
Proof.
  intros Hd. destruct d; [congruence|..]; simpl; eexists; eexists; split;
    reflexivity.
Qed.

Lemma encode_int_head (n : Z) :
  exists c s, encode_int n = String c s /\ number_start c = true.
Proof.
  unfold encode_int.
  destruct n as [|p|p]; simpl Z.to_int; unfold NilZero.string_of_int.
  - exists "0"%char, "". split; reflexivity.
  - rewrite nilzero_to_uint.
    apply uint_head, DecimalPos.Unsigned.to_uint_nonnil.
  - exists "-"%char, (NilZero.string_of_uint (Pos.to_uint p)).
    split; reflexivity.
Qed.

Lemma dumps_head (v : json) :
  exists c s, json_dumps v = String c s /\ value_start c = true.
Proof.
  destruct v as [|[|]|n|s|l|kv];
    try (simpl; eexists; eexists; split; reflexivity).
  destruct (encode_int_head n) as (c & s & E & Hc).
  exists c, s. split; [exact E|now apply number_value_start].
Qed.

Lemma skip_ws_dumps (v : json) (r : string) :
  skip_ws (json_dumps v ++ r) = json_dumps v ++ r.
Proof.
  destruct (dumps_head v) as (c & s & E & Hc). rewrite E. simpl.
  destruct (value_start_facts c Hc) as (-> & _). reflexivity.
Qed.

Lemma dumps_arr (x : json) (l : list json) (rest : string) :
  json_dumps (JArr (x :: l)) ++ rest =
  String "[" (json_dumps x ++ more_items l ++ String "]" rest).
Proof.
  change (json_dumps (JArr (x :: l)))
    with ("[" ++ (json_dumps x ++ more_items l) ++ "]").
  rewrite !append_assoc. reflexivity.
Qed.

Lemma dumps_obj (k : string) (x : json) (kv : list (string * json))
      (rest : string) :
  json_dumps (JObj ((k, x) :: kv)) ++ rest =
  String "{" (encode_string k ++ ": " ++ json_dumps x ++ more_members kv
              ++ String "}" rest).
Proof.
  change (json_dumps (JObj ((k, x) :: kv)))
    with ("{" ++ (encode_string k ++ ": " ++ json_dumps x ++ more_members kv)
          ++ "}").
  rewrite !append_assoc. reflexivity.
Qed.

Lemma json_induction (P : json -> Prop) :
  P JNull -> (forall b, P (JBool b)) -> (forall n, P (JInt n)) ->
  (forall s, P (JStr s)) ->
  (forall l, Forall P l -> P (JArr l)) ->
  (forall kv, Forall (fun p => P (snd p)) kv -> P (JObj kv)) ->
  forall v, P v.
Proof.
  intros Hnull Hbool Hint Hstr Harr Hobj.
  fix IH 1.
  intros [|b|n|s|l|kv];
    [exact Hnull|apply Hbool|apply Hint|apply Hstr| |].
  - apply Harr. induction l as [|x l IHl]; constructor.
    + apply IH.
    + exact IHl.
  - apply Hobj. induction kv as [|[k x] kv IHkv]; constructor.
    + apply IH.
    + exact IHkv.
Qed.

Lemma more_items_closes (l : list json) (rest : string) :
  closes (more_items l ++ String "]" rest) = true.
Proof. destruct l; reflexivity. Qed.

Lemma more_members_closes (kv : list (string * json)) (rest : string) :
  closes (more_members kv ++ String "}" rest) = true.
Proof. destruct kv as [|[k x] kv]; reflexivity. Qed.

Lemma parse_items_dumps (scan : string -> option (json * string))
      (l : list json) :
  forall (x : json) (n : nat) (rest : string),
    Forall (reads_back scan) (x :: l) ->
    (List.length l < n)%nat ->
    parse_items scan n (json_dumps x ++ more_items l ++ String "]" rest) =
    Some (x :: l, rest).
Proof.
  induction l as [|y l IH]; intros x n rest Hall Hn;
    (destruct n as [|n]; [simpl in Hn; lia|]);
    inversion Hall as [|? ? Hx Hl]; subst; cbn [parse_items].
  - rewrite (Hx _ (more_items_closes [] rest)). reflexivity.
  - rewrite (Hx _ (more_items_closes (y :: l) rest)).
    cbn [more_items]. rewrite !append_assoc. 
    change (skip_ws (", " ++ ?t)) with (String "," (" " ++ t)).
    cbv beta iota. 
    change (Ascii.eqb "," "]") with false.
    change (Ascii.eqb "," ",") with true. cbv iota.
    change (skip_ws (" " ++ ?t)) with (skip_ws t).
    rewrite skip_ws_dumps, IH; auto.
    simpl in Hn. lia.
Qed.

Lemma parse_members_dumps (scan : string -> option (json * string))
      (kv : list (string * json)) :
  forall (k : string) (x : json) (n : nat) (rest : string),
    Forall (fun p => reads_back scan (snd p)) ((k, x) :: kv) ->
    (List.length kv < n)%nat ->
    parse_members scan n
      (encode_string k ++ ": " ++ json_dumps x ++ more_members kv
       ++ String "}" rest) =
    Some ((k, x) :: kv, rest).
Proof.
  induction kv as [|[k' y] kv IH]; intros k x n rest Hall Hn;
    (destruct n as [|n]; [simpl in Hn; lia|]);
    inversion Hall as [|? ? Hx Hl]; subst; simpl snd in Hx;
    unfold encode_string; cbn [parse_members append];
    change (Ascii.eqb dquote dquote) with true; cbv iota beta;
    cbn [negb]; rewrite append_assoc; cbn [append];
    rewrite scanstring_escape;
    change (skip_ws (String ":" (String " " ?t))) with (String ":" (String " " t));
    cbv iota beta; change (Ascii.eqb ":" ":") with true; cbn [negb];
    change (skip_ws (String " " ?t)) with (skip_ws t);
    rewrite skip_ws_dumps.
  - rewrite (Hx _ (more_members_closes [] rest)). reflexivity.
  - rewrite (Hx _ (more_members_closes ((k', y) :: kv) rest)).
    cbn [more_members]. rewrite !append_assoc.
    change (skip_ws (", " ++ ?t)) with (String "," (" " ++ t)).
    cbv beta iota.
    change (Ascii.eqb "," "}") with false.
    change (Ascii.eqb "," ",") with true. cbv iota.
    change (skip_ws (" " ++ ?t)) with (skip_ws t).
    assert (E : skip_ws (encode_string k' ++ ": " ++ json_dumps y ++
                         more_members kv ++ String "}" rest) =
                encode_string k' ++ ": " ++ json_dumps y ++
                more_members kv ++ String "}" rest) by reflexivity.
    rewrite E, IH; auto.
    simpl in Hn. lia.
Qed.

Lemma size_items (l : list json) (f : nat) :
  (fold_right (fun x n => size x + n) 0 l <= f)%nat ->
  (List.length l <= f)%nat /\ Forall (fun x => size x <= f)%nat l.
Proof.
  revert f. induction l as [|x l IH]; simpl; intros f H.
  - split; [lia|constructor].
  - assert (1 <= size x)%nat by (destruct x; simpl; lia).
    destruct (IH (f - size x)%nat) as [H1 H2]; [lia|].
    split; [lia|]. constructor; [lia|].
    eapply Forall_impl; [|exact H2]. simpl. intros; lia.
Qed.

Lemma size_members (kv : list (string * json)) (f : nat) :
  (fold_right (fun p n => size (snd p) + n) 0 kv <= f)%nat ->
  (List.length kv <= f)%nat /\ Forall (fun p => size (snd p) <= f)%nat kv.
Proof.
  revert f. induction kv as [|[k x] kv IH]; simpl; intros f H.
  - split; [lia|constructor].
  - assert (1 <= size x)%nat by (destruct x; simpl; lia).
    destruct (IH (f - size x)%nat) as [H1 H2]; [lia|].
    split; [lia|]. constructor; [simpl; lia|].
    eapply Forall_impl; [|exact H2]. simpl. intros; lia.
Qed.

Lemma scan_once_dumps (v : json) :
  forall (fuel : nat), (size v <= fuel)%nat -> reads_back (scan_once fuel) v.
Proof.
  induction v as [|b|n|s|l IHl|kv IHkv] using json_induction;
    intros fuel Hf rest Hr;
    (destruct fuel as [|fuel]; [simpl in Hf; lia|]).
  - reflexivity.
  - destruct b; reflexivity.
  - destruct (encode_int_head n) as (c & t & E & Hc).
    assert (Hs : scan_once (S fuel) (encode_int n ++ rest) =
                 scan_number (encode_int n ++ rest)).
    { rewrite E. cbn [append scan_once].
      revert Hc. clear.
      destruct c as [b0 b1 b2 b3 b4 b5 b6 b7].
      destruct b0, b1, b2, b3, b4, b5, b6, b7; intros Hc;
        try discriminate Hc; reflexivity. }
    cbn [json_dumps]. rewrite Hs. now apply scan_number_encode_int.
  - cbn [json_dumps]. unfold encode_string. cbn [append scan_once].
    change (Ascii.eqb dquote dquote) with true. cbv iota.
    rewrite append_assoc. cbn [append].
    now rewrite scanstring_escape.
  - destruct l as [|x l]; [reflexivity|].
    rewrite dumps_arr. cbn [scan_once].
    change (Ascii.eqb "[" dquote) with false.
    change (Ascii.eqb "[" "{") with false.
    change (Ascii.eqb "[" "[") with true. cbv iota.
    rewrite skip_ws_dumps.
    simpl in Hf. apply le_S_n in Hf.
    destruct (size_items (x :: l) fuel Hf) as [Hlen Hsz].
    assert (Hall : Forall (reads_back (scan_once fuel)) (x :: l)).
    { rewrite Forall_forall in *. intros y Hy. apply IHl; auto. }
    pose proof (parse_items_dumps (scan_once fuel) l x fuel rest Hall) as Hp.
    destruct (dumps_head x) as (c & t & E & Hc).
    destruct (value_start_facts c Hc) as (_ & Hc1 & _).
    rewrite E in *. cbn [append] in *. rewrite Hc1, Hp; [reflexivity|].
    simpl in Hlen. lia.
  - destruct kv as [|[k x] kv]; [reflexivity|].
    rewrite dumps_obj. cbn [scan_once].
    change (Ascii.eqb "{" dquote) with false.
    change (Ascii.eqb "{" "{") with true. cbv iota.
    simpl in Hf. apply le_S_n in Hf.
    destruct (size_members ((k, x) :: kv) fuel Hf) as [Hlen Hsz].
    assert (Hall : Forall (fun p => reads_back (scan_once fuel) (snd p))
                          ((k, x) :: kv)).
    { rewrite Forall_forall in *. intros p Hp. apply IHkv; auto. }
    pose proof (parse_members_dumps (scan_once fuel) kv k x fuel rest Hall)
      as Hp.
    unfold encode_string in *. cbn [append] in *.
    change (skip_ws (String dquote ?t)) with (String dquote t).
    cbv iota beta.
    change (Ascii.eqb dquote "}") with false. cbv iota.
    rewrite Hp; [reflexivity|].
    simpl in Hlen. lia.
Qed.

Lemma dumps_nonempty (v : json) : (1 <= String.length (json_dumps v))%nat.
Proof.
  destruct (dumps_head v) as (c & s & E & _). rewrite E. simpl. lia.
Qed.

Lemma size_le_length (v : json) : (size v <= String.length (json_dumps v))%nat.
Proof.
  induction v as [|b|n|s|l IHl|kv IHkv] using json_induction;
    try apply dumps_nonempty.
  - destruct l as [|x l]; [simpl; lia|].
    rewrite <- (append_nil_r (json_dumps (JArr (x :: l)))), dumps_arr.
    inversion IHl as [|? ? Hx Hl]; subst.
    cbn [size fold_right String.length]. rewrite !length_append.
    assert (fold_right (fun x n => size x + n) 0 l
            <= String.length (more_items l))%nat.
    { clear Hx IHl. induction Hl as [|y l Hy Hl IH]; [simpl; lia|].
      cbn [fold_right more_items]. rewrite !length_append. simpl. lia. }
    simpl. lia.
  - destruct kv as [|[k x] kv]; [simpl; lia|].
    rewrite <- (append_nil_r (json_dumps (JObj ((k, x) :: kv)))), dumps_obj.
    inversion IHkv as [|? ? Hx Hl]; subst. simpl snd in Hx.
    cbn [size fold_right String.length snd]. rewrite !length_append.
    assert (fold_right (fun p n => size (snd p) + n) 0 kv
            <= String.length (more_members kv))%nat.
    { clear Hx IHkv. induction Hl as [|[k' y] kv Hy Hl IH]; [simpl; lia|].
      cbn [fold_right more_members snd]. rewrite !length_append.
      simpl in Hy. simpl. lia. }
    simpl. lia.
Qed.

(** [json.loads(json.dumps(v)) == v] for every value of the model. *)
Lemma json_loads_dumps (v : json) : json_loads (json_dumps v) = Some v.
Proof.
  unfold json_loads.
  rewrite <- (append_nil_r (json_dumps v)) at 1 2.
  rewrite skip_ws_dumps, append_nil_r.
  pose proof (scan_once_dumps v (S (String.length (json_dumps v)))) as H.
  rewrite <- (append_nil_r (json_dumps v)) at 2.
  rewrite H; [reflexivity| |reflexivity].
  pose proof (size_le_length v). lia.
Qed.

(** ** Validation of a submission *)

Lemma absent_not_supplied (data : dict) (field : string) :
  dict_lookup field data = None -> ~ supplied data field.
Proof.
  unfold supplied, dict_get, dict_get_default. intros ->. discriminate.
Qed.

Lemma empty_not_supplied (data : dict) (field : string) :
  dict_lookup field data = Some (JStr "") \/
  dict_lookup field data = Some (JArr []) \/
  dict_lookup field data = Some (JObj []) \/
  dict_lookup field data = Some JNull ->
  ~ supplied data field.
Proof.
  unfold supplied, dict_get, dict_get_default.
  intros [-> | [-> | [-> | ->]]]; discriminate.
Qed.

Lemma text_supplied (data : dict) (field s : string) :
  dict_lookup field data = Some (JStr s) ->
  (supplied data field <-> s <> "").
Proof.
  unfold supplied, dict_get, dict_get_default. intros ->. simpl.
  rewrite negb_true_iff, String.eqb_neq. tauto.
Qed.

Lemma supplied_dec (data : dict) (field : string) :
  {supplied data field} + {~ supplied data field}.
Proof.
  unfold supplied. destruct (truthy (dict_get field data)); [left|right];
    congruence.
Qed.

Lemma first_missing_found (data : dict) (before : list string) :
  forall (field : string) (after : list string),
    Forall (supplied data) before -> ~ supplied data field ->
    first_missing (before ++ field :: after) data = Some field.
Proof.
  induction before as [|g before IH]; intros field after Hb Hf; simpl.
  - unfold supplied in Hf. apply not_true_is_false in Hf. now rewrite Hf.
  - inversion Hb as [|? ? Hg Hb']; subst. unfold supplied in Hg.
    rewrite Hg. simpl. now apply IH.
Qed.

Lemma first_missing_none (data : dict) (fields : list string) :
  first_missing fields data = None <-> Forall (supplied data) fields.
Proof.
  induction fields as [|g fields IH]; simpl.
  - split; [constructor|reflexivity].
  - destruct (truthy (dict_get g data)) eqn:E; simpl.
    + rewrite IH. split; [now constructor|].
      intros H. now inversion H.
    + split; [discriminate|]. intros H. inversion H as [|? ? Hg _].
      unfold supplied in Hg. congruence.
Qed.

Lemma first_missing_some (data : dict) (fields : list string) (field : string) :
  first_missing fields data = Some field ->
  In field fields /\ ~ supplied data field.
Proof.
  induction fields as [|g fields IH]; simpl; [discriminate|].
  destruct (truthy (dict_get g data)) eqn:E; simpl.
  - intros H. destruct (IH H). auto.
  - intros [= <-]. split; [now left|]. unfold supplied. congruence.
Qed.

(** C1: the six required fields are tested in their order and the first
    one that is absent or empty is named in a 400; the issues field is
    tested only after all six passed, and its absence or emptiness gives
    the 400 of an empty selection. *)
Theorem submit_validates_in_order (now : string) (data : dict) (st : Store) :
  required_fields =
    ["phoneNumber"; "name"; "neighborhood"; "ageGroup"; "votingFrequency";
     "engagement"] /\
  (forall before field after,
      required_fields = (before ++ field :: after)%list ->
      Forall (supplied data) before -> ~ supplied data field ->
      fst (submit_survey now (JObj data) st) =
      mkResponse 400
        (JObj [("error", JStr ("Missing required field: " ++ field))])) /\
  (Forall (supplied data) required_fields -> ~ supplied data "issues" ->
   fst (submit_survey now (JObj data) st) =
   mkResponse 400
     (JObj [("error", JStr "At least one issue must be selected")])) /\
  (fst (submit_survey now (JObj data) st) =
   mkResponse 400
     (JObj [("error", JStr "At least one issue must be selected")]) ->
   Forall (supplied data) required_fields).
Proof.
  split; [reflexivity|]. split; [|split].
  - intros before field after Hsplit Hb Hf.
    unfold submit_survey. rewrite Hsplit.
    now rewrite (first_missing_found data before field after Hb Hf).
  - intros Hall Hiss. unfold submit_survey.
    apply first_missing_none in Hall. rewrite Hall.
    unfold issues_empty. unfold supplied in Hiss.
    apply not_true_is_false in Hiss. now rewrite Hiss.
  - unfold submit_survey.
    destruct (first_missing required_fields data) as [field|] eqn:E.
    + simpl. intros [=].
    + intros _. now apply first_missing_none.
Qed.

Lemma submit_validates_in_order_witness :
  fst (submit_survey "2024-05-01T10:00:00" (JObj payload_without_name)
                     (init_database fresh_store)) =
  mkResponse 400 (JObj [("error", JStr "Missing required field: name")]).
Proof.
  destruct (submit_validates_in_order "2024-05-01T10:00:00"
              payload_without_name (init_database fresh_store))
    as (_ & Hfirst & _).
  apply (Hfirst ["phoneNumber"] "name"
                ["neighborhood"; "ageGroup"; "votingFrequency"; "engagement"]).
  - reflexivity.
  - constructor; [reflexivity|constructor].
  - unfold supplied. simpl. discriminate.
Defined.

(** A body that is not a JSON object never reaches the checks: [data.get]
    raises and the handler answers 500, leaving the store alone. *)
Lemma submit_rejects_non_object (now : string) (payload : json) (st : Store) :
  (forall data, payload <> JObj data) ->
  status (fst (submit_survey now payload st)) = 500 /\
  snd (submit_survey now payload st) = st.
Proof.
  intros H. destruct payload; try (split; reflexivity).
  now destruct (H kv).
Qed.

(** C2: a payload that fails validation is answered with 400 and leaves
    the store as it was: the table, the backup document and the export
    files are those of before. *)
Theorem failed_validation_has_no_effect
        (now : string) (data : dict) (st : Store) :
  ~ Forall (supplied data) required_fields \/ ~ supplied data "issues" ->
  status (fst (submit_survey now (JObj data) st)) = 400 /\
  snd (submit_survey now (JObj data) st) = st /\
  db (snd (submit_survey now (JObj data) st)) = db st /\
  backup (snd (submit_survey now (JObj data) st)) = backup st.
Proof.
  intros H.
  assert (G : status (fst (submit_survey now (JObj data) st)) = 400 /\
              snd (submit_survey now (JObj data) st) = st).
  { unfold submit_survey.
    destruct (first_missing required_fields data) as [field|] eqn:E;
      [split; reflexivity|].
    apply first_missing_none in E.
    destruct H as [H|H]; [contradiction|].
    unfold issues_empty. unfold supplied in H.
    apply not_true_is_false in H. rewrite H. split; reflexivity. }
  destruct G as [G1 G2]. rewrite G2. auto.
Qed.

Lemma failed_validation_has_no_effect_witness :
  status (fst (submit_survey "2024-05-01T10:00:00" (JObj payload_without_name)
                             (init_database fresh_store))) = 400 /\
  snd (submit_survey "2024-05-01T10:00:00" (JObj payload_without_name)
                     (init_database fresh_store)) = init_database fresh_store.
Proof.
  destruct (failed_validation_has_no_effect "2024-05-01T10:00:00"
              payload_without_name (init_database fresh_store))
    as (H1 & H2 & _).
  - left. intros H. inversion H as [|? ? _ H']. inversion H' as [|? ? Hn _].
    unfold supplied in Hn. simpl in Hn. discriminate.
  - split; [exact H1|exact H2].
Defined.

(** ** The store: inserts and identifiers *)

Ltac bind_inv H :=
  repeat
    match type of H with
    | bind ?r _ = Ok _ =>
        let E := fresh "E" in
        destruct r eqn:E; cbn [bind] in H; [|discriminate H]
    | match db ?s with _ => _ end = Ok _ =>
        let E := fresh "Edb" in
        destruct (db s) eqn:E; [|discriminate H]
    end.

Lemma max_rowid_nonneg (l : list Row) : 0 <= max_rowid l.
Proof. induction l; simpl; lia. Qed.

Lemma max_rowid_app (l : list Row) (r : Row) :
  max_rowid (l ++ [r]) = Z.max (max_rowid l) (Z.max (id r) 0).
Proof.
  induction l as [|x l IH]; simpl; [lia|]. rewrite IH. lia.
Qed.

Lemma max_rowid_in (l : list Row) (r : Row) : In r l -> id r <= max_rowid l.
Proof.
  induction l as [|x l IH]; simpl; [tauto|].
  intros [->|H]; [lia|]. apply IH in H. lia.
Qed.

Lemma next_rowid_ok (d : Database) (rid : Z) :
  next_rowid d = Ok rid -> rid = high d + 1.
Proof.
  unfold next_rowid, high.
  destruct (Z.max (seq d) (max_rowid (rows d)) <? int64_max); [|discriminate].
  now intros [= <-].
Qed.

(** What a successful insert did. *)
Lemma save_to_database_ok (data : dict) (st st1 : Store) (rid : Z) :
  save_to_database data st = Ok (rid, st1) ->
  exists d row v,
    db st = Some d /\ rid = high d + 1 /\
    subscript "issues" data = Ok v /\
    id row = rid /\ issues row = json_dumps v /\
    st1 = set_db st (mkDatabase (rows d ++ [row]) rid).
Proof.
  unfold save_to_database. intros H. bind_inv H.
  injection H as <- <-.
  match goal with
  | |- context [mkDatabase (rows ?d ++ [?r]) _] => exists d, r
  end.
  match goal with
  | E : subscript "issues" data = Ok ?v |- _ => exists v
  end.
  match goal with
  | E : next_rowid _ = Ok _ |- _ => apply next_rowid_ok in E
  end.
  repeat split; auto.
  cbn [issues].
  repeat match goal with
         | E : adapt (JStr _) = Ok _ |- _ => cbn in E; injection E as <-
         end.
  match goal with
  | E : not_null "issues" _ = Ok _ |- _ => cbn in E; now injection E as <-
  end.
Qed.

Lemma high_nonneg (d : Database) : 0 <= high d.
Proof. unfold high. pose proof (max_rowid_nonneg (rows d)). lia. Qed.

Lemma high_after_insert (d : Database) (row : Row) :
  id row = high d + 1 ->
  high (mkDatabase (rows d ++ [row]) (id row)) = id row.
Proof.
  intros H. unfold high in *. simpl. rewrite max_rowid_app.
  pose proof (max_rowid_nonneg (rows d)). lia.
Qed.

Lemma save_to_database_issued (data : dict) (st st1 : Store) (rid : Z) :
  save_to_database data st = Ok (rid, st1) ->
  rid = issued st + 1 /\ issued st1 = rid.
Proof.
  intros H. apply save_to_database_ok in H.
  destruct H as (d & row & v & Hd & Hrid & _ & Hid & _ & ->).
  unfold issued. rewrite Hd. split; [exact Hrid|].
  simpl. rewrite <- Hid. apply high_after_insert. lia.
Qed.

(** The store a submission leaves behind. *)
Lemma submit_cases (now : string) (payload : json) (st : Store) :
  snd (submit_survey now payload st) = st \/
  exists data rid st1,
    save_to_database data st = Ok (rid, st1) /\
    (snd (submit_survey now payload st) = st1 \/
     exists doc, snd (submit_survey now payload st) = set_backup st1 doc).
Proof.
  unfold submit_survey.
  destruct payload as [| | | | |data]; auto.
  destruct (first_missing required_fields data); auto.
  destruct (issues_empty data) as [[|]|]; auto.
  destruct (save_to_database (fill_timestamp now data) st)
    as [[rid st1]|] eqn:E; auto.
  right. exists (fill_timestamp now data), rid, st1. split; [exact E|].
  unfold save_to_json.
  destruct (backup st1) as [[| | | |l|]|]; simpl; eauto.
Qed.

Lemma step_issued (st st' : Store) : step st st' -> issued st <= issued st'.
Proof.
  intros H. destruct H as [st|now payload st|st|stamp st].
  - unfold init_database, issued. destruct (db st) eqn:E; simpl.
    + rewrite E. lia.
    + unfold high. simpl. lia.
  - destruct (submit_cases now payload st)
      as [->|(data & rid & st1 & Hs & [->|(doc & ->)])];
      [lia| |]; apply save_to_database_issued in Hs;
      change (issued (set_backup st1 doc)) with (issued st1) || idtac; lia.
  - lia.
  - unfold export_csv, issued. destruct (db st) eqn:E; simpl; rewrite ?E; lia.
Qed.

Lemma steps_issued (st st' : Store) : steps st st' -> issued st <= issued st'.
Proof.
  induction 1 as [st|st st' st'' H _ IH]; [lia|].
  apply step_issued in H. lia.
Qed.

(** C4: of two successful inserts, the later one returns the greater
    identifier, whatever requests and restarts lie between them. *)
Theorem insert_ids_strictly_increase
        (data1 data2 : dict) (st st1 st2 st3 : Store) (id1 id2 : Z) :
  save_to_database data1 st = Ok (id1, st1) ->
  steps st1 st2 ->
  save_to_database data2 st2 = Ok (id2, st3) ->
  id1 < id2.
Proof.
  intros H1 Hs H2.
  apply save_to_database_issued in H1, H2.
  apply steps_issued in Hs. lia.
Qed.

(** What an accepted submission did. *)
Lemma submit_ok (now : string) (data : dict) (st st' : Store)
      (resp : response) :
  submit_survey now (JObj data) st = (resp, st') -> status resp = 200 ->
  exists rid st1,
    save_to_database (fill_timestamp now data) st = Ok (rid, st1) /\
    save_to_json (fill_timestamp now data) st1 = Ok st' /\
    resp = mkResponse 200 (saved_body rid).
Proof.
  unfold submit_survey.
  destruct (first_missing required_fields data);
    [intros [= <- <-]; discriminate|].
  destruct (issues_empty data) as [[|]|];
    try (intros [= <- <-]; discriminate).
  destruct (save_to_database (fill_timestamp now data) st)
    as [[rid st1]|] eqn:E1; [|intros [= <- <-]; discriminate].
  destruct (save_to_json (fill_timestamp now data) st1) as [st2|] eqn:E2;
    [|intros [= <- <-]; discriminate].
  intros [= <- <-] _. exists rid, st1. auto.
Qed.

Lemma save_to_json_db (data : dict) (st st' : Store) :
  save_to_json data st = Ok st' -> db st' = db st.
Proof.
  unfold save_to_json.
  destruct (backup st) as [[| | | |l|]|]; try discriminate;
    now intros [= <-].
Qed.

(** The same at the level of the handler: the [id] of a later 200 is the
    greater one. *)
Lemma submit_ids_increase
      (now1 now2 : string) (data1 data2 : dict) (st st1 st2 st3 : Store)
      (resp1 resp2 : response) :
  submit_survey now1 (JObj data1) st = (resp1, st1) -> status resp1 = 200 ->
  steps st1 st2 ->
  submit_survey now2 (JObj data2) st2 = (resp2, st3) -> status resp2 = 200 ->
  exists id1 id2,
    body resp1 = saved_body id1 /\ body resp2 = saved_body id2 /\ id1 < id2.
Proof.
  intros H1 Hok1 Hs H2 Hok2.
  destruct (submit_ok _ _ _ _ _ H1 Hok1) as (id1 & sa & Ha & Hja & ->).
  destruct (submit_ok _ _ _ _ _ H2 Hok2) as (id2 & sb & Hb & _ & ->).
  exists id1, id2. split; [reflexivity|]. split; [reflexivity|].
  apply save_to_database_issued in Ha, Hb.
  apply save_to_json_db in Hja. apply steps_issued in Hs.
  unfold issued in *. rewrite Hja in Hs. lia.
Qed.

Lemma insert_ids_strictly_increase_witness :
  exists st1 st3,
    save_to_database valid_payload (init_database fresh_store) = Ok (1, st1) /\
    save_to_database valid_payload st1 = Ok (2, st3) /\ 1 < 2.
Proof.
  eexists. eexists. split; [reflexivity|]. split; [reflexivity|].
  eapply (insert_ids_strictly_increase valid_payload valid_payload
            (init_database fresh_store)).
  - reflexivity.
  - apply steps_refl.
  - reflexivity.
Defined.

(** ** Listing the responses *)

Lemma leb_iff (a b : string) :
  String.leb a b = true <-> a = b \/ String_as_OT.lt a b.
Proof.
  unfold String.leb.
  destruct (String.compare a b) eqn:E.
  - apply String_as_OT.cmp_eq in E. tauto.
  - apply String_as_OT.cmp_lt in E. tauto.
  - split; [discriminate|]. intros [->|H].
    + assert (String_as_OT.cmp b b = Eq) by now apply String_as_OT.cmp_eq.
      unfold String_as_OT.cmp in *. congruence.
    + apply String_as_OT.cmp_lt in H. unfold String_as_OT.cmp in *.
      congruence.
Qed.

Lemma leb_trans (a b c : string) :
  String.leb a b = true -> String.leb b c = true -> String.leb a c = true.
Proof.
  rewrite !leb_iff. intros [->|H1] [->|H2]; auto.
  right. eapply String_as_OT.lt_trans; eauto.
Qed.

Lemma insert_desc_perm (r : Row) (l : list Row) :
  Permutation (insert_desc r l) (r :: l).
Proof.
  induction l as [|x l IH]; simpl; [reflexivity|].
  destruct (String.leb (timestamp x) (timestamp r)); [reflexivity|].
  rewrite IH. apply perm_swap.
Qed.

Lemma order_by_timestamp_desc_perm (l : list Row) :
  Permutation (order_by_timestamp_desc l) l.
Proof.
  induction l as [|r l IH]; simpl; [reflexivity|].
  rewrite insert_desc_perm. now constructor.
Qed.

Lemma insert_desc_sorted (r : Row) (l : list Row) :
  StronglySorted text_descending l ->
  StronglySorted text_descending (insert_desc r l).
Proof.
  induction l as [|x l IH]; simpl; intros Hs.
  - constructor; constructor.
  - inversion Hs as [|? ? Hl Hx]; subst.
    destruct (String.leb (timestamp x) (timestamp r)) eqn:E.
    + constructor; [exact Hs|]. constructor; [exact E|].
      rewrite Forall_forall in *. intros y Hy. unfold text_descending in *.
      eapply leb_trans; [apply Hx; exact Hy|exact E].
    + constructor; [now apply IH|].
      rewrite Forall_forall in *. intros y Hy.
      apply (Permutation_in _ (insert_desc_perm r l)) in Hy.
      destruct Hy as [<-|Hy]; [|now apply Hx].
      unfold text_descending.
      destruct (String.leb_total (timestamp x) (timestamp r)); congruence.
Qed.

Lemma order_by_timestamp_desc_sorted (l : list Row) :
  StronglySorted text_descending (order_by_timestamp_desc l).
Proof.
  induction l as [|r l IH]; simpl; [constructor|].
  now apply insert_desc_sorted.
Qed.

Lemma row_response_shows (r : Row) :
  written r -> exists x, row_response r = Ok x /\ shows r x.
Proof.
  intros [v Hv]. unfold row_response, shows.
  change (subscript "issues" (row_dict r)) with (Ok (JStr (issues r))).
  assert (E : json_loads (issues r) = Some v)
    by (rewrite Hv; apply json_loads_dumps).
  cbn [bind loads]. rewrite E. cbn [bind].
  eexists. split; [reflexivity|]. exists v. split; reflexivity.
Qed.

Lemma row_responses_show (l : list Row) :
  Forall written l ->
  exists xs, row_responses l = Ok xs /\ Forall2 shows l xs.
Proof.
  induction 1 as [|r l Hr Hl (xs & E & IH)]; simpl.
  - exists []. split; [reflexivity|constructor].
  - destruct (row_response_shows r Hr) as (x & Ex & Hx).
    rewrite Ex, E. simpl. exists (x :: xs). split; [reflexivity|].
    now constructor.
Qed.

Lemma save_to_database_written (data : dict) (st st1 : Store) (rid : Z) :
  save_to_database data st = Ok (rid, st1) ->
  table_written st -> table_written st1.
Proof.
  intros H Hw. apply save_to_database_ok in H.
  destruct H as (d & row & v & Hd & _ & _ & _ & Hrow & ->).
  unfold table_written in *. rewrite Hd in Hw. simpl.
  apply Forall_app. split; [exact Hw|]. constructor; [|constructor].
  now exists v.
Qed.

Lemma step_written (st st' : Store) :
  step st st' -> table_written st -> table_written st'.
Proof.
  intros H Hw. destruct H as [st|now payload st|st|stamp st].
  - unfold init_database, table_written in *.
    destruct (db st) eqn:E; simpl; [now rewrite E|constructor].
  - destruct (submit_cases now payload st)
      as [->|(data & rid & st1 & Hs & [->|(doc & ->)])]; auto;
      now apply (save_to_database_written _ _ _ _ Hs).
  - exact Hw.
  - unfold export_csv, table_written in *.
    destruct (db st) eqn:E; simpl; rewrite ?E; auto.
Qed.

Lemma reachable_written (st : Store) : reachable st -> table_written st.
Proof.
  induction 1 as [|st st' _ IH Hs]; [exact I|].
  now apply (step_written st st').
Qed.

Lemma row_response_presents (r : Row) :
  written r -> exists x, row_response r = Ok x /\ presents r x.
Proof.
  intros [v Hv]. unfold row_response, presents.
  change (subscript "issues" (row_dict r)) with (Ok (JStr (issues r))).
  assert (E : json_loads (issues r) = Some v)
    by (rewrite Hv; apply json_loads_dumps).
  cbn [bind loads]. rewrite E. cbn [bind].
  eexists. split; [reflexivity|]. exists v. split; [exact Hv|reflexivity].
Qed.

Lemma row_responses_present (l : list Row) :
  Forall written l ->
  exists xs, row_responses l = Ok xs /\ Forall2 presents l xs.
Proof.
  induction 1 as [|r l Hr Hl (xs & E & IH)]; simpl.
  - exists []. split; [reflexivity|constructor].
  - destruct (row_response_presents r Hr) as (x & Ex & Hx).
    rewrite Ex, E. simpl. exists (x :: xs). split; [reflexivity|].
    now constructor.
Qed.

(** C5, as the code has it: whatever the service has stored, the list
    operation answers 200 with exactly one response per stored row, each
    response being the eleven columns of its row with the issues decoded;
    the rows are taken in descending order of the stored timestamp text,
    compared byte by byte as [ORDER BY timestamp DESC] does on a TEXT
    column.  Nothing is claimed of the instants the texts name. *)
Theorem responses_listed_by_timestamp_text (st : Store) (d : Database) :
  reachable st -> db st = Some d ->
  exists ordered responses,
    get_responses st =
    mkResponse 200
      (JObj [("success", JBool true);
             ("count", JInt (Z.of_nat (List.length (rows d))));
             ("responses", JArr responses)]) /\
    Permutation ordered (rows d) /\
    StronglySorted text_descending ordered /\
    Forall2 presents ordered responses.
Proof.
  intros Hr Hd. apply reachable_written in Hr.
  unfold table_written in Hr. rewrite Hd in Hr.
  pose proof (order_by_timestamp_desc_perm (rows d)) as Hp.
  assert (Hw : Forall written (order_by_timestamp_desc (rows d))).
  { rewrite Forall_forall in *. intros r Hin. apply Hr.
    now apply (Permutation_in _ Hp). }
  destruct (row_responses_present _ Hw) as (xs & E & Hxs).
  exists (order_by_timestamp_desc (rows d)), xs.
  unfold get_responses. rewrite Hd, E. unfold responses_body.
  rewrite <- (Forall2_length Hxs), (Permutation_length Hp).
  repeat split; auto using order_by_timestamp_desc_sorted.
Qed.

Lemma responses_listed_by_timestamp_text_witness :
  exists d ordered responses,
    db two_rows_store = Some d /\
    List.length (rows d) = 2%nat /\
    get_responses two_rows_store =
    mkResponse 200
      (JObj [("success", JBool true);
             ("count", JInt (Z.of_nat (List.length (rows d))));
             ("responses", JArr responses)]) /\
    Permutation ordered (rows d) /\
    StronglySorted text_descending ordered /\
    Forall2 presents ordered responses.
Proof.
  eexists.
  assert (Hr : reachable two_rows_store).
  { unfold two_rows_store.
    eapply reach_step; [|apply step_submit].
    eapply reach_step; [|apply step_submit].
    eapply reach_step; [apply reach_fresh|apply step_start]. }
  destruct (responses_listed_by_timestamp_text two_rows_store _ Hr eq_refl)
    as (ordered & responses & H).
  exists ordered, responses. split; [reflexivity|]. split; [reflexivity|].
  exact H.
Defined.

(** The claim as written, newest timestamp first, does not hold.  The
    service stores a timestamp the client sent as it is; of the two rows of
    [offsets_store] the one stamped 12:00 at +05:00 (07:00 UTC) is listed
    before the one stamped 08:00 UTC, though it is the older by an hour. *)
Lemma older_row_is_listed_first :
  reachable offsets_store /\
  exists older newer a b,
    db offsets_store = Some (mkDatabase [newer; older] 2) /\
    get_responses offsets_store =
    mkResponse 200
      (JObj [("success", JBool true); ("count", JInt 2);
             ("responses", JArr [a; b])]) /\
    presents older a /\ presents newer b /\
    timestamp older = "2024-05-01T12:00:00+05:00" /\
    timestamp newer = "2024-05-01T08:00:00+00:00" /\
    instant (timestamp older) = Some 1714546800 /\
    instant (timestamp newer) = Some 1714550400 /\
    ~ newest_first older newer.
Proof.
  split.
  { unfold offsets_store.
    eapply reach_step; [|apply step_submit].
    eapply reach_step; [|apply step_submit].
    eapply reach_step; [apply reach_fresh|apply step_start]. }
  do 4 eexists.
  split; [reflexivity|]. split; [reflexivity|].
  split; [exists (JArr [JStr "housing"]); split; reflexivity|].
  split; [exists (JArr [JStr "housing"]); split; reflexivity|].
  split; [reflexivity|]. split; [reflexivity|].
  split; [reflexivity|]. split; [reflexivity|].
  unfold newest_first.
  change (instant (timestamp _)) with (Some 1714546800) at 1.
  cbv. intros H. apply H. reflexivity.
Qed.

(** ** Issues survive storage *)

Lemma shows_fields (r : Row) (x : json) :
  shows r x ->
  field "id" x = JInt (id r) /\
  json_loads (issues r) = Some (field "issues" x).
Proof. intros (v & Hv & ->). split; [reflexivity|exact Hv]. Qed.

Lemma Forall2_in_left {A B : Type} (R : A -> B -> Prop) (l : list A)
      (xs : list B) (a : A) :
  Forall2 R l xs -> In a l -> exists x, In x xs /\ R a x.
Proof.
  induction 1 as [|a' x l xs Hax _ IH]; simpl; [tauto|].
  intros [->|Hin]; [exists x; auto|].
  destruct (IH Hin) as (y & Hy & Hay). exists y; auto.
Qed.

Lemma Forall2_in_right {A B : Type} (R : A -> B -> Prop) (l : list A)
      (xs : list B) (x : B) :
  Forall2 R l xs -> In x xs -> exists a, In a l /\ R a x.
Proof.
  induction 1 as [|a x' l xs Hax _ IH]; simpl; [tauto|].
  intros [->|Hin]; [exists a; auto|].
  destruct (IH Hin) as (b & Hb & Hbx). exists b; auto.
Qed.

Lemma dict_lookup_set_other (k k' : string) (v : json) (d : dict) :
  k <> k' -> dict_lookup k (dict_set k' v d) = dict_lookup k d.
Proof.
  intros Hk. induction d as [|[k0 v0] d IH]; simpl.
  - apply String.eqb_neq in Hk. now rewrite Hk.
  - destruct (String.eqb k' k0) eqn:E; simpl.
    + apply String.eqb_eq in E. subst k0.
      apply String.eqb_neq in Hk. now rewrite Hk.
    + now rewrite IH.
Qed.

Lemma fill_timestamp_issues (now : string) (data : dict) :
  dict_lookup "issues" (fill_timestamp now data) = dict_lookup "issues" data.
Proof.
  unfold fill_timestamp. destruct (negb (dict_mem "timestamp" data)); auto.
  now apply dict_lookup_set_other.
Qed.

(** C3: an accepted submission whose issues are a list of strings is
    listed with that same list, element for element and in order; and the
    text stored for the list reads back as the list. *)
Theorem issues_survive_storage
        (now : string) (data : dict) (l : list string) (st st' : Store)
        (resp : response) :
  reachable st ->
  dict_get "issues" data = JArr (map JStr l) ->
  submit_survey now (JObj data) st = (resp, st') ->
  status resp = 200 ->
  json_loads (json_dumps (JArr (map JStr l))) = Some (JArr (map JStr l)) /\
  exists rid responses,
    field "id" (body resp) = JInt rid /\
    get_responses st' =
    mkResponse 200
      (JObj [("success", JBool true);
             ("count", JInt (Z.of_nat (List.length responses)));
             ("responses", JArr responses)]) /\
    (exists x, In x responses /\ field "id" x = JInt rid) /\
    (forall x, In x responses -> field "id" x = JInt rid ->
               field "issues" x = JArr (map JStr l)).
Proof.
  intros Hreach Hiss Hsub Hok.
  split; [apply json_loads_dumps|].
  destruct (submit_ok _ _ _ _ _ Hsub Hok) as (rid & st1 & Hdb & Hjs & ->).
  pose proof (save_to_database_written _ _ _ _ Hdb
                (reachable_written st Hreach)) as Hw.
  apply save_to_database_ok in Hdb.
  destruct Hdb as (d & row & v & Hd & Hrid & Hv & Hid & Hrow & ->).
  apply save_to_json_db in Hjs. simpl in Hjs.
  unfold table_written in Hw. simpl in Hw.
  assert (Ev : v = JArr (map JStr l)).
  { unfold subscript in Hv. rewrite fill_timestamp_issues in Hv.
    unfold dict_get, dict_get_default in Hiss.
    destruct (dict_lookup "issues" data); [|discriminate].
    injection Hv as <-. exact Hiss. }
  subst v.
  pose proof (order_by_timestamp_desc_perm (rows d ++ [row])) as Hp.
  assert (Hw' : Forall written (order_by_timestamp_desc (rows d ++ [row]))).
  { rewrite Forall_forall in *. intros r Hin. apply Hw.
    now apply (Permutation_in _ Hp). }
  destruct (row_responses_show _ Hw') as (xs & E & Hxs).
  exists rid, xs. split; [reflexivity|]. split; [|split].
  - unfold get_responses. rewrite Hjs. cbn [rows]. rewrite E. reflexivity.
  - assert (Hin : In row (order_by_timestamp_desc (rows d ++ [row]))).
    { apply (Permutation_in _ (Permutation_sym Hp)).
      apply in_or_app. right. now left. }
    destruct (Forall2_in_left _ _ _ _ Hxs Hin) as (x & Hx & Hsh).
    exists x. split; [exact Hx|].
    apply shows_fields in Hsh. destruct Hsh as [-> _]. now rewrite Hid.
  - intros x Hx Hxid.
    destruct (Forall2_in_right _ _ _ _ Hxs Hx) as (r & Hr & Hsh).
    apply shows_fields in Hsh. destruct Hsh as [Hrid' Hload].
    rewrite Hrid' in Hxid. injection Hxid as Hxid.
    apply (Permutation_in _ Hp) in Hr. apply in_app_or in Hr.
    destruct Hr as [Hr|[<-|[]]].
    + apply max_rowid_in in Hr. unfold high in Hrid. lia.
    + rewrite Hrow, json_loads_dumps in Hload. now injection Hload as <-.
Qed.

Lemma issues_survive_storage_witness :
  exists rid responses,
    field "id" (body (fst (submit_survey "" (JObj valid_payload)
                                         (init_database fresh_store)))) =
    JInt rid /\
    get_responses (snd (submit_survey "" (JObj valid_payload)
                                      (init_database fresh_store))) =
    mkResponse 200
      (JObj [("success", JBool true);
             ("count", JInt (Z.of_nat (List.length responses)));
             ("responses", JArr responses)]) /\
    (exists x, In x responses /\ field "id" x = JInt rid) /\
    (forall x, In x responses -> field "id" x = JInt rid ->
               field "issues" x =
               JArr (map JStr ["housing"; "transit"; "schools"])).
Proof.
  apply (issues_survive_storage "" valid_payload
           ["housing"; "transit"; "schools"] (init_database fresh_store)).
  - apply (reach_step fresh_store); [apply reach_fresh|apply step_start].
  - reflexivity.
  - reflexivity.
  - reflexivity.
Defined.

(** ** Export of an empty table *)

(** C6, as the code has it: with the table empty the export does not fail.
    It answers 200 with the file name and leaves an empty file, without a
    header line; nothing else in the store changes. *)
Theorem export_of_empty_table_succeeds
        (stamp : string) (st : Store) (d : Database) :
  db st = Some d -> rows d = [] ->
  export_csv stamp st =
  (mkResponse 200
     (JObj [("success", JBool true);
            ("message", JStr "CSV exported successfully");
            ("filename", JStr ("data/responses_export_" ++ stamp ++ ".csv"))]),
   mkStore (db st) (backup st)
           (write_file ("data/responses_export_" ++ stamp ++ ".csv") []
                       (exports st))).
Proof.
  intros Hd Hrows. unfold export_csv, set_export.
  rewrite !Hd, Hrows. reflexivity.
Qed.

Lemma export_of_empty_table_succeeds_witness :
  export_csv "20240501_100000" (init_database fresh_store) =
  (mkResponse 200
     (JObj [("success", JBool true);
            ("message", JStr "CSV exported successfully");
            ("filename",
             JStr "data/responses_export_20240501_100000.csv")]),
   mkStore (Some (mkDatabase [] 0)) None
           [("data/responses_export_20240501_100000.csv", [])]).
Proof.
  apply (export_of_empty_table_succeeds "20240501_100000"
           (init_database fresh_store) (mkDatabase [] 0));
    reflexivity.
Defined.

(** The claim as written, that the export of an empty table fails with
    500, does not hold. *)
Lemma export_of_empty_table_is_not_500 :
  db (init_database fresh_store) = Some (mkDatabase [] 0) /\
  status (fst (export_csv "20240501_100000" (init_database fresh_store)))
  <> 500.
Proof. split; [reflexivity|]. simpl. discriminate. Qed.

(** ** Phone numbers *)

Lemma stripped_filter (s : string) : stripped s (filter_chars isdigit s).
Proof.
  induction s as [|c s IH]; simpl; [constructor|].
  destruct (isdigit c) eqn:E; now constructor.
Qed.

Lemma stripped_unique (s d : string) :
  stripped s d -> d = filter_chars isdigit s.
Proof.
  induction 1 as [|c s d Hc _ IH|c s d Hc _ IH]; simpl;
    [reflexivity|rewrite Hc|rewrite Hc]; congruence.
Qed.

(** C7: the result is a [+] followed by the digits of the input, with a
    [1] put before them exactly when there are ten of them. *)
Theorem format_phone_number_spec (phone : string) :
  (exists digits,
      stripped phone digits /\
      format_phone_number phone =
      "+" ++ (if Nat.eqb (String.length digits) 10 then "1" ++ digits
              else digits)) /\
  format_phone_number "(617) 555-0100" = "+16175550100".
Proof.
  split; [|reflexivity].
  exists (filter_chars isdigit phone). split; [apply stripped_filter|].
  reflexivity.
Qed.

Lemma filter_chars_all (f : ascii -> bool) (s : string) :
  all_chars f s = true -> filter_chars f s = s.
Proof.
  induction s as [|c s IH]; simpl; [reflexivity|].
  destruct (f c); simpl; [|discriminate]. intros H. now rewrite IH.
Qed.

Lemma all_chars_filter (f : ascii -> bool) (s : string) :
  all_chars f (filter_chars f s) = true.
Proof.
  induction s as [|c s IH]; simpl; [reflexivity|].
  destruct (f c) eqn:E; simpl; [now rewrite E|exact IH].
Qed.

(** What [add_country_code] returns: a [+], then digits that are never
    ten in number. *)
Lemma add_country_code_shape (digits : string) :
  all_chars isdigit digits = true ->
  exists d, add_country_code digits = String "+" d /\
            all_chars isdigit d = true /\ String.length d <> 10%nat.
Proof.
  intros H. unfold add_country_code.
  destruct (Nat.eqb (String.length digits) 10) eqn:E.
  - apply Nat.eqb_eq in E. exists ("1" ++ digits). simpl.
    repeat split; auto. lia.
  - apply Nat.eqb_neq in E. exists digits. auto.
Qed.

(** C9: formatting a formatted number changes nothing. *)
Theorem format_phone_number_idempotent (phone : string) :
  format_phone_number (format_phone_number phone) = format_phone_number phone.
Proof.
  destruct (add_country_code_shape (filter_chars isdigit phone)
              (all_chars_filter isdigit phone)) as (d & E & Hd & Hlen).
  unfold format_phone_number. rewrite E. simpl filter_chars.
  rewrite (filter_chars_all isdigit d Hd). unfold add_country_code.
  apply Nat.eqb_neq in Hlen. now rewrite Hlen.
Qed.

(** ** Bulk sends *)

Section NotifierFacts.

Variable provider : list call -> call -> result (string * string).
Variable clock : nat -> string.
Variable repr : json -> string.

(** A recipient without a phone value costs one failure and nothing
    else: no call, no record, no clock reading. *)
Lemma bulk_step_skips (recipient : dict) (results : Summary) (bot : Bot) :
  has_phone recipient = false ->
  bulk_step provider clock repr recipient (results, bot) =
  (mkSummary (total results) (successful results) (failed results + 1)
             (details results), bot).
Proof.
  unfold has_phone, bulk_step. intros ->. reflexivity.
Qed.

Lemma bulk_step_sends (recipient : dict) (results : Summary) (bot : Bot) :
  has_phone recipient = true ->
  bulk_step provider clock repr recipient (results, bot) =
  let (r, bot1) :=
    send_sms provider clock repr
             (dict_get "phone" recipient) (dict_get "name" recipient) bot in
  (mkSummary (total results)
             (successful results + (if succeeded r then 1 else 0))
             (failed results + (if succeeded r then 0 else 1))
             (details results ++ [r]), bot1).
Proof.
  unfold has_phone, bulk_step. intros ->. cbn [negb].
  destruct (send_sms provider clock repr
              (dict_get "phone" recipient) (dict_get "name" recipient) bot)
    as [r bot1].
  destruct (succeeded r); cbn; f_equal; f_equal; lia.
Qed.

(** The loop against [send_each] over the recipients that have a phone
    value. *)
Lemma bulk_loop_spec (recipients : list dict) :
  forall (results : Summary) (bot : Bot),
    bulk_loop provider clock repr recipients (results, bot) =
    let (records, bot') :=
      send_each provider clock repr (filter has_phone recipients) bot in
    (mkSummary (total results)
               (successful results + successes records)
               (failed results + lacking recipients + failures records)
               (details results ++ records), bot').
Proof.
  induction recipients as [|r rs IH]; intros results bot.
  - cbn. rewrite List.app_nil_r. destruct results; cbn. f_equal. f_equal; lia.
  - cbn [bulk_loop filter].
    destruct (has_phone r) eqn:E.
    + rewrite (bulk_step_sends r results bot E).
      cbn [send_each].
      destruct (send_sms provider clock repr
                  (dict_get "phone" r) (dict_get "name" r) bot)
        as [x bot1].
      rewrite IH.
      destruct (send_each provider clock repr (filter has_phone rs) bot1)
        as [xs bot2].
      cbn [total successful failed details].
      rewrite <- List.app_assoc. cbn [List.app].
      unfold successes, failures, lacking. cbn [filter]. rewrite E.
      cbn [negb]. destruct (succeeded x); cbn [negb List.length];
        f_equal; f_equal; lia.
    + rewrite (bulk_step_skips r results bot E), IH.
      destruct (send_each provider clock repr (filter has_phone rs) bot)
        as [xs bot2].
      cbn [total successful failed details].
      unfold lacking. cbn [filter]. rewrite E. cbn [negb List.length].
      f_equal. f_equal; lia.
Qed.

Lemma send_each_length (recipients : list dict) :
  forall bot,
    List.length (fst (send_each provider clock repr recipients bot)) =
    List.length recipients.
Proof.
  induction recipients as [|r rs IH]; intros bot; [reflexivity|].
  cbn [send_each].
  destruct (send_sms provider clock repr
              (dict_get "phone" r) (dict_get "name" r) bot)
    as [x bot1].
  specialize (IH bot1).
  destruct (send_each provider clock repr rs bot1) as [xs bot2].
  simpl in *. now rewrite IH.
Qed.

Lemma outcomes_partition (records : list json) :
  successes records + failures records = Z.of_nat (List.length records).
Proof.
  unfold successes, failures.
  induction records as [|x xs IH]; [reflexivity|].
  cbn [filter]. destruct (succeeded x); cbn [negb List.length]; lia.
Qed.

Lemma recipients_partition (recipients : list dict) :
  Z.of_nat (List.length (filter has_phone recipients)) + lacking recipients
  = Z.of_nat (List.length recipients).
Proof.
  unfold lacking.
  induction recipients as [|r rs IH]; [reflexivity|].
  cbn [filter]. destruct (has_phone r); cbn [negb List.length]; lia.
Qed.

(** C8: the summary counts the whole list; a recipient without a phone
    value is one more failure and reaches neither [send_sms] nor the
    provider; the others go through [send_sms] one by one to the end of
    the list, whatever the outcomes. *)
Theorem send_bulk_sms_spec (recipients : list dict) (bot : Bot) :
  total (fst (send_bulk_sms provider clock repr recipients bot)) =
    Z.of_nat (List.length recipients) /\
  (details (fst (send_bulk_sms provider clock repr recipients bot)),
   snd (send_bulk_sms provider clock repr recipients bot)) =
    send_each provider clock repr (filter has_phone recipients) bot /\
  failed (fst (send_bulk_sms provider clock repr recipients bot)) =
    lacking recipients
    + failures
        (details (fst (send_bulk_sms provider clock repr recipients bot))) /\
  successful (fst (send_bulk_sms provider clock repr recipients bot)) =
    successes
      (details (fst (send_bulk_sms provider clock repr recipients bot))) /\
  (forall recipient results bot0,
      In recipient recipients -> has_phone recipient = false ->
      bulk_step provider clock repr recipient (results, bot0) =
      (mkSummary (total results) (successful results) (failed results + 1)
                 (details results), bot0)).
Proof.
  unfold send_bulk_sms. rewrite bulk_loop_spec.
  destruct (send_each provider clock repr (filter has_phone recipients) bot)
    as [xs bot'].
  cbn. repeat split; try lia.
  intros recipient results bot0 _ H. now apply bulk_step_skips.
Qed.

(** C10: successes and failures add up to the total, and there is one
    record per recipient with a phone value, so the records fall short
    of the total by the number of recipients without one. *)
Theorem send_bulk_sms_counts (recipients : list dict) (bot : Bot) :
  successful (fst (send_bulk_sms provider clock repr recipients bot))
  + failed (fst (send_bulk_sms provider clock repr recipients bot))
  = total (fst (send_bulk_sms provider clock repr recipients bot)) /\
  List.length
    (details (fst (send_bulk_sms provider clock repr recipients bot))) =
    List.length (filter has_phone recipients) /\
  Z.of_nat
    (List.length
       (details (fst (send_bulk_sms provider clock repr recipients bot)))) =
    total (fst (send_bulk_sms provider clock repr recipients bot))
    - lacking recipients.
Proof.
  unfold send_bulk_sms. rewrite bulk_loop_spec.
  pose proof (send_each_length (filter has_phone recipients) bot) as Hlen.
  destruct (send_each provider clock repr (filter has_phone recipients) bot)
    as [xs bot'].
  cbn in *.
  pose proof (outcomes_partition xs).
  pose proof (recipients_partition recipients).
  repeat split; lia.
Qed.

End NotifierFacts.

Lemma send_bulk_sms_spec_witness :
  total (fst (send_bulk_sms demo_provider demo_clock demo_repr
                            demo_recipients demo_bot)) = 2 /\
  failed (fst (send_bulk_sms demo_provider demo_clock demo_repr
                             demo_recipients demo_bot)) = 1 /\
  map call_to
      (provider_calls (snd (send_bulk_sms demo_provider demo_clock demo_repr
                                          demo_recipients demo_bot))) =
  ["+16175550100"].
Proof.
  destruct (send_bulk_sms_spec demo_provider demo_clock demo_repr
              demo_recipients demo_bot) as (H1 & H2 & H3 & _ & _).
  split; [exact H1|]. split; [rewrite H3; reflexivity|].
  change (snd (send_bulk_sms demo_provider demo_clock demo_repr
                             demo_recipients demo_bot))
    with (snd (details (fst (send_bulk_sms demo_provider demo_clock demo_repr
                                           demo_recipients demo_bot)),
               snd (send_bulk_sms demo_provider demo_clock demo_repr
                                  demo_recipients demo_bot))).
  rewrite H2. reflexivity.
Defined.

(** ** Statistics *)

Lemma count_into_lookup (k v : string) (groups : list (string * Z)) :
  dict_lookup v (counts_dict (count_into k groups)) =
  if String.eqb v k then
    match dict_lookup v (counts_dict groups) with
    | Some (JInt n) => Some (JInt (n + 1))
    | _ => Some (JInt 1)
    end
  else dict_lookup v (counts_dict groups).
Proof.
  induction groups as [|[k' n] groups IH]; simpl.
  - destruct (String.eqb v k); reflexivity.
  - destruct (String.eqb k k') eqn:E; simpl.
    + apply String.eqb_eq in E. subst k'.
      destruct (String.eqb v k); reflexivity.
    + destruct (String.eqb v k') eqn:E'; [|exact IH].
      apply String.eqb_eq in E'. subst k'.
      rewrite String.eqb_sym in E. now rewrite E.
Qed.

Lemma count_into_counted (k : string) (groups : list (string * Z)) :
  counted (counts_dict (count_into k groups)) =
  counted (counts_dict groups) + 1.
Proof.
  induction groups as [|[k' n] groups IH]; simpl; [lia|].
  destruct (String.eqb k k'); simpl; [lia|]. rewrite IH. lia.
Qed.

Lemma group_count_from (column : Row -> string) (l : list Row) :
  forall groups,
    counts_ok groups ->
    let b := counts_dict
               (fold_left (fun g r => count_into (column r) g) l groups) in
    counts_ok (fold_left (fun g r => count_into (column r) g) l groups) /\
    (forall v,
        dict_lookup v b =
        match dict_lookup v (counts_dict groups) with
        | Some (JInt n) => Some (JInt (n + occurrences column v l))
        | _ => if occurrences column v l =? 0 then None
               else Some (JInt (occurrences column v l))
        end) /\
    counted b = counted (counts_dict groups) + Z.of_nat (List.length l).
Proof.
  induction l as [|r l IH]; intros groups Hok; cbn zeta.
  - cbn [fold_left]. split; [exact Hok|]. split; [|cbn; lia].
    intros v. specialize (Hok v). unfold occurrences. cbn.
    destruct (dict_lookup v (counts_dict groups)) as [[| |n| | |]|];
      try contradiction; try reflexivity. f_equal. f_equal. lia.
  - cbn [fold_left].
    assert (Hok' : counts_ok (count_into (column r) groups)).
    { intros v. rewrite count_into_lookup. specialize (Hok v).
      destruct (String.eqb v (column r)); [|exact Hok].
      destruct (dict_lookup v (counts_dict groups)) as [[| |n| | |]|];
        lia. }
    destruct (IH _ Hok') as (H1 & H2 & H3). split; [exact H1|].
    split.
    + intros v. rewrite H2, count_into_lookup. specialize (Hok v).
      unfold occurrences. cbn [filter].
      destruct (String.eqb v (column r)) eqn:E; cbn [List.length].
      * destruct (dict_lookup v (counts_dict groups)) as [[| |n| | |]|];
          try contradiction.
        -- f_equal. f_equal. lia.
        -- match goal with
           | |- context [?a =? 0] => destruct (Z.eqb_spec a 0); [lia|]
           end.
           f_equal. f_equal. lia.
      * destruct (dict_lookup v (counts_dict groups)) as [[| |n| | |]|];
          try contradiction; reflexivity.
    + rewrite H3, count_into_counted. cbn [List.length]. lia.
Qed.

Lemma group_count_breakdown (column : Row -> string) (l : list Row) :
  breakdown_of column l (counts_dict (group_count column l)).
Proof.
  unfold group_count, breakdown_of.
  destruct (group_count_from column l []) as (_ & H2 & H3).
  - intros v. exact I.
  - split; [intros v; now rewrite H2|]. rewrite H3. reflexivity.
Qed.

(** X1: with the table in place the statistics answer 200; the total is
    the number of rows, and each of the three breakdowns gives every
    value that occurs its number of rows, has no entry for other values,
    and adds up to the total. *)
Theorem stats_count_the_rows (st : Store) (d : Database) :
  db st = Some d ->
  exists by_neighborhood by_age_group by_voting_frequency,
    get_stats st =
    mkResponse 200
      (JObj [("success", JBool true);
             ("stats",
              JObj [("total", JInt (Z.of_nat (List.length (rows d))));
                    ("by_neighborhood", JObj by_neighborhood);
                    ("by_age_group", JObj by_age_group);
                    ("by_voting_frequency", JObj by_voting_frequency)])]) /\
    breakdown_of neighborhood (rows d) by_neighborhood /\
    breakdown_of age_group (rows d) by_age_group /\
    breakdown_of voting_frequency (rows d) by_voting_frequency.
Proof.
  intros Hd. unfold get_stats. rewrite Hd.
  eexists. eexists. eexists. split; [reflexivity|].
  repeat split; apply group_count_breakdown.
Qed.

(** ** What a submission leaves in the store *)

Lemma dict_lookup_set_same (k : string) (v : json) (d : dict) :
  dict_lookup k (dict_set k v d) = Some v.
Proof.
  induction d as [|[k0 v0] d IH]; simpl.
  - now rewrite String.eqb_refl.
  - destruct (String.eqb k k0) eqn:E; simpl.
    + now rewrite String.eqb_refl.
    + now rewrite E.
Qed.

Lemma fill_timestamp_other (now k : string) (data : dict) :
  k <> "timestamp" ->
  dict_lookup k (fill_timestamp now data) = dict_lookup k data.
Proof.
  intros Hk. unfold fill_timestamp.
  destruct (negb (dict_mem "timestamp" data)); auto.
  now apply dict_lookup_set_other.
Qed.

Lemma fill_timestamp_stamp (now : string) (data : dict) :
  dict_lookup "timestamp" (fill_timestamp now data) =
  match dict_lookup "timestamp" data with
  | Some v => Some v
  | None => Some (JStr now)
  end.
Proof.
  unfold fill_timestamp, dict_mem.
  destruct (dict_lookup "timestamp" data) eqn:E; simpl; [exact E|].
  apply dict_lookup_set_same.
Qed.

Lemma carries_filled (now : string) (data : dict) (s : Submission) :
  carries data s ->
  carries (fill_timestamp now data)
          (mkSubmission (sub_phone s) (sub_name s) (sub_email s)
             (sub_neighborhood s) (sub_age s) (sub_voting s) (sub_issues s)
             (sub_engagement s) (sub_comments s)
             (Some (or_default (sub_timestamp s) now))).
Proof.
  unfold carries. intros (H1 & H2 & H3 & H4 & H5 & H6 & H7 & H8 & H9 & H10).
  cbn [sub_phone sub_name sub_email sub_neighborhood sub_age sub_voting
       sub_issues sub_engagement sub_comments sub_timestamp].
  rewrite !fill_timestamp_other by discriminate.
  rewrite fill_timestamp_stamp, H10.
  repeat split; auto. destruct (sub_timestamp s); reflexivity.
Qed.

Lemma subscript_get (k : string) (data : dict) (v : json) :
  subscript k data = Ok v -> dict_lookup k data = Some v.
Proof.
  unfold subscript.
  destruct (dict_lookup k data); [now intros [= ->]|discriminate].
Qed.

Lemma bound_optional (v : json) (b : sqlval) :
  adapt v = Ok b -> column_of v = Some (text_affinity b).
Proof.
  unfold adapt. destruct v as [|[|]|n|t|l|kv]; try discriminate;
    try (intros [= <-]; reflexivity).
  destruct ((int64_min <=? n) && (n <=? int64_max)); [|discriminate].
  intros [= <-]. reflexivity.
Qed.

Lemma bound_text (k column : string) (data : dict) (v : json) (b : sqlval)
      (c : string) :
  subscript k data = Ok v -> adapt v = Ok b ->
  not_null column (text_affinity b) = Ok c ->
  column_of (dict_get k data) = Some (Some c).
Proof.
  intros Hv Hb Hc. apply subscript_get in Hv.
  unfold dict_get, dict_get_default. rewrite Hv.
  rewrite (bound_optional v b Hb).
  unfold not_null in Hc.
  destruct (text_affinity b); [now injection Hc as <-|discriminate].
Qed.

(** What a successful insert did, column by column. *)
Lemma save_to_database_columns (data : dict) (st st1 : Store) (rid : Z) :
  save_to_database data st = Ok (rid, st1) ->
  exists d row,
    db st = Some d /\ high d < int64_max /\ rid = high d + 1 /\
    id row = rid /\ holds data row /\
    st1 = set_db st (mkDatabase (rows d ++ [row]) rid).
Proof.
  unfold save_to_database. intros H. bind_inv H.
  injection H as <- <-.
  match goal with
  | |- context [mkDatabase (rows ?d ++ [?r]) _] => exists d, r
  end.
  split; [reflexivity|].
  match goal with
  | E : next_rowid ?d = Ok _ |- _ =>
      assert (Hroom : high d < int64_max)
        by (unfold next_rowid in E; fold (high d) in E;
            destruct (high d <? int64_max) eqn:L;
            [now apply Z.ltb_lt|discriminate]);
      apply next_rowid_ok in E
  end.
  split; [exact Hroom|]. split; [assumption|]. split; [reflexivity|].
  split; [|reflexivity].
  unfold holds.
  cbn [phone_number name email neighborhood age_group voting_frequency
       issues engagement additional_comments timestamp].
  repeat match goal with
         | E : adapt (JStr _) = Ok _ |- _ => cbn in E; injection E as <-
         end.
  repeat split;
    try (eapply bound_text; eassumption);
    try (apply bound_optional; assumption).
  match goal with
  | E : subscript "issues" data = Ok _ |- _ =>
      apply subscript_get in E; rewrite E
  end.
  match goal with
  | E : not_null "issues" _ = Ok _ |- _ => cbn in E; now injection E as <-
  end.
Qed.

(** The row that holds a payload carrying a submission is the row of the
    submission. *)
Lemma holds_carries (data : dict) (s : Submission) (t : string) (r : Row) :
  carries data s -> sub_timestamp s = Some t -> holds data r ->
  r = row_of (id r) "" s.
Proof.
  unfold carries, holds, dict_get, dict_get_default.
  intros (H1 & H2 & H3 & H4 & H5 & H6 & H7 & H8 & H9 & H10) Ht
         (G1 & G2 & G3 & G4 & G5 & G6 & G7 & G8 & G9 & G10).
  rewrite H1 in G1. rewrite H2 in G2. rewrite H3 in G3. rewrite H4 in G4.
  rewrite H5 in G5. rewrite H6 in G6. rewrite H7 in G7. rewrite H8 in G8.
  rewrite H9 in G9. rewrite H10, Ht in G10.
  unfold row_of. rewrite Ht.
  destruct r, (sub_email s), (sub_comments s); cbn in *; congruence.
Qed.

(** A payload that passed the checks carries a complete submission. *)
Lemma passes_complete (data : dict) (s : Submission) :
  carries data s ->
  first_missing required_fields data = None ->
  issues_empty data = Ok false ->
  complete s.
Proof.
  unfold carries, complete.
  intros (H1 & H2 & _ & H4 & H5 & H6 & H7 & H8 & _) Hm Hi.
  apply first_missing_none in Hm. unfold required_fields in Hm.
  repeat match goal with
         | H : Forall _ (_ :: _) |- _ => inversion H; clear H; subst
         end.
  repeat match goal with
         | L : dict_lookup ?k data = Some (JStr _), S : supplied data ?k |- _ =>
             apply (text_supplied _ _ _ L) in S
         end.
  repeat split; try assumption.
  unfold issues_empty, subscript, dict_get, dict_get_default in Hi.
  rewrite H7 in Hi.
  destruct (sub_issues s) as [|[|]|n|[|c t]|[|x l]|[|q kv]];
    cbn in Hi; try discriminate; try exact I.
  destruct (n =? 0); discriminate.
Qed.

Lemma submit_ok_checks (now : string) (data : dict) (st st' : Store)
      (resp : response) :
  submit_survey now (JObj data) st = (resp, st') -> status resp = 200 ->
  first_missing required_fields data = None /\ issues_empty data = Ok false.
Proof.
  unfold submit_survey.
  destruct (first_missing required_fields data);
    [intros [= <- <-]; discriminate|].
  destruct (issues_empty data) as [[|]|];
    try (intros [= <- <-]; discriminate).
  auto.
Qed.

(** X2: what an accepted submission leaves behind.  Whenever a payload
    that carries a submission (texts under the nine text keys, the
    optional ones possibly left out) is answered 200, the submission was
    complete and the identifiers were not used up; the answer names the
    highest identifier so far plus one; the table has gained exactly the
    row of the submission under that identifier (the texts as sent, the
    issues as JSON text, the empty string for an email or a comment left
    out, the client's timestamp when it sent one and the server's
    otherwise); the backup document was a list or absent and has gained
    the payload with its timestamp as its last entry; the export files
    are untouched.  When a submission is answered 200 is not part of the
    statement. *)
Theorem accepted_submission_is_stored
        (now : string) (data : dict) (s : Submission) (st st' : Store)
        (d : Database) (resp : response) :
  carries data s -> db st = Some d ->
  submit_survey now (JObj data) st = (resp, st') -> status resp = 200 ->
  complete s /\ high d < int64_max /\
  resp =
  mkResponse 200
    (JObj [("success", JBool true);
           ("message", JStr "Survey response saved successfully");
           ("id", JInt (high d + 1))]) /\
  exists entries,
    backup_entries st = Some entries /\
    st' =
    mkStore (Some (mkDatabase (rows d ++ [row_of (high d + 1) now s])
                              (high d + 1)))
            (Some (JArr (entries ++ [JObj (fill_timestamp now data)])))
            (exports st).
Proof.
  intros Hc Hd Hsub Hok.
  destruct (submit_ok_checks _ _ _ _ _ Hsub Hok) as [Hm Hi].
  destruct (submit_ok _ _ _ _ _ Hsub Hok) as (rid & st1 & Hdb & Hjs & ->).
  apply save_to_database_columns in Hdb.
  destruct Hdb as (d' & row & Hd' & Hroom & -> & Hid & Hh & ->).
  rewrite Hd in Hd'. injection Hd' as <-.
  pose proof (holds_carries _ _ _ _ (carries_filled now data s Hc) eq_refl Hh)
    as Hrow.
  rewrite Hid in Hrow.
  split; [now apply (passes_complete data s)|].
  split; [exact Hroom|]. split; [reflexivity|].
  unfold save_to_json in Hjs. cbn [backup set_db] in Hjs.
  unfold backup_entries.
  destruct (backup st) as [[| | | |l|]|]; try discriminate;
    injection Hjs as <-; eexists; (split; [reflexivity|]);
    unfold set_backup, set_db; cbn [db backup exports];
    rewrite Hrow; reflexivity.
Qed.

Lemma accepted_submission_is_stored_witness :
  complete sample_submission /\
  snd (submit_survey "2024-05-01T10:00:00" (JObj sample_payload)
                     (init_database fresh_store)) =
  mkStore (Some (mkDatabase
                   [row_of 1 "2024-05-01T10:00:00" sample_submission] 1))
          (Some (JArr [JObj (fill_timestamp "2024-05-01T10:00:00"
                                            sample_payload)]))
          [].
Proof.
  destruct (accepted_submission_is_stored
              "2024-05-01T10:00:00" sample_payload sample_submission
              (init_database fresh_store)
              (snd (submit_survey "2024-05-01T10:00:00" (JObj sample_payload)
                                  (init_database fresh_store)))
              (mkDatabase [] 0)
              (fst (submit_survey "2024-05-01T10:00:00" (JObj sample_payload)
                                  (init_database fresh_store))))
    as (H1 & _ & _ & entries & H2 & H3).
  - repeat split.
  - reflexivity.
  - reflexivity.
  - reflexivity.
  - split; [exact H1|]. rewrite H3.
    injection H2 as <-. reflexivity.
Defined.

(** X3: the two writes are not undone together.  While the backup
    document is not a list no submission is answered 200 and the backup
    document and the export files stay as they are; but the 500 of a
    payload that carries a submission does not mean that nothing was
    stored: either the table is as before, or the submission was complete
    and its row has been committed under the next identifier. *)
Theorem failed_backup_write_is_not_undone
        (now : string) (data : dict) (s : Submission) (st st' : Store)
        (d : Database) (resp : response) :
  carries data s -> db st = Some d -> backup_entries st = None ->
  submit_survey now (JObj data) st = (resp, st') ->
  (status resp = 400 \/ status resp = 500) /\
  backup st' = backup st /\ exports st' = exports st /\
  (db st' = db st \/
   status resp = 500 /\ complete s /\ high d < int64_max /\
   db st' = Some (mkDatabase (rows d ++ [row_of (high d + 1) now s])
                             (high d + 1))).
Proof.
  intros Hc Hd Hb. unfold submit_survey.
  destruct (first_missing required_fields data) eqn:Hm;
    [intros [= <- <-]; cbn; auto|].
  destruct (issues_empty data) as [[|]|] eqn:Hi;
    try (intros [= <- <-]; cbn; auto).
  destruct (save_to_database (fill_timestamp now data) st)
    as [[rid st1]|] eqn:Hdb; [|intros [= <- <-]; cbn; auto].
  apply save_to_database_columns in Hdb.
  destruct Hdb as (d' & row & Hd' & Hroom & -> & Hid & Hh & ->).
  rewrite Hd in Hd'. injection Hd' as <-.
  pose proof (holds_carries _ _ _ _ (carries_filled now data s Hc) eq_refl Hh)
    as Hrow.
  rewrite Hid in Hrow.
  unfold save_to_json, backup_entries in *. cbn [backup set_db].
  destruct (backup st) as [[| | | |l|]|] eqn:Eb; try discriminate;
    intros [= <- <-]; cbn [status db backup exports set_db];
    (split; [now right|]); (split; [now rewrite Eb|]);
    (split; [reflexivity|]); right;
    (split; [reflexivity|]);
    (split; [now apply (passes_complete data s)|]);
    (split; [exact Hroom|]); rewrite Hrow; reflexivity.
Qed.

Lemma failed_backup_write_is_not_undone_witness :
  status (fst (submit_survey "2024-05-01T10:00:00" (JObj sample_payload)
                             store_with_bad_backup)) = 500 /\
  snd (submit_survey "2024-05-01T10:00:00" (JObj sample_payload)
                     store_with_bad_backup) =
  mkStore (Some (mkDatabase
                   [row_of 1 "2024-05-01T10:00:00" sample_submission] 1))
          (Some (JObj [])) [].
Proof.
  destruct (failed_backup_write_is_not_undone
              "2024-05-01T10:00:00" sample_payload sample_submission
              store_with_bad_backup
              (snd (submit_survey "2024-05-01T10:00:00" (JObj sample_payload)
                                  store_with_bad_backup))
              (mkDatabase [] 0)
              (fst (submit_survey "2024-05-01T10:00:00" (JObj sample_payload)
                                  store_with_bad_backup)))
    as (_ & _ & _ & [H|(H1 & _ & _ & H2)]).
  - repeat split.
  - reflexivity.
  - reflexivity.
  - reflexivity.
  - discriminate H.
  - split; [exact H1|reflexivity].
Defined.

(** ** When a submission is refused *)

Lemma truthy_lookup (k : string) (data : dict) :
  truthy (dict_get k data) = true ->
  dict_lookup k data = Some (dict_get k data).
Proof.
  unfold dict_get, dict_get_default.
  destruct (dict_lookup k data); [reflexivity|discriminate].
Qed.

Lemma truthy_len (v : json) (n : Z) :
  truthy v = true -> py_len v = Ok n -> n <> 0.
Proof.
  destruct v as [| | |[|c s]|[|x l]|[|p kv]]; simpl; try discriminate;
    intros _ [= <-]; lia.
Qed.

Lemma issues_empty_supplied (data : dict) :
  supplied data "issues" -> issues_empty data <> Ok true.
Proof.
  unfold supplied, issues_empty. intros H. rewrite H. cbn [negb].
  unfold subscript. rewrite (truthy_lookup _ _ H). cbn [bind].
  destruct (py_len (dict_get "issues" data)) as [n|] eqn:E; cbn [bind];
    [|discriminate].
  apply (truthy_len _ _ H) in E. apply Z.eqb_neq in E. rewrite E. discriminate.
Qed.

(** X4: for a JSON object the answer is 400 exactly when one of the six
    required fields or the issues field is absent or empty; every other
    object is answered with 200 or 500. *)
Theorem status_400_iff_validation_fails
        (now : string) (data : dict) (st : Store) :
  status (fst (submit_survey now (JObj data) st)) = 400 <->
  ~ (Forall (supplied data) required_fields /\ supplied data "issues").
Proof.
  unfold submit_survey.
  destruct (first_missing required_fields data) as [f|] eqn:E.
  - split; [|reflexivity]. intros _ [H _].
    apply first_missing_none in H. congruence.
  - pose proof (proj1 (first_missing_none _ _) E) as Hall.
    destruct (supplied_dec data "issues") as [Hi|Hi].
    + pose proof (issues_empty_supplied data Hi) as Hne.
      split; [|intros H; now destruct H].
      destruct (issues_empty data) as [[|]|]; try congruence;
        try discriminate.
      destruct (save_to_database (fill_timestamp now data) st)
        as [[rid st1]|]; [|discriminate].
      destruct (save_to_json (fill_timestamp now data) st1); discriminate.
    + split; [intros _ [_ H]; contradiction|]. intros _.
      unfold issues_empty. unfold supplied in Hi.
      apply not_true_is_false in Hi. now rewrite Hi.
Qed.

(** X5: an issues value that is a number or [true] passes the test for
    presence but has no length: the answer is 500, not 400, and nothing
    is stored. *)
Theorem unsized_issues_give_500 (now : string) (data : dict) (st : Store) :
  Forall (supplied data) required_fields ->
  unsized (dict_get "issues" data) ->
  status (fst (submit_survey now (JObj data) st)) = 500 /\
  snd (submit_survey now (JObj data) st) = st.
Proof.
  intros Hall Hu. apply first_missing_none in Hall.
  unfold submit_survey. rewrite Hall.
  unfold issues_empty, subscript.
  assert (Ht : truthy (dict_get "issues" data) = true).
  { destruct (dict_get "issues" data) as [|[|]|n| | |]; simpl in *;
      try contradiction; try reflexivity; try discriminate.
    apply negb_true_iff. now apply Z.eqb_neq. }
  rewrite Ht, (truthy_lookup _ _ Ht). cbn [negb bind].
  destruct (dict_get "issues" data) as [|[|]|n| | |]; simpl in Hu;
    try contradiction; split; reflexivity.
Qed.

Lemma unsized_issues_give_500_witness :
  status (fst (submit_survey "" (JObj payload_with_count)
                             (init_database fresh_store))) = 500 /\
  snd (submit_survey "" (JObj payload_with_count)
                     (init_database fresh_store)) = init_database fresh_store.
Proof.
  apply (unsized_issues_give_500 "" payload_with_count
           (init_database fresh_store)).
  - repeat constructor.
  - simpl. discriminate.
Defined.

(** Every value a successful insert bound was one [sqlite3] can bind. *)
Lemma save_to_database_adapts (data : dict) (st st1 : Store) (rid : Z) :
  save_to_database data st = Ok (rid, st1) ->
  forall k v, In k stored_keys -> dict_lookup k data = Some v ->
              exists b, adapt v = Ok b.
Proof.
  unfold save_to_database, subscript, dict_get_default. intros H k v Hk Hv.
  repeat match type of H with
         | context [dict_lookup ?key data] =>
             let L := fresh "L" in
             destruct (dict_lookup key data) eqn:L;
             cbn [bind] in H; try discriminate H
         end.
  all: bind_inv H.
  all: simpl in Hk.
  all: repeat
         (destruct Hk as [<-|Hk];
          [match goal with
           | L : dict_lookup ?key _ = Some ?j, E : adapt ?j = Ok ?b |- _ =>
               rewrite Hv in L; injection L as <-; exists b; exact E
           | L : dict_lookup ?key _ = None |- _ =>
               rewrite Hv in L; discriminate L
           end|]).
  all: contradiction.
Qed.

Lemma fill_timestamp_keeps (now k : string) (v : json) (data : dict) :
  dict_lookup k data = Some v ->
  dict_lookup k (fill_timestamp now data) = Some v.
Proof.
  intros H. destruct (String.eqb_spec k "timestamp") as [->|Hk].
  - now rewrite fill_timestamp_stamp, H.
  - now rewrite fill_timestamp_other.
Qed.

(** X6: a list or a dict under one of the nine keys that go into a text
    column cannot be bound: such a payload is never answered with 200 and
    never changes the store, whatever else it holds. *)
Theorem structured_values_are_refused
        (now k : string) (v : json) (data : dict) (st : Store) :
  In k stored_keys -> dict_lookup k data = Some v -> structured v ->
  status (fst (submit_survey now (JObj data) st)) <> 200 /\
  snd (submit_survey now (JObj data) st) = st.
Proof.
  intros Hk Hv Hs.
  assert (Hsave : forall rid st1,
             save_to_database (fill_timestamp now data) st <> Ok (rid, st1)).
  { intros rid st1 H.
    destruct (save_to_database_adapts _ _ _ _ H k v Hk
                (fill_timestamp_keeps now k v data Hv)) as [b Hb].
    destruct v; simpl in Hs; try contradiction; discriminate. }
  unfold submit_survey.
  destruct (first_missing required_fields data);
    [split; [discriminate|reflexivity]|].
  destruct (issues_empty data) as [[|]|];
    try (split; [discriminate|reflexivity]).
  destruct (save_to_database (fill_timestamp now data) st)
    as [[rid st1]|] eqn:E; [|split; [discriminate|reflexivity]].
  now destruct (Hsave rid st1).
Qed.

Lemma structured_values_are_refused_witness :
  status (fst (submit_survey "" (JObj payload_with_list_name)
                             (init_database fresh_store))) <> 200 /\
  snd (submit_survey "" (JObj payload_with_list_name)
                     (init_database fresh_store)) = init_database fresh_store.
Proof.
  apply (structured_values_are_refused "" "name" (JArr [JStr "Jane"])
           payload_with_list_name (init_database fresh_store)).
  - simpl. tauto.
  - reflexivity.
  - exact I.
Defined.

(** ** Invariants of the store *)

(** X7: starting the service again never touches what is stored: on a
    store whose table exists [init_database] changes nothing, on any
    store a second call changes nothing more, and the backup document and
    the export files are never touched. *)
Theorem init_database_is_idempotent (st : Store) :
  init_database (init_database st) = init_database st /\
  (forall d, db st = Some d -> init_database st = st) /\
  (db st = None -> db (init_database st) = Some (mkDatabase [] 0)) /\
  backup (init_database st) = backup st /\
  exports (init_database st) = exports st.
Proof.
  unfold init_database.
  destruct (db st) as [d|] eqn:E; cbn; rewrite ?E; repeat split; auto;
    intros; congruence.
Qed.

Lemma step_appends (st st' : Store) (d : Database) :
  step st st' -> db st = Some d ->
  exists d' more, db st' = Some d' /\ rows d' = (rows d ++ more)%list /\
                  seq d <= seq d'.
Proof.
  intros H Hd. destruct H as [st|now payload st|st|stamp st].
  - unfold init_database. rewrite Hd. exists d, []. rewrite Hd.
    rewrite List.app_nil_r. repeat split; auto. lia.
  - destruct (submit_cases now payload st)
      as [->|(data & rid & st1 & Hs & Hst)].
    + exists d, []. rewrite List.app_nil_r. repeat split; auto. lia.
    + apply save_to_database_ok in Hs.
      destruct Hs as (d0 & row & v & Hd0 & Hrid & _ & _ & _ & ->).
      rewrite Hd in Hd0. injection Hd0 as <-.
      exists (mkDatabase (rows d ++ [row]) rid), [row].
      assert (seq d <= rid) by (unfold high in Hrid; lia).
      destruct Hst as [->|(doc & ->)]; repeat split; auto.
  - exists d, []. rewrite List.app_nil_r. repeat split; auto. lia.
  - unfold export_csv. rewrite Hd. exists d, []. cbn. rewrite Hd.
    rewrite List.app_nil_r. repeat split; auto. lia.
Qed.

(** X8: the table is append-only.  Whatever requests and restarts follow,
    the rows that are stored stay, unchanged and in their places, and new
    rows only come after them. *)
Theorem table_is_append_only (st st' : Store) (d : Database) :
  steps st st' -> db st = Some d ->
  exists d' more, db st' = Some d' /\ rows d' = (rows d ++ more)%list.
Proof.
  intros H. revert d.
  induction H as [st|st st1 st2 Hs _ IH]; intros d Hd.
  - exists d, []. now rewrite List.app_nil_r.
  - destruct (step_appends _ _ _ Hs Hd) as (d1 & m1 & Hd1 & Hr1 & _).
    destruct (IH d1 Hd1) as (d2 & m2 & Hd2 & Hr2).
    exists d2, (m1 ++ m2)%list. split; [exact Hd2|].
    now rewrite Hr2, Hr1, List.app_assoc.
Qed.

Lemma max_rowid_first_ids (l : list Row) :
  map id l = first_ids (List.length l) ->
  max_rowid l = Z.of_nat (List.length l).
Proof.
  induction l as [|r l IH] using rev_ind; [reflexivity|].
  rewrite List.length_app, Nat.add_1_r, map_app. unfold first_ids.
  rewrite List.seq_S, map_app. cbn [map]. intros H.
  apply app_inj_tail in H. destruct H as [Hl Hr].
  rewrite max_rowid_app, (IH Hl), Hr. cbn [Nat.add]. lia.
Qed.

Lemma save_to_database_sequence (data : dict) (st st1 : Store) (rid : Z) :
  save_to_database data st = Ok (rid, st1) ->
  ids_in_sequence st -> ids_in_sequence st1.
Proof.
  intros H Hi. apply save_to_database_ok in H.
  destruct H as (d & row & v & Hd & Hrid & _ & Hid & _ & ->).
  unfold ids_in_sequence in *. rewrite Hd in Hi. cbn [db set_db rows seq].
  destruct Hi as [Hids Hseq].
  assert (Hh : high d = Z.of_nat (List.length (rows d))).
  { unfold high. rewrite (max_rowid_first_ids _ Hids). lia. }
  rewrite List.length_app, Nat.add_1_r, map_app. unfold first_ids in *.
  rewrite List.seq_S, map_app, Hids. cbn [map List.length Nat.add].
  split; [f_equal; f_equal; lia|lia].
Qed.

Lemma step_sequence (st st' : Store) :
  step st st' -> ids_in_sequence st -> ids_in_sequence st'.
Proof.
  intros H Hi. destruct H as [st|now payload st|st|stamp st].
  - unfold init_database, ids_in_sequence in *.
    destruct (db st) eqn:E; cbn; rewrite ?E; auto.
  - destruct (submit_cases now payload st)
      as [->|(data & rid & st1 & Hs & [->|(doc & ->)])]; auto;
      now apply (save_to_database_sequence _ _ _ _ Hs).
  - exact Hi.
  - unfold export_csv, ids_in_sequence in *.
    destruct (db st) eqn:E; cbn; rewrite ?E; auto.
Qed.

(** X9: the service hands out the identifiers 1, 2, 3, ... without gaps:
    in every store it can reach, the rows carry 1 to n in table order and
    the counter stands at n.  A refused submission spends no identifier. *)
Theorem ids_count_from_one (st : Store) (d : Database) :
  reachable st -> db st = Some d ->
  map id (rows d) = first_ids (List.length (rows d)) /\
  seq d = Z.of_nat (List.length (rows d)) /\
  NoDup (map id (rows d)).
Proof.
  intros Hr Hd.
  assert (Hi : ids_in_sequence st).
  { clear Hd. induction Hr as [|st st' _ IH Hs]; [exact I|].
    now apply (step_sequence st st'). }
  unfold ids_in_sequence in Hi. rewrite Hd in Hi. destruct Hi as [H1 H2].
  repeat split; auto. rewrite H1. unfold first_ids.
  apply Finite.Injective_map_NoDup; [|apply List.seq_NoDup].
  intros a b. apply Nat2Z.inj.
Qed.

Lemma submit_in_step (now : string) (payload : json) (st : Store) :
  backup_in_step st -> backup_in_step (snd (submit_survey now payload st)).
Proof.
  intros Hb. unfold submit_survey.
  destruct payload as [| | | | |data]; auto.
  destruct (first_missing required_fields data); auto.
  destruct (issues_empty data) as [[|]|]; auto.
  destruct (save_to_database (fill_timestamp now data) st)
    as [[rid st1]|] eqn:E; auto.
  apply save_to_database_columns in E.
  destruct E as (d & row & Hd & _ & _ & _ & Hh & ->).
  unfold backup_in_step in Hb. rewrite Hd in Hb.
  destruct Hb as (l & Hl & Hm).
  unfold save_to_json, backup_entries in *. cbn [backup set_db].
  assert (Hnew : mirrors row (JObj (fill_timestamp now data)))
    by (exists (fill_timestamp now data); split; [reflexivity|exact Hh]).
  destruct (backup st) as [[| | | |l0|]|] eqn:Eb; try discriminate;
    injection Hl as <-; cbn [snd]; unfold backup_in_step;
    cbn [db backup set_backup set_db rows];
    eexists; (split; [reflexivity|]);
    exact (Forall2_app Hm (Forall2_cons _ _ Hnew (Forall2_nil _))).
Qed.

Lemma step_in_step (st st' : Store) :
  step st st' -> backup_in_step st -> backup_in_step st'.
Proof.
  intros H Hb. destruct H as [st|now payload st|st|stamp st].
  - unfold init_database, backup_in_step in *.
    destruct (db st) eqn:E; cbn; rewrite ?E; auto.
    exists []. unfold backup_entries. cbn. rewrite Hb. auto.
  - now apply submit_in_step.
  - exact Hb.
  - unfold export_csv, backup_in_step in *.
    destruct (db st) eqn:E; cbn; rewrite ?E; auto.
Qed.

(** X10: as long as the requests are served one after the other and each
    to its end, the backup document keeps step with the table: from an
    empty data directory on it is a list with one entry per row, in table
    order, and each entry is a payload object that its row holds, column
    by column (the text under each of the nine text keys, the empty
    string for an email or a comment left out, the JSON text of the
    issues value).  So the backup write of an accepted submission does
    not fail on a store that only this service has written.  Requests
    that overlap are outside the statement: their backup writes can lose
    entries. *)
Theorem backup_keeps_step_with_table (st : Store) (d : Database) :
  reachable st -> db st = Some d ->
  exists entries,
    backup_entries st = Some entries /\
    List.length entries = List.length (rows d) /\
    Forall2 mirrors (rows d) entries.
Proof.
  intros Hr Hd.
  assert (Hb : backup_in_step st).
  { clear Hd. induction Hr as [|st st' _ IH Hs]; [reflexivity|].
    now apply (step_in_step st st'). }
  unfold backup_in_step in Hb. rewrite Hd in Hb.
  destruct Hb as (l & Hl & Hm). exists l. repeat split; auto.
  symmetry. exact (Forall2_length Hm).
Qed.

(** ** Export and listing *)

Lemma read_write_file (name : string) (doc : csv_doc)
      (fs : list (string * csv_doc)) :
  read_file name (write_file name doc fs) = Some doc.
Proof.
  induction fs as [|[n d] fs IH]; simpl.
  - now rewrite String.eqb_refl.
  - destruct (String.eqb name n) eqn:E; simpl.
    + now rewrite String.eqb_refl.
    + now rewrite E.
Qed.

Lemma read_write_other (name other : string) (doc : csv_doc)
      (fs : list (string * csv_doc)) :
  other <> name -> read_file other (write_file name doc fs) = read_file other fs.
Proof.
  intros Hne. induction fs as [|[n d] fs IH]; simpl.
  - apply String.eqb_neq in Hne. now rewrite Hne.
  - destruct (String.eqb name n) eqn:E; simpl.
    + apply String.eqb_eq in E. subst n.
      apply String.eqb_neq in Hne. now rewrite Hne.
    + now rewrite IH.
Qed.

(** X11: the export of a table with rows answers 200 and leaves, under the
    name built from the time stamp, a file with the eleven column names
    first and then one record per row: the identifier in decimal and the
    ten text columns as they are stored, in table order, a NULL as the
    empty field.  The records stand in descending order of the stored
    timestamp text, compared byte by byte as [ORDER BY timestamp DESC]
    does on a TEXT column; nothing is claimed of the instants the texts
    name.  A file of that name is replaced; every other file, the table
    and the backup stay as they are. *)
Theorem export_writes_header_and_rows
        (stamp : string) (st : Store) (d : Database) :
  db st = Some d -> rows d <> [] ->
  exists ordered,
    Permutation ordered (rows d) /\ StronglySorted text_descending ordered /\
    fst (export_csv stamp st) =
    mkResponse 200
      (JObj [("success", JBool true);
             ("message", JStr "CSV exported successfully");
             ("filename", JStr (export_name stamp))]) /\
    read_file (export_name stamp) (exports (snd (export_csv stamp st))) =
    Some (["id"; "phone_number"; "name"; "email"; "neighborhood";
           "age_group"; "voting_frequency"; "issues"; "engagement";
           "additional_comments"; "timestamp"]
          :: map (fun r =>
                    [encode_int (id r); phone_number r; name r;
                     or_default (email r) ""; neighborhood r; age_group r;
                     voting_frequency r; issues r; engagement r;
                     or_default (additional_comments r) ""; timestamp r])
                 ordered) /\
    (forall other, other <> export_name stamp ->
                   read_file other (exports (snd (export_csv stamp st))) =
                   read_file other (exports st)) /\
    db (snd (export_csv stamp st)) = db st /\
    backup (snd (export_csv stamp st)) = backup st.
Proof.
  intros Hd Hne. exists (order_by_timestamp_desc (rows d)).
  pose proof (order_by_timestamp_desc_perm (rows d)) as Hp.
  split; [exact Hp|]. split; [apply order_by_timestamp_desc_sorted|].
  unfold export_csv. rewrite Hd.
  destruct (order_by_timestamp_desc (rows d)) as [|r l] eqn:E.
  - apply Permutation_nil in Hp. contradiction.
  - cbn [fst snd exports set_export db backup].
    change (path_join DATA_DIR ("responses_export_" ++ stamp ++ ".csv"))
      with (export_name stamp).
    split; [reflexivity|]. split; [apply read_write_file|].
    split; [intros other Ho; now apply read_write_other|].
    split; [exact Hd|reflexivity].
Qed.

(** X12: the list and the export show the same rows in the same order:
    the records of the exported file after the header are the rows the
    list answers with, one for one. *)
Theorem export_and_list_agree (stamp : string) (st : Store) (d : Database) :
  reachable st -> db st = Some d -> rows d <> [] ->
  exists ordered responses,
    body (get_responses st) =
    JObj [("success", JBool true);
          ("count", JInt (Z.of_nat (List.length responses)));
          ("responses", JArr responses)] /\
    Forall2 shows ordered responses /\
    read_file (export_name stamp) (exports (snd (export_csv stamp st))) =
    Some (columns :: map csv_record ordered).
Proof.
  intros Hr Hd Hne. apply reachable_written in Hr.
  unfold table_written in Hr. rewrite Hd in Hr.
  pose proof (order_by_timestamp_desc_perm (rows d)) as Hp.
  assert (Hw : Forall written (order_by_timestamp_desc (rows d))).
  { rewrite Forall_forall in *. intros r Hin. apply Hr.
    now apply (Permutation_in _ Hp). }
  destruct (row_responses_show _ Hw) as (xs & E & Hxs).
  exists (order_by_timestamp_desc (rows d)), xs.
  unfold get_responses, export_csv. rewrite Hd, E.
  split; [reflexivity|]. split; [exact Hxs|].
  destruct (order_by_timestamp_desc (rows d)) as [|r l] eqn:Eo.
  - apply Permutation_nil in Hp. contradiction.
  - cbn [snd exports set_export]. apply read_write_file.
Qed.

(** X13: whatever the shape of the issues value of an accepted submission
    (a list of anything, a string, a dict), the list shows under the
    returned identifier that same value. *)
Theorem any_issues_survive_storage
        (now : string) (data : dict) (st st' : Store) (resp : response) :
  reachable st ->
  submit_survey now (JObj data) st = (resp, st') ->
  status resp = 200 ->
  exists rid responses,
    body resp = saved_body rid /\
    body (get_responses st') = responses_body responses /\
    (exists x, In x responses /\ field "id" x = JInt rid) /\
    (forall x, In x responses -> field "id" x = JInt rid ->
               field "issues" x = dict_get "issues" data).
Proof.
  intros Hreach Hsub Hok.
  destruct (submit_ok _ _ _ _ _ Hsub Hok) as (rid & st1 & Hdb & Hjs & ->).
  pose proof (save_to_database_written _ _ _ _ Hdb
                (reachable_written st Hreach)) as Hw.
  apply save_to_database_ok in Hdb.
  destruct Hdb as (d & row & v & Hd & Hrid & Hv & Hid & Hrow & ->).
  apply save_to_json_db in Hjs. simpl in Hjs.
  unfold table_written in Hw. simpl in Hw.
  assert (Ev : v = dict_get "issues" data).
  { unfold subscript in Hv. rewrite fill_timestamp_issues in Hv.
    unfold dict_get, dict_get_default.
    destruct (dict_lookup "issues" data); [|discriminate].
    now injection Hv as <-. }
  subst v.
  pose proof (order_by_timestamp_desc_perm (rows d ++ [row])) as Hp.
  assert (Hw' : Forall written (order_by_timestamp_desc (rows d ++ [row]))).
  { rewrite Forall_forall in *. intros r Hin. apply Hw.
    now apply (Permutation_in _ Hp). }
  destruct (row_responses_show _ Hw') as (xs & E & Hxs).
  exists rid, xs. split; [reflexivity|]. split; [|split].
  - unfold get_responses. rewrite Hjs. cbn [rows]. rewrite E. reflexivity.
  - assert (Hin : In row (order_by_timestamp_desc (rows d ++ [row]))).
    { apply (Permutation_in _ (Permutation_sym Hp)).
      apply in_or_app. right. now left. }
    destruct (Forall2_in_left _ _ _ _ Hxs Hin) as (x & Hx & Hsh).
    exists x. split; [exact Hx|].
    apply shows_fields in Hsh. destruct Hsh as [-> _]. now rewrite Hid.
  - intros x Hx Hxid.
    destruct (Forall2_in_right _ _ _ _ Hxs Hx) as (r & Hr & Hsh).
    apply shows_fields in Hsh. destruct Hsh as [Hrid' Hload].
    rewrite Hrid' in Hxid. injection Hxid as Hxid.
    apply (Permutation_in _ Hp) in Hr. apply in_app_or in Hr.
    destruct Hr as [Hr|[<-|[]]].
    + apply max_rowid_in in Hr. unfold high in Hrid. lia.
    + rewrite Hrow, json_loads_dumps in Hload. now injection Hload as <-.
Qed.

(** ** More on phone numbers and sends *)

(** X14: whatever the input, the formatted number is a [+] followed by
    digits only, as many as the input has, or eleven when it has ten: a
    bare ten-digit number never comes out, and an input without digits
    gives a lone [+]. *)
Theorem format_phone_number_shape (phone : string) :
  exists d,
    format_phone_number phone = String "+" d /\
    all_chars isdigit d = true /\
    String.length d =
      (if Nat.eqb (String.length (filter_chars isdigit phone)) 10 then 11
       else String.length (filter_chars isdigit phone))%nat /\
    String.length d <> 10%nat.
Proof.
  unfold format_phone_number, add_country_code.
  pose proof (all_chars_filter isdigit phone) as Hd.
  destruct (Nat.eqb (String.length (filter_chars isdigit phone)) 10) eqn:E.
  - apply Nat.eqb_eq in E. exists ("1" ++ filter_chars isdigit phone).
    simpl. repeat split; auto; lia.
  - apply Nat.eqb_neq in E. exists (filter_chars isdigit phone).
    repeat split; auto.
Qed.

Section SendFacts.

Variable provider : list call -> call -> result (string * string).
Variable clock : nat -> string.
Variable repr : json -> string.

Lemma try_send_bot (to_number name : json) (bot : Bot) :
  let bot1 := snd (try_send provider repr to_number name bot) in
  from_number bot1 = from_number bot /\ survey_url bot1 = survey_url bot /\
  sent_messages bot1 = sent_messages bot /\
  clock_reads bot1 = clock_reads bot /\
  (provider_calls bot1 = provider_calls bot \/
   exists c, provider_calls bot1 = (provider_calls bot ++ [c])%list).
Proof.
  unfold try_send.
  destruct (format_phone_number_any to_number) as [formatted|e]; cbn.
  - destruct (provider (provider_calls bot) _) as [[sid st]|e]; cbn;
      repeat split; eauto.
  - repeat split; auto.
Qed.

(** X15: [send_sms] always comes back with a record and never raises.  The
    record is added, once, at the end of the bot's log; it carries the
    name it was given and the time read from the clock, which is read
    once; the provider is called at most once. *)
Theorem send_sms_logs_its_record (to_number name : json) (bot : Bot) :
  let r := fst (send_sms provider clock repr to_number name bot) in
  let bot' := snd (send_sms provider clock repr to_number name bot) in
  sent_messages bot' = (sent_messages bot ++ [r])%list /\
  clock_reads bot' = S (clock_reads bot) /\
  field "timestamp" r = JStr (clock (clock_reads bot)) /\
  field "name" r = name /\
  (provider_calls bot' = provider_calls bot \/
   exists c, provider_calls bot' = (provider_calls bot ++ [c])%list) /\
  from_number bot' = from_number bot /\ survey_url bot' = survey_url bot.
Proof.
  cbn zeta. unfold send_sms.
  pose proof (try_send_bot to_number name bot) as H. cbn zeta in H.
  destruct (try_send provider repr to_number name bot)
    as [[[[formatted sid] st]|e] bot1];
    cbn in *; destruct H as (H1 & H2 & H3 & H4 & H5);
    rewrite H3, H4; repeat split; auto.
Qed.

(** X16: for a phone number given as text the provider is called exactly
    once, from the bot's own number, to the formatted number, with the
    composed message.  The record says success exactly when the provider
    accepted the call; it then holds the formatted number, and after a
    refusal it holds the number as it was given and the provider's error
    text. *)
Theorem send_sms_calls_the_provider (phone : string) (name : json) (bot : Bot) :
  let c := mkCall (create_message repr bot name) (from_number bot)
                  (format_phone_number phone) in
  let r := fst (send_sms provider clock repr (JStr phone) name bot) in
  provider_calls (snd (send_sms provider clock repr (JStr phone) name bot)) =
    (provider_calls bot ++ [c])%list /\
  match provider (provider_calls bot) c with
  | Ok (sid, message_status) =>
      succeeded r = true /\
      field "to" r = JStr (format_phone_number phone) /\
      field "sid" r = JStr sid /\ field "status" r = JStr message_status
  | Raise e =>
      succeeded r = false /\
      field "to" r = JStr phone /\ field "error" r = JStr e
  end.
Proof.
  cbn zeta. unfold send_sms, try_send.
  change (format_phone_number_any (JStr phone))
    with (Ok (format_phone_number phone)). cbn iota beta.
  destruct (provider (provider_calls bot) _) as [[sid st]|e];
    cbn; repeat split; reflexivity.
Qed.

(** X17: a phone value that is a number or a boolean cannot be filtered for
    digits: the send is reported as failed with the value as it was
    given, and the provider is not called. *)
Theorem send_sms_refuses_numbers (to_number name : json) (bot : Bot) :
  unsized to_number ->
  let r := fst (send_sms provider clock repr to_number name bot) in
  succeeded r = false /\ field "to" r = to_number /\
  provider_calls (snd (send_sms provider clock repr to_number name bot)) =
  provider_calls bot.
Proof.
  intros Hu. cbn zeta. unfold send_sms, try_send.
  destruct to_number; simpl in Hu; try contradiction; cbn;
    repeat split; reflexivity.
Qed.

Lemma send_sms_log_step (to_number name : json) (bot : Bot) :
  sent_messages (snd (send_sms provider clock repr to_number name bot)) =
    (sent_messages bot
     ++ [fst (send_sms provider clock repr to_number name bot)])%list /\
  clock_reads (snd (send_sms provider clock repr to_number name bot)) =
    S (clock_reads bot) /\
  (provider_calls (snd (send_sms provider clock repr to_number name bot)) =
     provider_calls bot \/
   exists c,
     provider_calls (snd (send_sms provider clock repr to_number name bot)) =
     (provider_calls bot ++ [c])%list).
Proof.
  unfold send_sms.
  pose proof (try_send_bot to_number name bot) as H. cbn zeta in H.
  destruct (try_send provider repr to_number name bot)
    as [[[[formatted sid] st]|e] bot1];
    cbn in *; destruct H as (H1 & H2 & H3 & H4 & H5);
    rewrite H3, H4; repeat split; auto.
Qed.

Lemma send_each_app (l1 l2 : list dict) :
  forall bot,
    send_each provider clock repr (l1 ++ l2) bot =
    let (r1, bot1) := send_each provider clock repr l1 bot in
    let (r2, bot2) := send_each provider clock repr l2 bot1 in
    ((r1 ++ r2)%list, bot2).
Proof.
  induction l1 as [|r l1 IH]; intros bot; cbn [send_each List.app].
  - destruct (send_each provider clock repr l2 bot); reflexivity.
  - destruct (send_sms provider clock repr (dict_get "phone" r)
                (dict_get "name" r) bot) as [x bot0].
    rewrite IH.
    destruct (send_each provider clock repr l1 bot0) as [r1 bot1].
    destruct (send_each provider clock repr l2 bot1) as [r2 bot2].
    reflexivity.
Qed.

Lemma send_each_log (l : list dict) :
  forall bot,
    let (rs, bot') := send_each provider clock repr l bot in
    sent_messages bot' = (sent_messages bot ++ rs)%list /\
    clock_reads bot' = (clock_reads bot + List.length rs)%nat /\
    (List.length (provider_calls bot')
     <= List.length (provider_calls bot) + List.length rs)%nat.
Proof.
  induction l as [|r l IH]; intros bot; cbn [send_each].
  - rewrite List.app_nil_r. cbn. repeat split; lia.
  - pose proof (send_sms_log_step (dict_get "phone" r)
                  (dict_get "name" r) bot) as H.
    destruct (send_sms provider clock repr (dict_get "phone" r)
                (dict_get "name" r) bot) as [x bot0]. cbn [fst snd] in H.
    destruct H as (H1 & H2 & H5).
    specialize (IH bot0).
    destruct (send_each provider clock repr l bot0) as [rs bot1].
    destruct IH as (I1 & I2 & I3).
    rewrite I1, H1, I2, H2, <- List.app_assoc. cbn [List.app List.length].
    repeat split; try lia.
    destruct H5 as [E|[c E]]; rewrite E in I3;
      rewrite ?List.length_app in I3; cbn in I3; lia.
Qed.

(** X18: after a bulk send the bot's log is the log of before followed by
    the records of the summary, in order; the clock was read once per
    record and the provider was called at most once per record, so not at
    all for the recipients that were skipped. *)
Theorem bulk_log_is_the_details (recipients : list dict) (bot : Bot) :
  let results := fst (send_bulk_sms provider clock repr recipients bot) in
  let bot' := snd (send_bulk_sms provider clock repr recipients bot) in
  sent_messages bot' = (sent_messages bot ++ details results)%list /\
  clock_reads bot' =
    (clock_reads bot + List.length (details results))%nat /\
  (List.length (provider_calls bot')
   <= List.length (provider_calls bot) + List.length (details results))%nat.
Proof.
  cbn zeta. unfold send_bulk_sms. rewrite bulk_loop_spec.
  pose proof (send_each_log (filter has_phone recipients) bot) as H.
  destruct (send_each provider clock repr (filter has_phone recipients) bot)
    as [rs bot'].
  cbn [fst snd details List.app]. exact H.
Qed.

(** X19: a bulk send over two lists joined is the bulk send over the first
    followed by the bulk send over the second on the bot the first one
    left: the counts add up and the records follow one another. *)
Theorem bulk_send_composes (l1 l2 : list dict) (bot : Bot) :
  let first := send_bulk_sms provider clock repr l1 bot in
  let second := send_bulk_sms provider clock repr l2 (snd first) in
  send_bulk_sms provider clock repr (l1 ++ l2) bot =
  (mkSummary (total (fst first) + total (fst second))
             (successful (fst first) + successful (fst second))
             (failed (fst first) + failed (fst second))
             (details (fst first) ++ details (fst second)),
   snd second).
Proof.
  cbn zeta. unfold send_bulk_sms. rewrite !bulk_loop_spec.
  rewrite filter_app, send_each_app.
  destruct (send_each provider clock repr (filter has_phone l1) bot)
    as [r1 bot1]. cbn [fst snd].
  destruct (send_each provider clock repr (filter has_phone l2) bot1)
    as [r2 bot2].
  cbn [fst snd total successful failed details List.app].
  unfold successes, failures, lacking.
  rewrite !filter_app, !List.length_app. f_equal. f_equal; lia.
Qed.

End SendFacts.

(** ** The indented JSON text of a value reads back as the value *)

Lemma read_uint_ends (d : uint) (rest : string) :
  read_uint rest = (Nil, rest) ->
  read_uint (NilEmpty.string_of_uint d ++ rest) = (d, rest).
Proof.
  intros H. induction d; simpl; try (rewrite IHd; reflexivity). exact H.
Qed.

Lemma scan_digits_ends (neg : bool) (d : uint) (rest : string) :
  d <> Nil -> unorm d = d -> ends_number rest ->
  scan_digits neg (NilEmpty.string_of_uint d ++ rest) =
  Some (JInt (Z.of_int (if neg then Neg d else Pos d)), rest).
Proof.
  intros Hd Hn [Hr Hf]. unfold scan_digits.
  rewrite (read_uint_ends d rest Hr), Hn, uint_eqb_refl, Hf.
  destruct d; [congruence|reflexivity..].
Qed.

Lemma scan_number_ends (n : Z) (rest : string) :
  ends_number rest ->
  scan_number (encode_int n ++ rest) = Some (JInt n, rest).
Proof.
  intros Hr. unfold encode_int.
  destruct n as [|p|p]; simpl Z.to_int; unfold NilZero.string_of_int.
  - change (NilZero.string_of_uint zero) with (NilEmpty.string_of_uint zero).
    rewrite scan_number_uint by discriminate.
    now rewrite scan_digits_ends.
  - rewrite nilzero_to_uint.
    rewrite scan_number_uint by apply DecimalPos.Unsigned.to_uint_nonnil.
    rewrite scan_digits_ends;
      auto using DecimalPos.Unsigned.to_uint_nonnil, unorm_to_uint.
    change (Pos (Pos.to_uint p)) with (Z.to_int (Z.pos p)).
    now rewrite DecimalZ.of_to.
  - rewrite nilzero_to_uint. simpl.
    rewrite scan_digits_ends;
      auto using DecimalPos.Unsigned.to_uint_nonnil, unorm_to_uint.
    change (Neg (Pos.to_uint p)) with (Z.to_int (Z.neg p)).
    now rewrite DecimalZ.of_to.
Qed.

Lemma skip_ws_spaces (n : nat) (s : string) :
  skip_ws (spaces n ++ s) = skip_ws s.
Proof. induction n as [|n IH]; [reflexivity|exact IH]. Qed.

Lemma skip_ws_newline_indent (level : nat) (s : string) :
  skip_ws (newline_indent level ++ s) = skip_ws s.
Proof. unfold newline_indent. cbn [append]. apply skip_ws_spaces. Qed.

Lemma newline_indent_ends (level : nat) (s : string) :
  ends_number (newline_indent level ++ s).
Proof. split; reflexivity. Qed.

Lemma dumps_indent_head (level : nat) (v : json) :
  exists c s, json_dumps_indent level v = String c s /\ value_start c = true.
Proof.
  destruct v as [|[|]|n|s|[|x l]|[|[k x] kv]];
    try (simpl; eexists; eexists; split; reflexivity).
  destruct (encode_int_head n) as (c & s & E & Hc).
  exists c, s. split; [exact E|now apply number_value_start].
Qed.

Lemma skip_ws_dumps_indent (level : nat) (v : json) (r : string) :
  skip_ws (json_dumps_indent level v ++ r) = json_dumps_indent level v ++ r.
Proof.
  destruct (dumps_indent_head level v) as (c & s & E & Hc). rewrite E. simpl.
  destruct (value_start_facts c Hc) as (-> & _). reflexivity.
Qed.

Lemma dumps_indent_arr (level : nat) (x : json) (l : list json)
      (rest : string) :
  json_dumps_indent level (JArr (x :: l)) ++ rest =
  String "[" (newline_indent (S level) ++ json_dumps_indent (S level) x ++
              more_items_indent (S level) l ++ newline_indent level ++
              String "]" rest).
Proof.
  change (json_dumps_indent level (JArr (x :: l)))
    with ("[" ++ newline_indent (S level) ++ json_dumps_indent (S level) x ++
          more_items_indent (S level) l ++ newline_indent level ++ "]").
  cbn [append]. f_equal. rewrite !append_assoc. reflexivity.
Qed.

Lemma dumps_indent_obj (level : nat) (k : string) (x : json)
      (kv : list (string * json)) (rest : string) :
  json_dumps_indent level (JObj ((k, x) :: kv)) ++ rest =
  String "{" (newline_indent (S level) ++ encode_string k ++ ": " ++
              json_dumps_indent (S level) x ++
              more_members_indent (S level) kv ++ newline_indent level ++
              String "}" rest).
Proof.
  change (json_dumps_indent level (JObj ((k, x) :: kv)))
    with ("{" ++ newline_indent (S level) ++ encode_string k ++ ": " ++
          json_dumps_indent (S level) x ++ more_members_indent (S level) kv ++
          newline_indent level ++ "}").
  rewrite !append_assoc. reflexivity.
Qed.

Lemma more_items_indent_ends (level outer : nat) (l : list json)
      (rest : string) :
  ends_number (more_items_indent level l ++ newline_indent outer ++ rest).
Proof. destruct l; split; reflexivity. Qed.

Lemma more_members_indent_ends (level outer : nat)
      (kv : list (string * json)) (rest : string) :
  ends_number (more_members_indent level kv ++ newline_indent outer ++ rest).
Proof. destruct kv as [|[k x] kv]; split; reflexivity. Qed.

Lemma parse_items_indent (scan : string -> option (json * string))
      (level outer : nat) (l : list json) :
  forall (x : json) (n : nat) (rest : string),
    Forall (reads_back_indent scan level) (x :: l) ->
    (List.length l < n)%nat ->
    parse_items scan n
      (json_dumps_indent level x ++ more_items_indent level l ++
       newline_indent outer ++ String "]" rest) =
    Some (x :: l, rest).
Proof.
  induction l as [|y l IH]; intros x n rest Hall Hn;
    (destruct n as [|n]; [simpl in Hn; lia|]);
    inversion Hall as [|? ? Hx Hl]; subst; cbn [parse_items].
  - rewrite (Hx _ (more_items_indent_ends level outer [] (String "]" rest))).
    cbn [more_items_indent append].
    change (skip_ws (newline_indent outer ++ String "]" rest))
      with (skip_ws (spaces (2 * outer) ++ String "]" rest)).
    rewrite skip_ws_spaces. reflexivity.
  - rewrite (Hx _ (more_items_indent_ends level outer (y :: l)
                     (String "]" rest))).
    cbn [more_items_indent]. rewrite !append_assoc.
    change (skip_ws ("," ++ ?t)) with (String "," t).
    cbv beta iota.
    change (Ascii.eqb "," "]") with false.
    change (Ascii.eqb "," ",") with true. cbv iota.
    rewrite skip_ws_newline_indent, skip_ws_dumps_indent, IH; auto.
    simpl in Hn. lia.
Qed.

Lemma parse_members_indent (scan : string -> option (json * string))
      (level outer : nat) (kv : list (string * json)) :
  forall (k : string) (x : json) (n : nat) (rest : string),
    Forall (fun p => reads_back_indent scan level (snd p)) ((k, x) :: kv) ->
    (List.length kv < n)%nat ->
    parse_members scan n
      (encode_string k ++ ": " ++ json_dumps_indent level x ++
       more_members_indent level kv ++ newline_indent outer ++
       String "}" rest) =
    Some ((k, x) :: kv, rest).
Proof.
  induction kv as [|[k' y] kv IH]; intros k x n rest Hall Hn;
    (destruct n as [|n]; [simpl in Hn; lia|]);
    inversion Hall as [|? ? Hx Hl]; subst; simpl snd in Hx;
    unfold encode_string; cbn [parse_members append];
    change (Ascii.eqb dquote dquote) with true; cbv iota beta;
    cbn [negb]; rewrite append_assoc; cbn [append];
    rewrite scanstring_escape;
    change (skip_ws (String ":" (String " " ?t))) with (String ":" (String " " t));
    cbv iota beta; change (Ascii.eqb ":" ":") with true; cbn [negb];
    change (skip_ws (String " " ?t)) with (skip_ws t);
    rewrite skip_ws_dumps_indent.
  - rewrite (Hx _ (more_members_indent_ends level outer []
                     (String "}" rest))).
    cbn [more_members_indent append].
    change (skip_ws (newline_indent outer ++ String "}" rest))
      with (skip_ws (spaces (2 * outer) ++ String "}" rest)).
    rewrite skip_ws_spaces. reflexivity.
  - rewrite (Hx _ (more_members_indent_ends level outer ((k', y) :: kv)
                     (String "}" rest))).
    cbn [more_members_indent]. rewrite !append_assoc.
    change (skip_ws ("," ++ ?t)) with (String "," t).
    cbv beta iota.
    change (Ascii.eqb "," "}") with false.
    change (Ascii.eqb "," ",") with true. cbv iota.
    rewrite skip_ws_newline_indent.
    assert (E : skip_ws (encode_string k' ++ ": " ++
                         json_dumps_indent level y ++
                         more_members_indent level kv ++
                         newline_indent outer ++ String "}" rest) =
                encode_string k' ++ ": " ++ json_dumps_indent level y ++
                more_members_indent level kv ++ newline_indent outer ++
                String "}" rest) by reflexivity.
    rewrite E, IH; auto.
    simpl in Hn. lia.
Qed.

Lemma scan_once_dumps_indent (v : json) :
  forall (level fuel : nat),
    (size v <= fuel)%nat -> reads_back_indent (scan_once fuel) level v.
Proof.
  induction v as [|b|n|s|l IHl|kv IHkv] using json_induction;
    intros level fuel Hf rest Hr;
    (destruct fuel as [|fuel]; [simpl in Hf; lia|]).
  - reflexivity.
  - destruct b; reflexivity.
  - destruct (encode_int_head n) as (c & t & E & Hc).
    assert (Hs : scan_once (S fuel) (encode_int n ++ rest) =
                 scan_number (encode_int n ++ rest)).
    { rewrite E. cbn [append scan_once].
      revert Hc. clear.
      destruct c as [b0 b1 b2 b3 b4 b5 b6 b7].
      destruct b0, b1, b2, b3, b4, b5, b6, b7; intros Hc;
        try discriminate Hc; reflexivity. }
    cbn [json_dumps_indent]. rewrite Hs. now apply scan_number_ends.
  - cbn [json_dumps_indent]. unfold encode_string. cbn [append scan_once].
    change (Ascii.eqb dquote dquote) with true. cbv iota.
    rewrite append_assoc. cbn [append].
    now rewrite scanstring_escape.
  - destruct l as [|x l]; [reflexivity|].
    rewrite dumps_indent_arr. cbn [scan_once].
    change (Ascii.eqb "[" dquote) with false.
    change (Ascii.eqb "[" "{") with false.
    change (Ascii.eqb "[" "[") with true. cbv iota.
    rewrite skip_ws_newline_indent, skip_ws_dumps_indent.
    simpl in Hf. apply le_S_n in Hf.
    destruct (size_items (x :: l) fuel Hf) as [Hlen Hsz].
    assert (Hall : Forall (reads_back_indent (scan_once fuel) (S level))
                          (x :: l)).
    { rewrite Forall_forall in *. intros y Hy. apply IHl; auto. }
    pose proof (parse_items_indent (scan_once fuel) (S level) level l x fuel
                  rest Hall) as Hp.
    destruct (dumps_indent_head (S level) x) as (c & t & E & Hc).
    destruct (value_start_facts c Hc) as (_ & Hc1 & _).
    rewrite E in *. cbn [append] in *. rewrite Hc1, Hp; [reflexivity|].
    simpl in Hlen. lia.
  - destruct kv as [|[k x] kv]; [reflexivity|].
    rewrite dumps_indent_obj. cbn [scan_once].
    change (Ascii.eqb "{" dquote) with false.
    change (Ascii.eqb "{" "{") with true. cbv iota.
    rewrite skip_ws_newline_indent.
    simpl in Hf. apply le_S_n in Hf.
    destruct (size_members ((k, x) :: kv) fuel Hf) as [Hlen Hsz].
    assert (Hall : Forall (fun p => reads_back_indent (scan_once fuel)
                                      (S level) (snd p))
                          ((k, x) :: kv)).
    { rewrite Forall_forall in *. intros p Hp. apply IHkv; auto. }
    pose proof (parse_members_indent (scan_once fuel) (S level) level kv k x
                  fuel rest Hall) as Hp.
    unfold encode_string in *. cbn [append] in *.
    change (skip_ws (String dquote ?t)) with (String dquote t).
    cbv iota beta.
    change (Ascii.eqb dquote "}") with false. cbv iota.
    rewrite Hp; [reflexivity|].
    simpl in Hlen. lia.
Qed.

Lemma dumps_indent_nonempty (level : nat) (v : json) :
  (1 <= String.length (json_dumps_indent level v))%nat.
Proof.
  destruct (dumps_indent_head level v) as (c & s & E & _).
  rewrite E. simpl. lia.
Qed.

Lemma size_le_length_indent (v : json) :
  forall level, (size v <= String.length (json_dumps_indent level v))%nat.
Proof.
  induction v as [|b|n|s|l IHl|kv IHkv] using json_induction; intros level;
    try apply dumps_indent_nonempty.
  - destruct l as [|x l]; [simpl; lia|].
    rewrite <- (append_nil_r (json_dumps_indent level (JArr (x :: l)))),
      dumps_indent_arr.
    inversion IHl as [|? ? Hx Hl]; subst.
    cbn [size fold_right String.length]. rewrite !length_append.
    assert (fold_right (fun x n => size x + n) 0 l
            <= String.length (more_items_indent (S level) l))%nat.
    { clear Hx IHl. induction Hl as [|y l Hy Hl IH]; [simpl; lia|].
      cbn [fold_right more_items_indent]. rewrite !length_append.
      specialize (Hy (S level)). lia. }
    specialize (Hx (S level)). lia.
  - destruct kv as [|[k x] kv]; [simpl; lia|].
    rewrite <- (append_nil_r (json_dumps_indent level (JObj ((k, x) :: kv)))),
      dumps_indent_obj.
    inversion IHkv as [|? ? Hx Hl]; subst. simpl snd in Hx.
    cbn [size fold_right String.length snd]. rewrite !length_append.
    assert (fold_right (fun p n => size (snd p) + n) 0 kv
            <= String.length (more_members_indent (S level) kv))%nat.
    { clear Hx IHkv. induction Hl as [|[k' y] kv Hy Hl IH]; [simpl; lia|].
      cbn [fold_right more_members_indent snd]. rewrite !length_append.
      simpl in Hy. specialize (Hy (S level)). lia. }
    specialize (Hx (S level)). lia.
Qed.

Lemma json_loads_dumps_indent (v : json) :
  json_loads (json_dumps_indent 0 v) = Some v.
Proof.
  unfold json_loads.
  rewrite <- (append_nil_r (json_dumps_indent 0 v)) at 1 2.
  rewrite skip_ws_dumps_indent, append_nil_r.
  pose proof (scan_once_dumps_indent v 0
                (S (String.length (json_dumps_indent 0 v)))) as H.
  rewrite <- (append_nil_r (json_dumps_indent 0 v)) at 2.
  rewrite H; [reflexivity| |split; reflexivity].
  pose proof (size_le_length_indent v 0). lia.
Qed.

(** ** The backup file as text *)

Lemma save_to_json_text_written (data : dict) (entries : list json) :
  save_to_json_text data (Some (json_dumps_indent 0 (JArr entries))) =
  Ok (json_dumps_indent 0 (JArr (entries ++ [JObj data]))).
Proof.
  unfold save_to_json_text. cbn [loads].
  rewrite json_loads_dumps_indent. reflexivity.
Qed.

Lemma save_all_written (payloads : list dict) :
  forall entries,
    save_all payloads (Some (json_dumps_indent 0 (JArr entries))) =
    Ok (Some (json_dumps_indent 0 (JArr (entries ++ map JObj payloads)))).
Proof.
  induction payloads as [|data rest IH]; intros entries; cbn [save_all map].
  - now rewrite List.app_nil_r.
  - rewrite save_to_json_text_written. cbn [bind]. rewrite IH.
    now rewrite <- List.app_assoc.
Qed.

(** X20: the backup file is rewritten in a form the next call reads back.
    For payloads and entries as [json.load] builds them (no dict with a
    key twice): from an absent file [save_to_json] writes the indented
    JSON text of the list of the one payload; on the text it has written
    for a list of entries it writes the text of that list with the new
    payload at its end; that text loads as the longer list; and calls for
    one payload after the other, from an absent file on, leave the text
    of the list of all payloads in their order.  What [json.load] makes
    of a text written by hand is not part of the statement. *)
Theorem backup_file_reads_back
        (data : dict) (entries : list json) (payloads : list dict) :
  distinct_keys (JArr (entries ++ JObj data :: map JObj payloads)) = true ->
  save_to_json_text data None = Ok (json_dumps_indent 0 (JArr [JObj data])) /\
  save_to_json_text data (Some (json_dumps_indent 0 (JArr entries))) =
  Ok (json_dumps_indent 0 (JArr (entries ++ [JObj data]))) /\
  json_loads (json_dumps_indent 0 (JArr (entries ++ [JObj data]))) =
  Some (JArr (entries ++ [JObj data])) /\
  save_all (data :: payloads) None =
  Ok (Some (json_dumps_indent 0 (JArr (map JObj (data :: payloads))))).
Proof.
  intros _. split; [reflexivity|].
  split; [apply save_to_json_text_written|].
  split; [apply json_loads_dumps_indent|].
  cbn [save_all]. change (save_to_json_text data None)
    with (Ok (json_dumps_indent 0 (JArr [JObj data]))).
  cbn [bind]. now rewrite save_all_written.
Qed.

Lemma backup_file_reads_back_witness :
  save_all [sample_payload; valid_payload] None =
  Ok (Some (json_dumps_indent 0
              (JArr [JObj sample_payload; JObj valid_payload]))).
Proof.
  destruct (backup_file_reads_back sample_payload [] [valid_payload])
    as (_ & _ & _ & H).
  - reflexivity.
  - exact H.
Defined.

(** The value kept for the backup document in [Store] stands for such a
    file: appending to the value and rewriting the text commute. *)
Lemma save_to_json_text_sound (data : dict) (st : Store) :
  match save_to_json data st with
  | Ok st' =>
      exists doc,
        backup st' = Some doc /\
        save_to_json_text data (option_map (json_dumps_indent 0) (backup st))
        = Ok (json_dumps_indent 0 doc)
  | Raise e =>
      save_to_json_text data (option_map (json_dumps_indent 0) (backup st))
      = Raise e
  end.
Proof.
  unfold save_to_json, save_to_json_text.
  destruct (backup st) as [doc|]; cbn [option_map loads bind].
  - rewrite json_loads_dumps_indent. cbn [bind].
    destruct doc; cbn; eauto.
  - cbn. eauto.
Qed.

(** ** The command line of the notifier *)

Lemma read_write_text (name text : string) (fs : files) :
  read_text name (write_text name text fs) = Some text.
Proof.
  induction fs as [|[n t] fs IH]; simpl.
  - now rewrite String.eqb_refl.
  - destruct (String.eqb name n) eqn:E; simpl.
    + now rewrite String.eqb_refl.
    + now rewrite E.
Qed.

Lemma read_write_text_other (name other text : string) (fs : files) :
  other <> name ->
  read_text other (write_text name text fs) = read_text other fs.
Proof.
  intros Hne. induction fs as [|[n t] fs IH]; simpl.
  - apply String.eqb_neq in Hne. now rewrite Hne.
  - destruct (String.eqb name n) eqn:E; simpl.
    + apply String.eqb_eq in E. subst n.
      apply String.eqb_neq in Hne. now rewrite Hne.
    + now rewrite IH.
Qed.

(** X21: a bot is built exactly when the three credentials are set and not
    empty.  It then sends from the configured number, uses the configured
    survey URL or the local default, and starts with an empty log. *)
Theorem SurveyBot_needs_credentials (env : list (string * string)) :
  (credentials_set env ->
   exists bot,
     SurveyBot env = Ok bot /\
     getenv env "TWILIO_PHONE_NUMBER" = Some (from_number bot) /\
     survey_url bot =
       match getenv env "SURVEY_URL" with
       | Some url => url
       | None => "http://localhost:5000/survey.html"
       end /\
     sent_messages bot = [] /\ provider_calls bot = []) /\
  (~ credentials_set env -> exists e, SurveyBot env = Raise e).
Proof.
  unfold credentials_set, SurveyBot. split.
  - intros (H1 & H2 & H3). rewrite H1, H2, H3. cbn [andb negb].
    eexists. split; [reflexivity|]. cbn.
    destruct (getenv env "TWILIO_PHONE_NUMBER"); [|discriminate].
    repeat split; reflexivity.
  - intros H.
    destruct (env_set (getenv env "TWILIO_ACCOUNT_SID")),
             (env_set (getenv env "TWILIO_AUTH_TOKEN")),
             (env_set (getenv env "TWILIO_PHONE_NUMBER"));
      cbn [andb negb]; eauto.
    exfalso. apply H. repeat split.
Qed.

Lemma SurveyBot_fails (env : list (string * string)) :
  ~ credentials_set env -> exists e, SurveyBot env = Raise e.
Proof.
  unfold credentials_set, SurveyBot. intros H.
  destruct (env_set (getenv env "TWILIO_ACCOUNT_SID")),
           (env_set (getenv env "TWILIO_AUTH_TOKEN")),
           (env_set (getenv env "TWILIO_PHONE_NUMBER"));
    cbn [andb negb]; eauto.
  exfalso. apply H. repeat split.
Qed.

Lemma SurveyBot_fresh (env : list (string * string)) (bot : Bot) :
  SurveyBot env = Ok bot ->
  sent_messages bot = [] /\ provider_calls bot = [] /\ clock_reads bot = O.
Proof.
  unfold SurveyBot.
  destruct (negb _); [discriminate|]. intros [= <-]. repeat split.
Qed.

Section CommandLineFacts.

Variable provider : list call -> call -> result (string * string).
Variable clock : nat -> string.
Variable repr : json -> string.

(** X22: [save_log] replaces the named file by a text that loads as an
    object with the time of the call and, under [messages], the whole log
    of the bot in order; the other files and the log itself are left
    alone. *)
Theorem save_log_reads_back (filename : string) (bot : Bot) (fs : files) :
  let fs' := fst (save_log clock filename bot fs) in
  let bot' := snd (save_log clock filename bot fs) in
  (exists text,
      read_text filename fs' = Some text /\
      json_loads text =
      Some (JObj [("timestamp", JStr (clock (clock_reads bot)));
                  ("messages", JArr (sent_messages bot))])) /\
  (forall other, other <> filename ->
                 read_text other fs' = read_text other fs) /\
  sent_messages bot' = sent_messages bot /\
  provider_calls bot' = provider_calls bot.
Proof.
  cbn zeta. unfold save_log, tick. cbn [fst snd].
  split; [|split; [|split; reflexivity]].
  - eexists. split; [apply read_write_text|].
    apply json_loads_dumps_indent.
  - intros other Ho. now apply read_write_text_other.
Qed.



(** X23: without the three credentials, or without an argument, the tool
    ends with code 1 before anything happens: no call to the provider and
    no file written. *)
Theorem main_fails_fast (env : list (string * string)) (argv : list string)
        (fs : files) :
  ~ credentials_set env \/ (List.length argv < 2)%nat ->
  main provider clock repr env argv fs = mkOutcome 1 fs [].
Proof.
  intros H. unfold main.
  destruct argv as [|script [|arg1 rest]]; try reflexivity.
  destruct H as [H|H]; [|simpl in H; lia].
  destruct (SurveyBot_fails env H) as [e ->].
  reflexivity.
Qed.



(** X24: in single mode (the first argument is not [--bulk]) the tool makes
    exactly one call to the provider, to the formatted first argument and
    with the second argument as name, ends with code 0 when the provider
    accepted the call and with code 1 when it refused, and writes no
    file: the log is saved in bulk mode only. *)
Theorem single_send_run
        (env : list (string * string)) (script phone : string)
        (rest : list string) (fs : files) (bot : Bot) :
  SurveyBot env = Ok bot -> phone <> "--bulk" ->
  let name := match rest with [] => JNull | n :: _ => JStr n end in
  let c := mkCall (create_message repr bot name) (from_number bot)
                  (format_phone_number phone) in
  main provider clock repr env (script :: phone :: rest) fs =
  mkOutcome (match provider [] c with Ok _ => 0 | Raise _ => 1 end) fs [c].
Proof.
  intros Hbot Hne. cbn zeta. unfold main. rewrite Hbot.
  apply String.eqb_neq in Hne. rewrite Hne.
  destruct (SurveyBot_fresh env bot Hbot) as (_ & Hcalls & _).
  unfold send_sms, try_send.
  change (format_phone_number_any (JStr phone))
    with (Ok (format_phone_number phone)). cbn iota beta.
  unfold log_call. rewrite !Hcalls.
  destruct (provider [] _) as [[sid st]|e]; reflexivity.
Qed.



End CommandLineFacts.

(** ** Before the table exists *)



(** ** Instances *)

Lemma stats_count_the_rows_witness :
  exists d by_neighborhood by_age_group by_voting_frequency,
    db three_rows_store = Some d /\
    get_stats three_rows_store =
    mkResponse 200
      (JObj [("success", JBool true);
             ("stats",
              JObj [("total", JInt 3);
                    ("by_neighborhood", JObj by_neighborhood);
                    ("by_age_group", JObj by_age_group);
                    ("by_voting_frequency", JObj by_voting_frequency)])]) /\
    breakdown_of neighborhood (rows d) by_neighborhood /\
    dict_lookup "A" by_neighborhood = Some (JInt 2) /\
    dict_lookup "B" by_neighborhood = Some (JInt 1) /\
    dict_lookup "C" by_neighborhood = None.
Proof.
  eexists.
  destruct (stats_count_the_rows three_rows_store _ eq_refl)
    as (bn & ba & bv & H1 & H2 & _).
  exists bn, ba, bv. split; [reflexivity|]. split; [exact H1|].
  split; [exact H2|]. destruct H2 as [Hl _].
  rewrite !Hl. repeat split.
Defined.

Lemma reachable_started : reachable (init_database fresh_store).
Proof. eapply reach_step; [apply reach_fresh|apply step_start]. Qed.

Lemma reachable_two_rows : reachable two_rows_store.
Proof.
  unfold two_rows_store.
  eapply reach_step; [|apply step_submit].
  eapply reach_step; [|apply step_submit].
  apply reachable_started.
Qed.

Lemma table_is_append_only_witness :
  exists d d' more,
    db (snd (submit_survey "" (JObj valid_payload)
                           (init_database fresh_store))) = Some d /\
    List.length (rows d) = 1%nat /\
    db two_rows_store = Some d' /\ rows d' = (rows d ++ more)%list.
Proof.
  eexists.
  destruct (table_is_append_only
              (snd (submit_survey "" (JObj valid_payload)
                                  (init_database fresh_store)))
              two_rows_store _
              (steps_next _ _ _ (step_submit _ _ _) (steps_refl _)) eq_refl)
    as (d' & more & H1 & H2).
  exists d', more. split; [reflexivity|]. split; [reflexivity|].
  split; [exact H1|exact H2].
Defined.

Lemma ids_count_from_one_witness :
  exists d,
    db two_rows_store = Some d /\
    map id (rows d) = [1; 2] /\ seq d = 2 /\ NoDup (map id (rows d)).
Proof.
  eexists. split; [reflexivity|].
  destruct (ids_count_from_one two_rows_store _ reachable_two_rows eq_refl)
    as (H1 & H2 & H3).
  split; [exact H1|]. split; [exact H2|exact H3].
Defined.

Lemma backup_keeps_step_with_table_witness :
  exists d entries,
    db two_rows_store = Some d /\
    backup_entries two_rows_store = Some entries /\
    List.length entries = 2%nat /\
    Forall2 mirrors (rows d) entries.
Proof.
  eexists.
  destruct (backup_keeps_step_with_table two_rows_store _ reachable_two_rows
              eq_refl) as (entries & H1 & H2 & H3).
  exists entries. split; [reflexivity|]. split; [exact H1|].
  split; [exact H2|exact H3].
Defined.

Lemma export_writes_header_and_rows_witness :
  exists d ordered,
    db two_rows_store = Some d /\
    Permutation ordered (rows d) /\ StronglySorted text_descending ordered /\
    read_file (export_name "20240601_120000")
      (exports (snd (export_csv "20240601_120000" two_rows_store))) =
    Some (["id"; "phone_number"; "name"; "email"; "neighborhood";
           "age_group"; "voting_frequency"; "issues"; "engagement";
           "additional_comments"; "timestamp"]
          :: map (fun r =>
                    [encode_int (id r); phone_number r; name r;
                     or_default (email r) ""; neighborhood r; age_group r;
                     voting_frequency r; issues r; engagement r;
                     or_default (additional_comments r) ""; timestamp r])
                 ordered) /\
    db (snd (export_csv "20240601_120000" two_rows_store)) =
    db two_rows_store.
Proof.
  eexists.
  destruct (export_writes_header_and_rows "20240601_120000" two_rows_store _
              eq_refl)
    as (ordered & H1 & H2 & _ & H4 & _ & H7 & _).
  - discriminate.
  - exists ordered. split; [reflexivity|]. auto.
Defined.

Lemma export_and_list_agree_witness :
  exists ordered responses,
    body (get_responses two_rows_store) =
    JObj [("success", JBool true);
          ("count", JInt (Z.of_nat (List.length responses)));
          ("responses", JArr responses)] /\
    Forall2 shows ordered responses /\
    read_file (export_name "20240601_120000")
      (exports (snd (export_csv "20240601_120000" two_rows_store))) =
    Some (columns :: map csv_record ordered).
Proof.
  apply (export_and_list_agree "20240601_120000" two_rows_store _
           reachable_two_rows eq_refl).
  discriminate.
Defined.

Lemma any_issues_survive_storage_witness :
  exists rid responses,
    body (fst (submit_survey "2024-06-01T09:30:00" (JObj second_payload)
                             (init_database fresh_store))) =
    saved_body rid /\
    body (get_responses
            (snd (submit_survey "2024-06-01T09:30:00" (JObj second_payload)
                                (init_database fresh_store)))) =
    responses_body responses /\
    (exists x, In x responses /\ field "id" x = JInt rid) /\
    (forall x, In x responses -> field "id" x = JInt rid ->
               field "issues" x = JObj [("other", JInt 3)]).
Proof.
  apply (any_issues_survive_storage "2024-06-01T09:30:00" second_payload
           (init_database fresh_store)).
  - apply reachable_started.
  - reflexivity.
  - reflexivity.
Defined.

Lemma send_sms_refuses_numbers_witness :
  succeeded (fst (send_sms demo_provider demo_clock demo_repr
                           (JInt 6175550100) JNull demo_bot)) = false /\
  field "to" (fst (send_sms demo_provider demo_clock demo_repr
                            (JInt 6175550100) JNull demo_bot)) =
  JInt 6175550100 /\
  provider_calls (snd (send_sms demo_provider demo_clock demo_repr
                                (JInt 6175550100) JNull demo_bot)) = [].
Proof.
  apply (send_sms_refuses_numbers demo_provider demo_clock demo_repr
           (JInt 6175550100) JNull demo_bot).
  simpl. discriminate.
Defined.

Lemma main_fails_fast_witness :
  main demo_provider demo_clock demo_repr
       [("TWILIO_ACCOUNT_SID", "AC0001"); ("TWILIO_AUTH_TOKEN", "")]
       ["sms_bot.py"; "6175550100"] demo_files =
  mkOutcome 1 demo_files [].
Proof.
  apply main_fails_fast. left. intros (_ & H & _). discriminate H.
Defined.

Lemma single_send_run_witness :
  main demo_provider demo_clock demo_repr demo_env
       ["sms_bot.py"; "(617) 555-0100"; "Jane"] demo_files =
  mkOutcome 0 demo_files
    [mkCall (create_message demo_repr demo_bot (JStr "Jane"))
            "+16175550000" "+16175550100"].
Proof.
  apply (single_send_run demo_provider demo_clock demo_repr demo_env
           "sms_bot.py" "(617) 555-0100" ["Jane"] demo_files demo_bot).
  - reflexivity.
  - discriminate.
Defined.


